(** * Ignitron preset tools: the preset extraction pipelines

    A shallow embedding of the extraction code of
    [ignitron preset converter/ignitron_preset_converter.py] (module
    [Converter]), of [preset_puller.py] (module [Puller]) and of the bank
    list export of the list builder (module [Builder]), followed by the
    properties of the specification that can be stated on them.

    Conventions of the embedding.
    - Text is a [string] of 8-bit characters.  Python's [str.strip],
      [str.lower], [str.upper] and the regular expression class [\s] are
      Unicode aware; the definitions below agree with them on ASCII text
      (code points below 128), which is what the pedal prints.
    - [pathlib.Path] is the POSIX flavour in the modules [PathLib],
      [Converter] and [Puller]: the only separator is [/].  The Windows
      flavour, where a name can carry a drive, is the module [Windows].
    - A directory is a finite map from the path of a regular file, relative
      to that directory, to what the file holds.  [open(.., "w")] fails on
      the paths that denote a directory and on the names the operating
      system refuses (field [os_accepts] of [PyRuntime]); other failures
      of the operating system (permissions, full disk) are outside the
      model.
    - [json.loads] and the [repr] of non-string JSON values belong to the
      Python runtime; the pipelines are parameterised by them (class
      [PyRuntime]).  The extraction code only decodes text whose first
      non-blank character is an opening brace, on which the decoder returns
      a dict or raises, hence the result type [option pydict]. *)

From Stdlib Require Import Ascii String List ZArith Lia Bool.
From stdpp Require Import gmap strings pretty sorting.

(** * Python strings *)

Module Py.

Definition is_space (c : ascii) : bool :=
  let n := nat_of_ascii c in
  (9 <=? n) && (n <=? 13) || (28 <=? n) && (n <=? 32).

Definition is_digit (c : ascii) : bool :=
  let n := nat_of_ascii c in (48 <=? n) && (n <=? 57).

Definition lower_char (c : ascii) : ascii :=
  let n := nat_of_ascii c in
  if (65 <=? n) && (n <=? 90) then ascii_of_nat (n + 32) else c.

Definition upper_char (c : ascii) : ascii :=
  let n := nat_of_ascii c in
  if (97 <=? n) && (n <=? 122) then ascii_of_nat (n - 32) else c.

Fixpoint map_chars (f : ascii → ascii) (s : string) : string :=
  match s with
  | EmptyString => EmptyString
  | String c s' => String (f c) (map_chars f s')
  end.

Definition lower : string → string := map_chars lower_char.
Definition upper : string → string := map_chars upper_char.

(** [drop_while p s] is [s] without its longest prefix of characters
    satisfying [p]; [take_while p s] is that prefix. *)
Fixpoint drop_while (p : ascii → bool) (s : string) : string :=
  match s with
  | EmptyString => EmptyString
  | String c s' => if p c then drop_while p s' else s
  end.

Fixpoint take_while (p : ascii → bool) (s : string) : string :=
  match s with
  | EmptyString => EmptyString
  | String c s' => if p c then String c (take_while p s') else EmptyString
  end.

Definition lstrip_by (p : ascii → bool) : string → string := drop_while p.
Definition rstrip_by (p : ascii → bool) (s : string) : string :=
  String.rev (drop_while p (String.rev s)).

(** [s.lstrip()], [s.strip()], [s.lstrip("/")], [s.rstrip("\r\n")] *)
Definition lstrip : string → string := lstrip_by is_space.
Definition strip (s : string) : string := rstrip_by is_space (lstrip s).
Definition lstrip_slash : string → string :=
  lstrip_by (Ascii.eqb "/"%char).
Definition rstrip_crlf : string → string :=
  rstrip_by (λ c, Ascii.eqb c "013"%char || Ascii.eqb c "010"%char).

Definition startswith (pre s : string) : bool := String.prefix pre s.
Definition endswith (suf s : string) : bool :=
  String.prefix (String.rev suf) (String.rev s).

(** [sub in s] *)
Fixpoint contains (sub s : string) : bool :=
  String.prefix sub s ||
  match s with
  | EmptyString => false
  | String _ s' => contains sub s'
  end.

(** [s.find(c)] and [s.rfind(c)] for a one-character [c]; [None] is -1 *)
Fixpoint find_char (c : ascii) (s : string) : option nat :=
  match s with
  | EmptyString => None
  | String a s' => if Ascii.eqb a c then Some 0 else S <$> find_char c s'
  end.

Fixpoint rfind_char (c : ascii) (s : string) : option nat :=
  match s with
  | EmptyString => None
  | String a s' =>
      match rfind_char c s' with
      | Some i => Some (S i)
      | None => if Ascii.eqb a c then Some 0 else None
      end
  end.

(** [s[n:]] and [s[a:b]] *)
Fixpoint skip (n : nat) (s : string) : string :=
  match n, s with
  | S n', String _ s' => skip n' s'
  | _, _ => s
  end.

Definition slice (a b : nat) (s : string) : string :=
  String.substring a (b - a) s.

(** [s[s.index(c):]], defined where [c in s] *)
Definition from_first (c : ascii) (s : string) : string :=
  match find_char c s with
  | Some i => skip i s
  | None => s
  end.

(** [s.split(c, 1)[-1]] *)
Definition after_first (c : ascii) (s : string) : string :=
  match find_char c s with
  | Some i => skip (S i) s
  | None => s
  end.

(** [s.split(c)] *)
Fixpoint split_on (c : ascii) (s : string) : list string :=
  match s with
  | EmptyString => [EmptyString]
  | String a s' =>
      if Ascii.eqb a c then EmptyString :: split_on c s'
      else match split_on c s' with
           | h :: t => String a h :: t
           | [] => [String a EmptyString]
           end
  end.

(** ["\n".join(l)] *)
Definition join_lines (l : list string) : string :=
  String.concat (String "010"%char EmptyString) l.

(** [s.count(c)] for a one-character [c] *)
Fixpoint count_char (c : ascii) (s : string) : nat :=
  match s with
  | EmptyString => 0
  | String a s' => (if Ascii.eqb a c then 1 else 0) + count_char c s'
  end.

(** Truthiness of an optional string: [None] and [""] are false. *)
Definition truthy (o : option string) : option string :=
  match o with
  | Some (String _ _ as s) => Some s
  | _ => None
  end.

End Py.

(** * Regular expressions of the converter

    Each pattern is embedded as the matcher anchored at the head of the
    text, returning group 1; [re_search] tries every start position from
    left to right, as [Pattern.search] does. *)

Module Re.

Fixpoint re_search {A} (here : string → option A) (s : string) : option A :=
  match here s with
  | Some g => Some g
  | None =>
      match s with
      | EmptyString => None
      | String _ s' => re_search here s'
      end
  end.

Definition literal (lit s : string) : option string :=
  if String.prefix lit s then Some (Py.skip (String.length lit) s) else None.

Definition non_space (c : ascii) : bool := negb (Py.is_space c).

(** [Reading preset filename:\s*/?([^\s]+)]: after the blanks one slash
    is skipped when a non-blank character follows it; otherwise the group
    starts at the first non-blank character. *)
Definition FILENAME_RE_here (s : string) : option string :=
  r ← literal "Reading preset filename:" s;
  match Py.drop_while Py.is_space r with
  | EmptyString => None
  | String c r' as r0 =>
      if Ascii.eqb c "/"%char then
        match r' with
        | String d _ =>
            if Py.is_space d then Some (Py.take_while non_space r0)
            else Some (Py.take_while non_space r')
        | EmptyString => Some (Py.take_while non_space r0)
        end
      else Some (Py.take_while non_space r0)
  end.

Definition FILENAME_RE_search : string → option string :=
  re_search FILENAME_RE_here.

(** [JSON STRING:\s*(\{.*\})]: the dot stops at a line feed and the star
    is greedy, so the group runs from the brace to the last closing brace
    before the next line feed. *)
Definition JSON_RE_here (s : string) : option string :=
  r ← literal "JSON STRING:" s;
  match Py.drop_while Py.is_space r with
  | String c body =>
      if Ascii.eqb c "{"%char then
        let span := Py.take_while (λ a, negb (Ascii.eqb a "010"%char)) body in
        k ← Py.rfind_char "}"%char span;
        Some (String c (Py.slice 0 (S k) span))
      else None
  | EmptyString => None
  end.

Definition JSON_RE_search : string → option string :=
  re_search JSON_RE_here.

(** [^\s*LISTBANKS_START\s*$] and [^\s*LISTBANKS_DONE\s*$] with
    [Pattern.match]: the whole line is the word between blanks. *)
Definition LISTBANKS_START_RE_match (ln : string) : bool :=
  String.eqb (Py.strip ln) "LISTBANKS_START".
Definition LISTBANKS_DONE_RE_match (ln : string) : bool :=
  String.eqb (Py.strip ln) "LISTBANKS_DONE".

(** [^\s*--\s*Bank\s+(\d+)] with [re.IGNORECASE] and [Pattern.match] *)
Definition BANK_HEADER_RE_match (ln : string) : bool :=
  match literal "--" (Py.drop_while Py.is_space ln) with
  | Some r =>
      match literal "bank" (Py.lower (Py.drop_while Py.is_space r)) with
      | Some r' =>
          match r' with
          | String c _ =>
              Py.is_space c &&
              match Py.drop_while Py.is_space r' with
              | String d _ => Py.is_digit d
              | EmptyString => false
              end
          | EmptyString => false
          end
      | None => false
      end
  | None => false
  end.

End Re.

(** * pathlib *)

Module PathLib.

(** The components of a path that [PurePosixPath] keeps: the empty ones
    and the ones equal to [.] are dropped. *)
Definition kept (part : string) : bool :=
  negb (String.eqb part "") && negb (String.eqb part ".").

Definition parts (p : string) : list string :=
  List.filter kept (Py.split_on "/"%char p).

(** [Path(p).name] *)
Definition name (p : string) : string := default "" (last (parts p)).

(** A name that has no separator in it *)
Definition no_slash (s : string) : Prop := Py.find_char "/"%char s = None.

(** [Path(p).stem]: the name without its last suffix; a dot in first or
    last position does not start a suffix. *)
Definition stem (p : string) : string :=
  let n := name p in
  match Py.rfind_char "."%char n with
  | Some i =>
      if (0 <? i) && (i <? String.length n - 1) then Py.slice 0 i n else n
  | None => n
  end.

End PathLib.

(** * JSON values and Python dicts *)

Set Warnings "-register-all".

(** A float is carried by its [repr]; the pipelines never compute on it. *)
Inductive json : Type :=
  | JNull
  | JBool (b : bool)
  | JInt (z : Z)
  | JFloat (repr : string)
  | JString (s : string)
  | JArray (items : list json)
  | JObject (fields : list (string * json)).

(** A dict with string keys, in insertion order. *)
Definition pydict : Type := list (string * json).

Module Dict.

(** [d.get(k)] *)
Fixpoint get (k : string) (d : pydict) : option json :=
  match d with
  | [] => None
  | (k', v) :: d' => if String.eqb k' k then Some v else get k d'
  end.

(** [k in d] *)
Definition mem (k : string) (d : pydict) : bool :=
  match get k d with Some _ => true | None => false end.

(** [d[k] = v]: a present key keeps its position. *)
Fixpoint set (k : string) (v : json) (d : pydict) : pydict :=
  match d with
  | [] => [(k, v)]
  | (k', v') :: d' =>
      if String.eqb k' k then (k', v) :: d' else (k', v') :: set k v d'
  end.

(** [d.pop(k, None)] *)
Definition pop (k : string) (d : pydict) : pydict :=
  List.filter (λ kv, negb (String.eqb (fst kv) k)) d.

(** [d.setdefault(k, v)] *)
Definition setdefault (k : string) (v : json) (d : pydict) : pydict :=
  if mem k d then d else set k v d.

End Dict.

(** The part of the Python runtime the pipelines call into. *)
Class PyRuntime := {
  (** [json.loads] on a text that starts, after blanks, with a brace:
      [None] stands for the [JSONDecodeError]. *)
  json_loads : string → option pydict;
  (** [repr] of a list or dict value *)
  repr_container : json → string;
  (** Whether the operating system lets [open(out_dir / name, "w")]
      create the file [name], a single path component: it refuses a
      name that holds a NUL character ([ValueError]) and a name too long
      for the file system ([OSError]). *)
  os_accepts : string → bool;
}.

(** [str(v)] *)
Definition py_str `{PyRuntime} (v : json) : string :=
  match v with
  | JString s => s
  | JNull => "None"
  | JBool true => "True"
  | JBool false => "False"
  | JInt z => pretty z
  | JFloat r => r
  | JArray _ | JObject _ => repr_container v
  end.

(** * The output directory *)

Inductive file : Type :=
  | PresetFile (obj : pydict)   (* written by [json.dump] *)
  | RawFile (text : string).    (* written by [f.write] *)

Module FS.

(** Joined to the output directory, these names denote a directory. *)
Definition is_dir_name (name : string) : bool :=
  String.eqb name "" || String.eqb name "." || String.eqb name "..".

(** [(out_dir / name).exists()] for a non-empty [name] *)
Definition exists_ (d : gmap string file) (name : string) : bool :=
  is_dir_name name || bool_decide (is_Some (d !! name)).

(** [open(out_dir / name, "w")] followed by the write of [f]; [None]
    stands for the exception [open] raises. *)
Definition open_w `{PyRuntime} (d : gmap string file) (name : string)
    (f : file) : option (gmap string file) :=
  if is_dir_name name || negb (os_accepts name) then None
  else Some (<[name := f]> d).

(** What a run may add to a directory that held [before]: regular
    files named by a single path component. *)
Definition only_adds_basenames (before after : gmap string file) : Prop :=
  ∀ p, is_Some (after !! p) →
       is_Some (before !! p) ∨ (PathLib.no_slash p ∧ is_dir_name p = false).

End FS.

(** * The converter: [_extract_lines_to_files] and the live capture *)

Module Converter.

Record counters : Type := mkCounters {
  saved : nat;
  skipped_dupe : nat;
  skipped_no_filename : nat;
  broken : nat;
  skipped_not_in_list : nat;
}.

Record state : Type := mkState {
  stats : counters;
  entries : list string;
  current_filename : option string;
  out_dir : gmap string file;
}.

Definition count_saved (c : counters) : counters :=
  mkCounters (S (saved c)) (skipped_dupe c) (skipped_no_filename c)
             (broken c) (skipped_not_in_list c).
Definition count_dupe (c : counters) : counters :=
  mkCounters (saved c) (S (skipped_dupe c)) (skipped_no_filename c)
             (broken c) (skipped_not_in_list c).
Definition count_no_filename (c : counters) : counters :=
  mkCounters (saved c) (skipped_dupe c) (S (skipped_no_filename c))
             (broken c) (skipped_not_in_list c).
Definition count_broken (c : counters) : counters :=
  mkCounters (saved c) (skipped_dupe c) (skipped_no_filename c)
             (S (broken c)) (skipped_not_in_list c).
Definition count_not_in_list (c : counters) : counters :=
  mkCounters (saved c) (skipped_dupe c) (skipped_no_filename c)
             (broken c) (S (skipped_not_in_list c)).

Definition total (c : counters) : nat :=
  saved c + skipped_dupe c + skipped_no_filename c + skipped_not_in_list c
  + broken c.

Definition initial (dir : gmap string file) : state :=
  mkState (mkCounters 0 0 0 0 0) [] None dir.

(** [c'] is [c] with exactly one of the five counters incremented. *)
Definition one_more (c c' : counters) : Prop :=
  c' = count_saved c ∨ c' = count_dupe c ∨ c' = count_no_filename c
  ∨ c' = count_not_in_list c ∨ c' = count_broken c.

(** [include_only is not None and current_filename not in include_only] *)
Definition filtered_out (include_only : option (gset string))
    (fn : string) : bool :=
  match include_only with
  | Some keep => bool_decide (fn ∉ keep)
  | None => false
  end.

(** What holds of every state of a run with the filter [include_only] on
    a directory that held [before]: the pending filename is a single path
    component, so are the names of the files added, and a preset file
    that was added passed the filter. *)
Definition invariant (include_only : option (gset string))
    (before : gmap string file) (st : state) : Prop :=
  (∀ fn, current_filename st = Some fn → PathLib.no_slash fn)
  ∧ FS.only_adds_basenames before (out_dir st)
  ∧ ∀ fn obj, out_dir st !! fn = Some (PresetFile obj) →
              before !! fn = Some (PresetFile obj)
              ∨ filtered_out include_only fn = false.

(** The name of the stub dropped for a broken payload *)
Definition stub_name (fn : string) : string :=
  PathLib.stem fn +:+ "_BROKEN.json".

(** The [except] branch: count, then try to drop the raw text. *)
Definition on_broken `{PyRuntime} (st : state) (fn raw_json : string)
  : state :=
  mkState (count_broken (stats st)) (entries st) (current_filename st)
          (default (out_dir st)
             (FS.open_w (out_dir st) (stub_name fn) (RawFile raw_json))).

Section WithRuntime.
Context `{PyRuntime}.

(** [str(parsed.get("UUID", "UNKNOWN")).upper()] *)
Definition index_uuid (parsed : pydict) : string :=
  Py.upper (py_str (default (JString "UNKNOWN") (Dict.get "UUID" parsed))).

(** The [try] block for the payload [raw_json] of the file [fn] *)
Definition save_payload (st : state) (fn raw_json : string) : state :=
  match json_loads raw_json with
  | None => on_broken st fn raw_json
  | Some parsed =>
      if FS.exists_ (out_dir st) fn then
        mkState (count_dupe (stats st)) (entries st)
                (current_filename st) (out_dir st)
      else
        match FS.open_w (out_dir st) fn (PresetFile parsed) with
        | None => on_broken st fn raw_json
        | Some dir' =>
            mkState (count_saved (stats st))
                    (entries st ++ [fn +:+ " " +:+ index_uuid parsed])
                    (current_filename st) dir'
        end
  end.

Definition clear_filename (st : state) : state :=
  mkState (stats st) (entries st) None (out_dir st).

(** What the loop does once [JSON_RE] has matched with group [g] *)
Definition on_payload (include_only : option (gset string))
    (st : state) (g : string) : state :=
  match Py.truthy (current_filename st) with
  | None =>
      mkState (count_no_filename (stats st)) (entries st)
              (current_filename st) (out_dir st)
  | Some fn =>
      if filtered_out include_only fn then
        mkState (count_not_in_list (stats st)) (entries st) None
                (out_dir st)
      else clear_filename (save_payload st fn (Py.strip g))
  end.

(** One iteration of the loop over the lines *)
Definition step (include_only : option (gset string))
    (st : state) (raw : string) : state :=
  let line := Py.rstrip_crlf raw in
  match Re.FILENAME_RE_search line with
  | Some g =>
      mkState (stats st) (entries st)
              (Some (PathLib.name (Py.strip g))) (out_dir st)
  | None =>
      if Py.contains "JSON STRING:" line then
        match Re.JSON_RE_search line with
        | None => st
        | Some g => on_payload include_only st g
        end
      else st
  end.

Definition run_loop (include_only : option (gset string))
    (lines : list string) (st : state) : state :=
  fold_left (step include_only) lines st.

(** The payload the loop processes at the line [raw], if any: group 1
    of [JSON_RE] on a line that announces no filename. *)
Definition payload_of (raw : string) : option string :=
  let line := Py.rstrip_crlf raw in
  match Re.FILENAME_RE_search line with
  | Some _ => None
  | None =>
      if Py.contains "JSON STRING:" line then Re.JSON_RE_search line
      else None
  end.

Definition announces (raw : string) : bool :=
  bool_decide (is_Some (Re.FILENAME_RE_search (Py.rstrip_crlf raw))).

(** The converter keeps no counter of the payloads it processes; this
    is their number. *)
Definition scanned (lines : list string) : nat :=
  length (List.filter (λ raw, bool_decide (is_Some (payload_of raw))) lines).

Definition announcements (lines : list string) : nat :=
  length (List.filter announces lines).

(** 1 while an announced filename waits for its payload *)
Definition pending (st : state) : nat :=
  match Py.truthy (current_filename st) with Some _ => 1 | None => 0 end.

(** The payloads that used up an announced filename *)
Definition consumed (c : counters) : nat :=
  saved c + skipped_dupe c + broken c + skipped_not_in_list c.

Record result : Type := mkResult {
  r_stats : counters;
  r_out_dir : gmap string file;
  r_index : list string;
}.

(** The text the last loop appends to the index file for [entries]:
    [idx.write(e + "\n")] for each of them *)
Definition index_text (entries : list string) : string :=
  fold_right (λ e text, e +:+ String "010"%char EmptyString +:+ text)
             EmptyString entries.

(** [_extract_lines_to_files(lines, out_dir, index_path, include_only)]:
    [dir] is what the output directory holds at the call and [index]
    the entries written to the index file so far ([[]] when it does not
    exist); the call appends [index_text] of the new entries. *)
Definition _extract_lines_to_files (lines : list string)
    (dir : gmap string file) (index : list string)
    (include_only : option (gset string)) : result :=
  let st := run_loop include_only lines (initial dir) in
  mkResult (stats st) (out_dir st) (index ++ entries st).

End WithRuntime.

(** The list [keep] of [parse_presetlist_from_lines] *)
Fixpoint presetlist_keep (in_section : bool) (lines : list string)
  : list string :=
  match lines with
  | [] => []
  | ln :: rest =>
      if Re.LISTBANKS_START_RE_match ln then presetlist_keep true rest
      else if Re.LISTBANKS_DONE_RE_match ln then []
      else if in_section then
        if Re.BANK_HEADER_RE_match ln then presetlist_keep in_section rest
        else
          let candidate := Py.strip ln in
          if String.eqb candidate "" then presetlist_keep in_section rest
          else if Py.endswith ".json" (Py.lower candidate) then
            PathLib.name candidate :: presetlist_keep in_section rest
          else presetlist_keep in_section rest
      else presetlist_keep in_section rest
  end.

Definition parse_presetlist_from_lines (lines : list string) : gset string :=
  list_to_set (presetlist_keep false lines).

(** The filter [live_serial_capture_and_save] hands to the extraction,
    from the lines collected after the LISTBANKS request *)
Definition live_include_only (include_only_active : bool)
    (banks_lines : list string) : option (gset string) :=
  match banks_lines with
  | _ :: _ =>
      if include_only_active then
        Some (parse_presetlist_from_lines banks_lines)
      else None
  | [] => None
  end.

Definition bank_header (bank_num : nat) : string :=
  "-- Bank " +:+ pretty bank_num.

(** The lines of [dist/PresetList_*.txt]: [files] chunked in fours *)
Fixpoint presetlist_lines (bank_num : nat) (files : list string)
  : list string :=
  match files with
  | [] => []
  | a :: b :: c :: d :: rest =>
      bank_header bank_num :: a :: b :: c :: d
        :: presetlist_lines (S bank_num) rest
  | chunk => bank_header bank_num :: chunk
  end.

(** Whether the live capture writes the list:
    [include_only_active and include_only] *)
Definition writes_presetlist (include_only_active : bool)
    (include_only : option (gset string)) : bool :=
  include_only_active &&
  match include_only with
  | Some keep => negb (bool_decide (keep = ∅))
  | None => false
  end.

(** [files] is [list(include_only)], an enumeration of the set in the
    order the interpreter iterates it. *)
Definition live_presetlist (files : list string) : list string :=
  presetlist_lines 1 files.

End Converter.

(** * The puller: [_extract_lines_to_files] of [preset_puller.py] *)

Module Puller.

(** [_basename] *)
Definition _basename (name : string) : string :=
  PathLib.name (Py.lstrip_slash (Py.strip name)).

(** [_clean_json_text] *)
Definition _clean_json_text (text : string) : string :=
  match Py.find_char "{"%char text, Py.rfind_char "}"%char text with
  | Some start, Some end_ =>
      if start <=? end_ then Py.slice start (S end_) text else text
  | _, _ => text
  end.

(** [_normalize_for_ignitron] *)
Definition _normalize_for_ignitron `{PyRuntime} (preset : pydict) : pydict :=
  let preset := Dict.pop "PresetNumber" preset in
  let preset := Dict.setdefault "Version" (JString "0.7") preset in
  let preset := Dict.setdefault "Description" (JString "") preset in
  let preset := Dict.setdefault "Icon" (JString "icon.png") preset in
  let preset := Dict.setdefault "BPM" (JFloat "120.0") preset in
  match Dict.get "UUID" preset with
  | Some v => Dict.set "UUID" (JString (Py.upper (py_str v))) preset
  | None => preset
  end.

(** The backfilled fields and their defaults, as the four [setdefault]
    calls have them *)
Definition defaults : list (string * json) :=
  [("Version", JString "0.7"); ("Description", JString "");
   ("Icon", JString "icon.png"); ("BPM", JFloat "120.0")].

(** [(include_only is None) or (base in include_only)] *)
Definition kept (include_only : option (gset string)) (base : string) : bool :=
  match include_only with
  | None => true
  | Some keep => bool_decide (base ∈ keep)
  end.

(** [_write_preset_file]: the flag it returns and the directory after the
    call (the identifier it also returns is not used by the caller). *)
Definition _write_preset_file `{PyRuntime} (filename : string)
    (buffer : list string) (dir : gmap string file)
    (include_only : option (gset string)) : bool * gmap string file :=
  let json_text := _clean_json_text (Py.join_lines buffer) in
  match json_loads json_text with
  | None => (false, dir)
  | Some preset =>
      let preset := _normalize_for_ignitron preset in
      let base := _basename filename in
      if kept include_only base then
        match FS.open_w dir base (PresetFile preset) with
        | Some dir' => (true, dir')
        | None => (false, dir)
        end
      else (false, dir)
  end.

Record counters : Type := mkCounters {
  scanned : nat;
  saved : nat;
  skipped : nat;
  duplicate : nat;
}.

Record state : Type := mkState {
  stats : counters;
  seen_files : gset string;
  filename : option string;
  buffer : list string;
  collecting : bool;
  out_dir : gmap string file;
}.

Definition initial (dir : gmap string file) : state :=
  mkState (mkCounters 0 0 0 0) ∅ None [] false dir.

Definition balanced (c : counters) : Prop :=
  scanned c = saved c + skipped c + duplicate c.

(** What holds of every state of a run on a directory that held
    [before]: the files added are named by a single path component, and
    the name of each is in [seen_files]. *)
Definition invariant (before : gmap string file) (st : state) : Prop :=
  FS.only_adds_basenames before (out_dir st)
  ∧ ∀ p, is_Some (out_dir st !! p) →
         is_Some (before !! p) ∨ p ∈ seen_files st.

(** The state [st] when the directory also holds the files of [d] that
    the run has not written *)
Definition onto (d : gmap string file) (st : state) : state :=
  mkState (stats st) (seen_files st) (filename st) (buffer st)
          (collecting st) (out_dir st ∪ d).

(** [c'] is [c] with [scanned] and exactly one of the three outcome
    counters incremented. *)
Definition one_more (c c' : counters) : Prop :=
  c' = mkCounters (S (scanned c)) (S (saved c)) (skipped c) (duplicate c)
  ∨ c' = mkCounters (S (scanned c)) (saved c) (S (skipped c)) (duplicate c)
  ∨ c' = mkCounters (S (scanned c)) (saved c) (skipped c) (S (duplicate c)).

Section WithRuntime.
Context `{PyRuntime}.

(** The block guarded by [if filename and buffer:], which the source
    has once inside the loop and once after it *)
Definition flush (include_only : option (gset string)) (st : state)
  : state :=
  match Py.truthy (filename st), buffer st with
  | Some fn, _ :: _ =>
      let c := stats st in
      let base := _basename fn in
      if bool_decide (base ∈ seen_files st) then
        mkState (mkCounters (S (scanned c)) (saved c) (skipped c)
                            (S (duplicate c)))
                (seen_files st) (filename st) (buffer st)
                (collecting st) (out_dir st)
      else
        let '(ok, dir') :=
          _write_preset_file fn (buffer st) (out_dir st) include_only in
        mkState (if ok
                 then mkCounters (S (scanned c)) (S (saved c)) (skipped c)
                                 (duplicate c)
                 else mkCounters (S (scanned c)) (saved c) (S (skipped c))
                                 (duplicate c))
                (seen_files st ∪ {[base]}) (filename st) (buffer st)
                (collecting st) dir'
  | _, _ => st
  end.

Definition push (st : state) (text : string) : state :=
  mkState (stats st) (seen_files st) (filename st) (buffer st ++ [text])
          true (out_dir st).

(** One iteration of the loop over the lines *)
Definition step (include_only : option (gset string)) (st : state)
    (ln : string) : state :=
  if Py.startswith "reading preset filename:" (Py.lower ln) then
    let st' := flush include_only st in
    mkState (stats st') (seen_files st')
            (Some (Py.strip (Py.after_first ":"%char ln))) [] false
            (out_dir st')
  else if Py.contains "JSON STRING" ln && Py.contains "{" ln then
    push st (Py.from_first "{"%char ln)
  else if Py.startswith "{" (Py.lstrip ln) then push st ln
  else if collecting st then
    mkState (stats st) (seen_files st) (filename st) (buffer st ++ [ln])
            (collecting st) (out_dir st)
  else st.

Definition run_loop (include_only : option (gset string))
    (lines : list string) (st : state) : state :=
  fold_left (step include_only) lines st.

(** The three tests of the loop on a line *)
Definition announces (ln : string) : bool :=
  Py.startswith "reading preset filename:" (Py.lower ln).


(** [_extract_lines_to_files(lines, out_dir, include_only)]: the
    statistics it returns and the directory after the call *)
Definition _extract_lines_to_files (lines : list string)
    (dir : gmap string file) (include_only : option (gset string))
  : counters * gmap string file :=
  let st := flush include_only (run_loop include_only lines (initial dir)) in
  (stats st, out_dir st).

End WithRuntime.

End Puller.

(** * pathlib on Windows

    [PureWindowsPath] as Python 3.11 parses and joins it, for the paths
    that do not begin with two separators (UNC and extended paths are left
    out: [parse] is [None] on them).  Both [/] and the backslash separate
    components, and a path can begin with a drive, a letter and a colon. *)

Module Windows.

Definition sep : ascii := "092"%char.

Definition is_sep (c : ascii) : bool :=
  Ascii.eqb c sep || Ascii.eqb c "/"%char.

Definition is_letter (c : ascii) : bool :=
  let n := nat_of_ascii c in
  (65 <=? n) && (n <=? 90) || (97 <=? n) && (n <=? 122).

(** A parsed path: [parts] without the anchor [drive + root] *)
Record path : Type := mkPath {
  drive : string;
  root : string;
  tail : list string;
}.

(** [part.replace("/", "\\")] *)
Definition to_sep : string → string :=
  Py.map_chars (λ c, if Ascii.eqb c "/"%char then sep else c).

(** The components of [rel] that are kept: not empty and not [.] *)
Definition components (rel : string) : list string :=
  List.filter PathLib.kept (Py.split_on sep rel).

(** [PureWindowsPath(p)] *)
Definition parse (p : string) : option path :=
  let p := to_sep p in
  match p with
  | String a (String b _) =>
      if Ascii.eqb a sep && Ascii.eqb b sep then None
      else
        let '(drv, rest) :=
          if Ascii.eqb b ":"%char && is_letter a
          then (String a (String b EmptyString), Py.skip 2 p)
          else (EmptyString, p) in
        Some (match rest with
              | String c _ =>
                  if Ascii.eqb c sep
                  then mkPath drv (String sep EmptyString)
                         (components (Py.drop_while (Ascii.eqb sep) rest))
                  else mkPath drv EmptyString (components rest)
              | EmptyString => mkPath drv EmptyString []
              end)
  | String a EmptyString =>
      Some (if Ascii.eqb a sep then mkPath EmptyString (String sep EmptyString) []
            else mkPath EmptyString EmptyString (components p))
  | EmptyString => Some (mkPath EmptyString EmptyString [])
  end.

(** [PureWindowsPath(p).name] *)
Definition name (p : string) : option string :=
  (λ q, default EmptyString (last (tail q))) <$> parse p.

(** [a / b] on parsed paths *)
Definition joinpath (a b : path) : path :=
  match root b, drive b with
  | String _ _, EmptyString =>
      match drive a with
      | String _ _ => mkPath (drive a) (root b) (tail b)
      | EmptyString => b
      end
  | String _ _, String _ _ => b
  | EmptyString, String _ _ =>
      if String.eqb (Py.lower (drive b)) (Py.lower (drive a))
      then mkPath (drive a) (root a) (tail a ++ tail b)
      else b
  | EmptyString, EmptyString => mkPath (drive a) (root a) (tail a ++ tail b)
  end.

(** [str(p)] *)
Definition render (p : path) : string :=
  match drive p, root p, tail p with
  | EmptyString, EmptyString, [] => "."
  | _, _, _ =>
      drive p +:+ root p +:+ String.concat (String sep EmptyString) (tail p)
  end.

(** Whether [p] is a file directly inside the directory [d] *)
Definition directly_inside (d p : path) : bool :=
  String.eqb (drive p) (drive d) && String.eqb (root p) (root d)
  && bool_decide (tail p ≠ [] ∧ removelast (tail p) = tail d).

(** [current_filename] after the announcement [raw], lines 133-139 of
    the converter *)
Definition announced (raw : string) : option string :=
  g ← Re.FILENAME_RE_search (Py.rstrip_crlf raw); name (Py.strip g).

(** [_basename] of the puller *)
Definition _basename (n : string) : option string :=
  name (Py.lstrip_slash (Py.strip n)).

(** [out_dir / filename] *)
Definition out_file (out_dir filename : string) : option path :=
  d ← parse out_dir; f ← parse filename; Some (joinpath d f).

End Windows.

(** * The list builder: [PresetListBuilder._export] *)

Module Builder.

(** [slots b s] is what [self.slots[(b, s)]] holds. *)
Definition assigned_in (slots : nat → nat → option string) (b : nat)
  : list string :=
  omap (slots b) [1; 2; 3; 4].

(** [n] rounds of [assigned.append(assigned[-1])] *)
Fixpoint pad (n : nat) (assigned : list string) : list string :=
  match n with
  | 0 => assigned
  | S n' =>
      match last assigned with
      | Some fn => pad n' (assigned ++ [fn])
      | None => assigned
      end
  end.

(** [while len(assigned) < 4: assigned.append(assigned[-1])] *)
Definition pad_to_four (assigned : list string) : list string :=
  pad (4 - length assigned) assigned.

Definition any_placed (bank_count : nat) (slots : nat → nat → option string)
  : bool :=
  existsb (λ b, match assigned_in slots b with [] => false | _ => true end)
          (seq 1 bank_count).

(** The loop over the banks; [None] is the return after the error box. *)
Fixpoint export_banks (slots : nat → nat → option string)
    (globally_last : option string) (banks : list nat)
  : option (list string) :=
  match banks with
  | [] => Some []
  | b :: rest =>
      assigned ← match assigned_in slots b with
                 | [] => fn ← globally_last; Some [fn]
                 | l => Some l
                 end;
      tail ← export_banks slots globally_last rest;
      Some (Converter.bank_header b :: take 4 (pad_to_four assigned) ++ tail)
  end.

(** The lines [_export] writes, or [None] when it writes nothing *)
Definition _export (bank_count : nat) (slots : nat → nat → option string)
    (last_placed_global : option string) : option (list string) :=
  if any_placed bank_count slots then
    export_banks slots last_placed_global (seq 1 bank_count)
  else None.

End Builder.

(** * A reference runtime

    A decoder for the fragment of JSON made of objects, arrays, strings
    (with the one-character escapes), integers and the three literals, and
    the [repr] of values whose strings need no escaping.  On this fragment
    it returns what [json.loads] returns, and it rejects, as [json.loads]
    does, a text that is not JSON.  It instantiates [PyRuntime] in the
    examples; no general statement depends on it. *)

Module Ref.

Definition quote : ascii := "034"%char.

Definition json_ws (c : ascii) : bool :=
  Ascii.eqb c " "%char || Ascii.eqb c "009"%char ||
  Ascii.eqb c "010"%char || Ascii.eqb c "013"%char.

Definition skip_ws : string → string := Py.drop_while json_ws.

Definition unescape (c : ascii) : option ascii :=
  if Ascii.eqb c quote then Some quote
  else if Ascii.eqb c "\"%char then Some "\"%char
  else if Ascii.eqb c "/"%char then Some "/"%char
  else if Ascii.eqb c "n"%char then Some "010"%char
  else if Ascii.eqb c "t"%char then Some "009"%char
  else if Ascii.eqb c "r"%char then Some "013"%char
  else if Ascii.eqb c "b"%char then Some "008"%char
  else if Ascii.eqb c "f"%char then Some "012"%char
  else None.

(** The text after an opening quote: the string and what follows it *)
Fixpoint string_body (s : string) : option (string * string) :=
  match s with
  | EmptyString => None
  | String c s' =>
      if Ascii.eqb c quote then Some (EmptyString, s')
      else if Ascii.eqb c "\"%char then
        match s' with
        | String e s'' =>
            ch ← unescape e;
            '(r, rest) ← string_body s'';
            Some (String ch r, rest)
        | EmptyString => None
        end
      else if nat_of_ascii c <? 32 then None
      else '(r, rest) ← string_body s'; Some (String c r, rest)
  end.

Fixpoint digits (acc : Z) (s : string) : Z * string :=
  match s with
  | String c s' =>
      if Py.is_digit c
      then digits (acc * 10 + Z.of_nat (nat_of_ascii c - 48)) s'
      else (acc, s)
  | EmptyString => (acc, s)
  end.

Definition starts_with_digit (s : string) : bool :=
  match s with String c _ => Py.is_digit c | EmptyString => false end.

Definition unsigned (s : string) : option (Z * string) :=
  match s with
  | String c s' =>
      if negb (Py.is_digit c) then None
      else if Ascii.eqb c "0"%char && starts_with_digit s' then None
      else
        let '(z, rest) := digits 0 s in
        match rest with
        | String d _ =>
            if Ascii.eqb d "."%char || Ascii.eqb d "e"%char
               || Ascii.eqb d "E"%char
            then None else Some (z, rest)
        | EmptyString => Some (z, rest)
        end
  | EmptyString => None
  end.

Definition number (s : string) : option (json * string) :=
  match s with
  | String c s' =>
      if Ascii.eqb c "-"%char
      then '(z, rest) ← unsigned s'; Some (JInt (- z), rest)
      else '(z, rest) ← unsigned s; Some (JInt z, rest)
  | EmptyString => None
  end.

Fixpoint value (fuel : nat) (s : string) : option (json * string) :=
  match fuel with
  | 0 => None
  | S fuel' =>
      match s with
      | EmptyString => None
      | String c s' =>
          if Ascii.eqb c "{"%char then
            match skip_ws s' with
            | String d r =>
                if Ascii.eqb d "}"%char then Some (JObject [], r)
                else '(o, rest) ← members fuel' [] (String d r);
                     Some (JObject o, rest)
            | EmptyString => None
            end
          else if Ascii.eqb c "["%char then
            match skip_ws s' with
            | String d r =>
                if Ascii.eqb d "]"%char then Some (JArray [], r)
                else '(l, rest) ← items fuel' [] (String d r);
                     Some (JArray l, rest)
            | EmptyString => None
            end
          else if Ascii.eqb c quote then
            '(str, rest) ← string_body s'; Some (JString str, rest)
          else if String.prefix "true" s then Some (JBool true, Py.skip 4 s)
          else if String.prefix "false" s then Some (JBool false, Py.skip 5 s)
          else if String.prefix "null" s then Some (JNull, Py.skip 4 s)
          else number s
      end
  end
with members (fuel : nat) (acc : pydict) (s : string)
  : option (pydict * string) :=
  match fuel with
  | 0 => None
  | S fuel' =>
      match s with
      | String c s1 =>
          if Ascii.eqb c quote then
            '(k, s2) ← string_body s1;
            match skip_ws s2 with
            | String d s3 =>
                if Ascii.eqb d ":"%char then
                  '(v, s4) ← value fuel' (skip_ws s3);
                  match skip_ws s4 with
                  | String e s5 =>
                      if Ascii.eqb e ","%char
                      then members fuel' (Dict.set k v acc) (skip_ws s5)
                      else if Ascii.eqb e "}"%char
                      then Some (Dict.set k v acc, s5)
                      else None
                  | EmptyString => None
                  end
                else None
            | EmptyString => None
            end
          else None
      | EmptyString => None
      end
  end
with items (fuel : nat) (acc : list json) (s : string)
  : option (list json * string) :=
  match fuel with
  | 0 => None
  | S fuel' =>
      '(v, s1) ← value fuel' s;
      match skip_ws s1 with
      | String e s2 =>
          if Ascii.eqb e ","%char
          then items fuel' (acc ++ [v]) (skip_ws s2)
          else if Ascii.eqb e "]"%char then Some (acc ++ [v], s2)
          else None
      | EmptyString => None
      end
  end.

Definition loads (text : string) : option pydict :=
  let s := skip_ws text in
  '(v, rest) ← value (2 * String.length s + 2) s;
  match v, skip_ws rest with
  | JObject o, EmptyString => Some o
  | _, _ => None
  end.

Fixpoint repr (v : json) : string :=
  match v with
  | JNull => "None"
  | JBool true => "True"
  | JBool false => "False"
  | JInt z => pretty z
  | JFloat r => r
  | JString s => "'" +:+ s +:+ "'"
  | JArray l => "[" +:+ String.concat ", " (map repr l) +:+ "]"
  | JObject o =>
      "{" +:+ String.concat ", "
                (map (λ kv, let '(k, x) := kv in
                            "'" +:+ k +:+ "': " +:+ repr x) o)
          +:+ "}"
  end.

(** What a Linux file system accepts as a file name: no NUL character
    and at most 255 bytes *)
Definition accepts (name : string) : bool :=
  negb (bool_decide (is_Some (Py.find_char "000"%char name)))
  && (String.length name <=? 255).

Definition runtime : PyRuntime :=
  {| json_loads := loads; repr_container := repr; os_accepts := accepts |}.

(** [q s] is [s] between double quotes. *)
Definition q (s : string) : string :=
  String quote s +:+ String quote EmptyString.

End Ref.

(** * The serial reader: the loop of [SerialReader.run] *)

Module Reader.

Definition LF : ascii := "010"%char.
Definition CR : ascii := "013"%char.

(** [s.rstrip("\r")] *)
Definition rstrip_cr : string → string := Py.rstrip_by (Ascii.eqb CR).

Section WithDecoder.
(** [bytes.decode(errors="ignore")] of the runtime *)
Variable decode : string → string.

(** The line put on the queue for the bytes [buf] *)
Definition emit (buf : string) : string := rstrip_cr (decode buf).

(** The body of [for b in chunk], on the buffer and the queue *)
Definition on_byte (st : string * list string) (b : ascii)
  : string * list string :=
  let '(buf, queue) := st in
  if Ascii.eqb b LF then (EmptyString, queue ++ [emit buf])
  else if Ascii.eqb b CR then (buf, queue)
  else (buf +:+ String b EmptyString, queue).

Fixpoint on_chunk (st : string * list string) (chunk : string)
  : string * list string :=
  match chunk with
  | EmptyString => st
  | String b rest => on_chunk (on_byte st b) rest
  end.

(** The loop over the chunks that [ser.read] returns; an empty chunk is
    skipped. *)
Definition run (chunks : list string) (st : string * list string)
  : string * list string :=
  fold_left on_chunk chunks st.

End WithDecoder.

(** [s] without its carriage returns *)
Fixpoint without_cr (s : string) : string :=
  match s with
  | EmptyString => EmptyString
  | String b rest =>
      if Ascii.eqb b CR then without_cr rest else String b (without_cr rest)
  end.

End Reader.

(** * The live capture: collecting the answer to a request *)

Module Live.

(** What one [reader.q.get(timeout=..)] gives: nothing within the timeout,
    a line, or the error message of the reader. *)
Inductive event : Type :=
  | QEmpty
  | QLine (line : string)
  | QError (message : string).

(** The two collecting loops of [live_serial_capture_and_save], over the
    events that occur before the deadline: the lines kept from the first
    one that matches [start]; the loop ends at the line that matches
    [done], at an error and, when [idle_ends] and the start was seen, at a
    timeout. *)
Fixpoint collect (start done : string → bool) (idle_ends : bool)
    (got : bool) (events : list event) : list string :=
  match events with
  | [] => []
  | QEmpty :: rest =>
      if idle_ends && got then []
      else collect start done idle_ends got rest
  | QError _ :: _ => []
  | QLine line :: rest =>
      let got := got || start line in
      let kept := if got then [line] else [] in
      if done line then kept
      else kept ++ collect start done idle_ends got rest
  end.

(** [^\s*LISTPRESETS_START\s*$] and [^\s*LISTPRESETS_DONE\s*$] *)
Definition LISTPRESETS_START_RE_match (ln : string) : bool :=
  String.eqb (Py.strip ln) "LISTPRESETS_START".
Definition LISTPRESETS_DONE_RE_match (ln : string) : bool :=
  String.eqb (Py.strip ln) "LISTPRESETS_DONE".

(** [banks_lines] and [presets_lines] *)
Definition banks_lines (events : list event) : list string :=
  collect Re.LISTBANKS_START_RE_match Re.LISTBANKS_DONE_RE_match false false
          events.
Definition presets_lines (events : list event) : list string :=
  collect LISTPRESETS_START_RE_match LISTPRESETS_DONE_RE_match true false
          events.

(** [l] is delimited by [start] and [done]: it begins, if at all, with
    a line that matches [start], and no line but its last matches
    [done]. *)
Definition delimited (start done : string → bool) (l : list string) : Prop :=
  (∀ h, head l = Some h → start h = true)
  ∧ ∀ i x, l !! i = Some x → S i < length l → done x = false.

(** The lines among the events *)
Definition lines_of (events : list event) : list string :=
  omap (λ e, match e with QLine l => Some l | _ => None end) events.

End Live.

(** * The converter on a folder of logs *)

Module Folder.

Definition add (a b : Converter.counters) : Converter.counters :=
  Converter.mkCounters
    (Converter.saved a + Converter.saved b)
    (Converter.skipped_dupe a + Converter.skipped_dupe b)
    (Converter.skipped_no_filename a + Converter.skipped_no_filename b)
    (Converter.broken a + Converter.broken b)
    (Converter.skipped_not_in_list a + Converter.skipped_not_in_list b).

(** [st1] is [st2] after a run that counted [c] and recorded the entries
    [e]: the same directory, the same pending filename as far as its
    truth value goes, and the counters and entries of [st2] on top of [c]
    and [e]. *)
Definition continues (c : Converter.counters) (e : list string)
    (st1 st2 : Converter.state) : Prop :=
  Converter.stats st1 = add c (Converter.stats st2)
  ∧ Converter.entries st1 = e ++ Converter.entries st2
  ∧ Converter.out_dir st1 = Converter.out_dir st2
  ∧ Py.truthy (Converter.current_filename st1)
    = Py.truthy (Converter.current_filename st2).

(** [extract_presets_from_folder]: [files] are the lines of the [.txt]
    and [.log] files of the folder, in the order of the two globs. *)
Definition extract_presets_from_folder `{PyRuntime}
    (files : list (list string)) (dir : gmap string file)
    (index : list string) (include_only : option (gset string))
  : Converter.result :=
  fold_left
    (λ acc lines,
       let s := Converter._extract_lines_to_files lines
                  (Converter.r_out_dir acc) (Converter.r_index acc)
                  include_only in
       Converter.mkResult (add (Converter.r_stats acc) (Converter.r_stats s))
         (Converter.r_out_dir s) (Converter.r_index s))
    files
    (Converter.mkResult (Converter.mkCounters 0 0 0 0 0) dir index).

End Folder.

(** * The list builder: slots, counts and the double click *)

Module Gui.

Record gui : Type := mkGui {
  bank_count : nat;
  slots : nat → nat → option string;
  used_counts : gmap string nat;
  last_placed_global : option string;
}.

(** The state [__init__] builds for the presets named [files] *)
Definition start (banks : nat) (files : list string) : gui :=
  mkGui banks (λ _ _, None) (list_to_map ((λ fn, (fn, 0)) <$> files)) None.

(** [self.slots[(bank, slot)] = v] *)
Definition set_slot (slots : nat → nat → option string) (bank slot : nat)
    (v : option string) : nat → nat → option string :=
  λ b s, if decide (b = bank ∧ s = slot) then v else slots b s.

(** The slots of the grid, in reading order *)
Definition cells (banks : nat) : list (nat * nat) :=
  b ← seq 1 banks; (λ s, (b, s)) <$> [1; 2; 3; 4].

Definition in_grid (banks b s : nat) : bool :=
  bool_decide ((b, s) ∈ cells banks).

(** [_assign_to_slot] *)
Definition _assign_to_slot (g : gui) (bank slot : nat) (filename : string)
  : gui :=
  mkGui (bank_count g) (set_slot (slots g) bank slot (Some filename))
        (<[filename := default 0 (used_counts g !! filename) + 1]>
           (used_counts g))
        (Some filename).

(** [_clear_slot] on the slot of the widget clicked *)
Definition _clear_slot (g : gui) (b s : nat) : gui :=
  match Py.truthy (slots g b s) with
  | Some filename =>
      mkGui (bank_count g) (set_slot (slots g) b s None)
            (match used_counts g !! filename with
             | Some n => <[filename := Nat.pred n]> (used_counts g)
             | None => used_counts g
             end)
            (last_placed_global g)
  | None => g
  end.

(** [_clear_all] *)
Definition _clear_all (g : gui) : gui :=
  mkGui (bank_count g)
        (λ b s, if in_grid (bank_count g) b s then None else slots g b s)
        ((λ _, 0) <$> used_counts g) None.

(** [_on_double_click] on the preset [filename] of the list *)
Definition _on_double_click (g : gui) (filename : string) : gui :=
  match List.find (λ c, bool_decide (slots g c.1 c.2 = None))
                  (cells (bank_count g)) with
  | Some (b, s) => _assign_to_slot g b s filename
  | None => g
  end.

(** What the user does, apart from the random fill *)
Inductive action : Type :=
  | Drop (bank slot : nat) (filename : string)
  | DoubleClick (filename : string)
  | RightClick (bank slot : nat)
  | ClearAll.

Definition perform (g : gui) (a : action) : gui :=
  match a with
  | Drop b s fn => _assign_to_slot g b s fn
  | DoubleClick fn => _on_double_click g fn
  | RightClick b s => _clear_slot g b s
  | ClearAll => _clear_all g
  end.

(** Whether the action is on a slot widget of a grid of [banks] banks *)
Definition on_widget (banks : nat) (a : action) : bool :=
  match a with
  | Drop b s _ | RightClick b s => in_grid banks b s
  | DoubleClick _ | ClearAll => true
  end.

(** The number of slots of the grid that hold [filename] *)
Definition placed (g : gui) (filename : string) : nat :=
  length (List.filter (λ c, bool_decide (slots g c.1 c.2 = Some filename))
                      (cells (bank_count g))).

(** [self.used_counts.get(fn, 0)], what [_refresh_list_colors] reads *)
Definition used (g : gui) (filename : string) : nat :=
  default 0 (used_counts g !! filename).

(** Reading order: bank by bank, slot by slot *)
Definition precedes (c1 c2 : nat * nat) : Prop :=
  c1.1 < c2.1 ∨ (c1.1 = c2.1 ∧ c1.2 < c2.2).

(** [_export] in the state [g] *)
Definition _export (g : gui) : option (list string) :=
  Builder._export (bank_count g) (slots g) (last_placed_global g).

End Gui.

(** * Inputs of the examples *)

Module Scenario.

Definition announce_tone1 : string := "Reading preset filename: /Tone1.json".

(** The object of the specification's scenario, on one line *)
Definition tone1_json : string :=
  "{" +:+ Ref.q "UUID" +:+ ":" +:+ Ref.q "abc-1" +:+ ","
      +:+ Ref.q "Name" +:+ ":" +:+ Ref.q "Tone1" +:+ "}".

Definition tone1_lines : list string :=
  [announce_tone1; "JSON STRING: " +:+ tone1_json].



(** An announced payload that is not JSON *)
Definition broken_lines : list string :=
  ["Reading preset filename: /Bad.json"; "JSON STRING: {bad}"].

(** The same filename announced twice, with different objects *)
Definition other_json : string :=
  "{" +:+ Ref.q "UUID" +:+ ":" +:+ Ref.q "ffff" +:+ "}".

Definition tone1_again : list string :=
  tone1_lines ++ [announce_tone1].

(** A bank list that names no file *)
Definition empty_banks : list string := ["LISTBANKS_START"; "LISTBANKS_DONE"].

(** Two bank lists with the same names in different orders *)
Definition banks_ab : list string :=
  ["LISTBANKS_START"; "-- Bank 1"; "A.json"; "B.json"; "LISTBANKS_DONE"].
Definition banks_ba : list string :=
  ["LISTBANKS_START"; "-- Bank 1"; "B.json"; "A.json"; "LISTBANKS_DONE"].

Definition tone1_object : pydict :=
  [("UUID", JString "abc-1"); ("Name", JString "Tone1")].

Definition tone1_normalized : pydict :=
  [("UUID", JString "ABC-1"); ("Name", JString "Tone1");
   ("Version", JString "0.7"); ("Description", JString "");
   ("Icon", JString "icon.png"); ("BPM", JFloat "120.0")].

Definition marker_tone1 : string := "JSON STRING: " +:+ tone1_json.
Definition marker_other : string := "JSON STRING: " +:+ other_json.

(** The converter after the announcement of [Tone1.json], and after the
    first payload and the second announcement *)
Definition converter_pending : Converter.state :=
  Converter.step (H:=Ref.runtime) None (Converter.initial ∅) announce_tone1.
Definition converter_again : Converter.state :=
  Converter.run_loop (H:=Ref.runtime) None tone1_again (Converter.initial ∅).


(** The puller holding a second payload for [Tone1.json] *)
Definition puller_again : Puller.state :=
  Puller.run_loop (H:=Ref.runtime) None (tone1_again ++ [marker_other])
    (Puller.initial ∅).

(** The puller holding the payload of [Tone1.json], before the hand-off *)
Definition puller_pending : Puller.state :=
  Puller.run_loop (H:=Ref.runtime) None tone1_lines (Puller.initial ∅).

(** The puller holding a payload that is not JSON *)
Definition puller_bad : Puller.state :=
  Puller.run_loop (H:=Ref.runtime) None broken_lines (Puller.initial ∅).

(** An announcement whose last component carries a drive *)
Definition announce_drive : string :=
  "Reading preset filename: x/C:evil.json".

(** An announcement that climbs out of the directory *)
Definition climbing_lines : list string :=
  ["Reading preset filename: ../../etc/Tone1.json"; marker_tone1].

(** A builder grid with bank 1 full of [A] and [E] alone in bank 2 *)
Definition slots_a_e (b s : nat) : option string :=
  if decide (b = 1) then Some "A"
  else if decide (b = 2 ∧ s = 3) then Some "E" else None.

End Scenario.

(** * Properties *)

(** ** Dicts *)

Section DictFacts.
Implicit Types (k : string) (v : json) (d : pydict).

Lemma dict_get_set_eq k v d : Dict.get k (Dict.set k v d) = Some v.
Proof.
  induction d as [|[k' v'] d IH]; simpl.
  - by rewrite String.eqb_refl.
  - destruct (String.eqb_spec k' k) as [->|Hne]; simpl.
    + by rewrite String.eqb_refl.
    + by apply String.eqb_neq in Hne as ->.
Qed.

Lemma dict_get_set_ne k k' v d :
  k ≠ k' → Dict.get k' (Dict.set k v d) = Dict.get k' d.
Proof.
  intros Hne. induction d as [|[k0 v0] d IH]; simpl.
  - by apply String.eqb_neq in Hne as ->.
  - destruct (String.eqb_spec k0 k) as [->|Hk]; simpl.
    + by apply String.eqb_neq in Hne as ->.
    + by rewrite IH.
Qed.

Lemma dict_get_pop_eq k d : Dict.get k (Dict.pop k d) = None.
Proof.
  induction d as [|[k0 v0] d IH]; simpl; [done|].
  destruct (String.eqb_spec k0 k) as [->|Hk]; simpl; [done|].
  by apply String.eqb_neq in Hk as ->.
Qed.

Lemma dict_get_pop_ne k k' d :
  k ≠ k' → Dict.get k' (Dict.pop k d) = Dict.get k' d.
Proof.
  intros Hne. induction d as [|[k0 v0] d IH]; simpl; [done|].
  destruct (String.eqb_spec k0 k) as [->|Hk]; simpl.
  - by apply String.eqb_neq in Hne as ->.
  - by rewrite IH.
Qed.

Lemma dict_get_setdefault_ne k k' v d :
  k ≠ k' → Dict.get k' (Dict.setdefault k v d) = Dict.get k' d.
Proof.
  intros Hne. unfold Dict.setdefault.
  destruct (Dict.mem k d); [done|]. by apply dict_get_set_ne.
Qed.

Lemma dict_get_setdefault_eq k v d :
  Dict.get k (Dict.setdefault k v d) = Some (default v (Dict.get k d)).
Proof.
  unfold Dict.setdefault, Dict.mem.
  destruct (Dict.get k d) as [x|] eqn:Hget; simpl; [done|].
  apply dict_get_set_eq.
Qed.

End DictFacts.

(** ** Schema normalisation of the puller *)

Section Normalize.
Context `{PyRuntime}.

(** What the four [setdefault] calls do to a key, in one equation. *)
Lemma get_after_defaults (k : string) (d : pydict) :
  Dict.get k
    (Dict.setdefault "BPM" (JFloat "120.0")
       (Dict.setdefault "Icon" (JString "icon.png")
          (Dict.setdefault "Description" (JString "")
             (Dict.setdefault "Version" (JString "0.7") d))))
  = match Dict.get k d with
    | Some v => Some v
    | None => Dict.get k Puller.defaults
    end.
Proof.
  destruct (decide (k = "BPM")) as [->|?];
    [rewrite dict_get_setdefault_eq, !dict_get_setdefault_ne by done;
     by destruct (Dict.get "BPM" d)|rewrite dict_get_setdefault_ne by done].
  destruct (decide (k = "Icon")) as [->|?];
    [rewrite dict_get_setdefault_eq, !dict_get_setdefault_ne by done;
     by destruct (Dict.get "Icon" d)|rewrite dict_get_setdefault_ne by done].
  destruct (decide (k = "Description")) as [->|?];
    [rewrite dict_get_setdefault_eq, !dict_get_setdefault_ne by done;
     by destruct (Dict.get "Description" d)
    |rewrite dict_get_setdefault_ne by done].
  destruct (decide (k = "Version")) as [->|?];
    [rewrite dict_get_setdefault_eq; by destruct (Dict.get "Version" d)
    |rewrite dict_get_setdefault_ne by done].
  destruct (Dict.get k d); [done|].
  unfold Puller.defaults. cbn [Dict.get].
  assert (Hne : ∀ a, k ≠ a → String.eqb a k = false)
    by (intros a ?; apply String.eqb_neq; congruence).
  by rewrite !Hne by done.
Qed.

Lemma get_normalized (k : string) (preset : pydict) :
  Dict.get k (Puller._normalize_for_ignitron preset)
  = if decide (k = "PresetNumber") then None
    else if decide (k = "UUID")
    then (λ v, JString (Py.upper (py_str v))) <$> Dict.get "UUID" preset
    else match Dict.get k preset with
         | Some v => Some v
         | None => Dict.get k Puller.defaults
         end.
Proof.
  unfold Puller._normalize_for_ignitron.
  set (d := Dict.setdefault "BPM" _ _).
  assert (Hd : ∀ k', Dict.get k' d
                     = match Dict.get k' (Dict.pop "PresetNumber" preset) with
                       | Some v => Some v
                       | None => Dict.get k' Puller.defaults
                       end) by (intros; apply get_after_defaults).
  assert (Hu : Dict.get "UUID" d = Dict.get "UUID" preset).
  { rewrite Hd, dict_get_pop_ne by done. by destruct (Dict.get "UUID" preset). }
  rewrite Hu.
  destruct (decide (k = "PresetNumber")) as [->|Hp].
  - destruct (Dict.get "UUID" preset);
      [rewrite dict_get_set_ne by done|]; by rewrite Hd, dict_get_pop_eq.
  - destruct (decide (k = "UUID")) as [->|Hk].
    + destruct (Dict.get "UUID" preset) eqn:E; simpl;
        [by rewrite dict_get_set_eq|by rewrite Hu].
    + destruct (Dict.get "UUID" preset);
        [rewrite dict_get_set_ne by done|];
        by rewrite Hd, dict_get_pop_ne.
Qed.

(** C8.  Normalisation removes [PresetNumber]; a field that is present,
    other than the identifier, keeps its value; each of the four
    documented defaults is what an absent field of that name gets; no
    other field appears; the identifier, when present, is replaced by the
    upper-cased text of its value and stays absent otherwise. *)
Theorem normalize_defaults_only_when_absent (preset : pydict) :
  Dict.get "PresetNumber" (Puller._normalize_for_ignitron preset) = None
  ∧ (∀ k v, k ≠ "UUID" → k ≠ "PresetNumber" →
       Dict.get k preset = Some v →
       Dict.get k (Puller._normalize_for_ignitron preset) = Some v)
  ∧ (∀ k, k ≠ "UUID" → k ≠ "PresetNumber" →
       Dict.get k preset = None →
       Dict.get k (Puller._normalize_for_ignitron preset)
       = Dict.get k Puller.defaults)
  ∧ Puller.defaults
    = [("Version", JString "0.7"); ("Description", JString "");
       ("Icon", JString "icon.png"); ("BPM", JFloat "120.0")]
  ∧ Dict.get "UUID" (Puller._normalize_for_ignitron preset)
    = (λ v, JString (Py.upper (py_str v))) <$> Dict.get "UUID" preset.
Proof.
  split; [by rewrite get_normalized|].
  split; [intros k v ?? Hk; rewrite get_normalized, Hk;
          by repeat case_decide|].
  split; [intros k ?? Hk; rewrite get_normalized, Hk;
          by repeat case_decide|].
  split; [done|]. by rewrite get_normalized.
Qed.

End Normalize.

(** ** Names and paths *)

Section Names.

Lemma find_char_cons_None c a s :
  Ascii.eqb a c = false → Py.find_char c s = None →
  Py.find_char c (String a s) = None.
Proof. intros Ha Hs. simpl. by rewrite Ha, Hs. Qed.

Lemma find_char_cons_inv c a s :
  Py.find_char c (String a s) = None →
  Ascii.eqb a c = false ∧ Py.find_char c s = None.
Proof.
  simpl. destruct (Ascii.eqb a c); [done|].
  by destruct (Py.find_char c s).
Qed.

Lemma find_char_append c s1 s2 :
  Py.find_char c s1 = None → Py.find_char c s2 = None →
  Py.find_char c (s1 +:+ s2) = None.
Proof.
  intros H1 H2. induction s1 as [|a s1 IH]; [done|].
  apply find_char_cons_inv in H1 as [Ha H1].
  apply find_char_cons_None; auto.
Qed.

Lemma find_char_substring c s : ∀ a n,
  Py.find_char c s = None → Py.find_char c (String.substring a n s) = None.
Proof.
  induction s as [|x s IH]; intros a n Hs.
  - by destruct a, n.
  - apply find_char_cons_inv in Hs as [Hx Hs].
    destruct a as [|a]; [destruct n as [|n]; [done|]|by apply IH].
    simpl String.substring. apply find_char_cons_None; auto.
Qed.

Lemma split_on_lacks c s :
  Forall (λ part, Py.find_char c part = None) (Py.split_on c s).
Proof.
  induction s as [|a s IH]; simpl; [by repeat constructor|].
  destruct (Ascii.eqb a c) eqn:Ha; [by constructor|].
  destruct (Py.split_on c s) as [|h t].
  - constructor; [by apply find_char_cons_None|constructor].
  - inversion_clear IH. constructor; [|done].
    by apply find_char_cons_None.
Qed.

Lemma parts_spec p part :
  In part (PathLib.parts p) →
  PathLib.no_slash part ∧ FS.is_dir_name part = false ∨ part = "..".
Proof.
  unfold PathLib.parts. rewrite filter_In. intros [Hin Hkept].
  pose proof (split_on_lacks "/"%char p) as Hall.
  rewrite List.Forall_forall in Hall. specialize (Hall _ Hin).
  unfold PathLib.kept in Hkept. apply andb_true_iff in Hkept as [H1 H2].
  apply negb_true_iff in H1, H2.
  destruct (String.eqb_spec part "..") as [->|Hne]; [by right|left].
  split; [done|]. unfold FS.is_dir_name. rewrite H1, H2. simpl.
  by apply String.eqb_neq.
Qed.

Lemma name_cases p :
  PathLib.name p = "" ∨ In (PathLib.name p) (PathLib.parts p).
Proof.
  unfold PathLib.name. destruct (last (PathLib.parts p)) as [x|] eqn:Hl.
  - right. simpl. apply list_elem_of_In. by eapply last_Some_elem_of.
  - by left.
Qed.

Lemma name_no_slash p : PathLib.no_slash (PathLib.name p).
Proof.
  destruct (name_cases p) as [->|Hin]; [done|].
  by apply parts_spec in Hin as [[? _]| ->].
Qed.

Lemma stem_no_slash p : PathLib.no_slash (PathLib.stem p).
Proof.
  unfold PathLib.stem. pose proof (name_no_slash p) as Hn.
  destruct (Py.rfind_char _ _) as [i|]; [|done].
  destruct (_ && _); [|done].
  by apply find_char_substring.
Qed.

Lemma string_length_append s1 s2 :
  String.length (s1 +:+ s2) = String.length s1 + String.length s2.
Proof. induction s1 as [|a s1 IH]; simpl; [done|by rewrite IH]. Qed.

Lemma is_dir_name_short n : FS.is_dir_name n = true → String.length n ≤ 2.
Proof.
  unfold FS.is_dir_name. rewrite !orb_true_iff, !String.eqb_eq.
  intros [[-> | ->] | ->]; simpl; lia.
Qed.

Lemma stub_name_ok fn :
  PathLib.no_slash (Converter.stub_name fn)
  ∧ FS.is_dir_name (Converter.stub_name fn) = false.
Proof.
  split.
  - apply find_char_append; [apply stem_no_slash|done].
  - destruct (FS.is_dir_name _) eqn:Hd; [|done].
    apply is_dir_name_short in Hd. unfold Converter.stub_name in Hd.
    rewrite string_length_append in Hd. simpl in Hd. lia.
Qed.

End Names.

(** ** The loop of the converter *)

Lemma fold_left_invariant {A B} (P : A → Prop) (f : A → B → A) l a :
  P a → (∀ a b, P a → P (f a b)) → P (fold_left f l a).
Proof. intros Ha Hf. revert a Ha. induction l; simpl; auto. Qed.

Lemma open_w_Some `{PyRuntime} d n f d' :
  FS.open_w d n f = Some d' →
  d' = <[n := f]> d ∧ FS.is_dir_name n = false ∧ os_accepts n = true.
Proof.
  unfold FS.open_w. destruct (FS.is_dir_name n), (os_accepts n); naive_solver.
Qed.

Lemma open_w_writable `{PyRuntime} d n f :
  FS.is_dir_name n = false → os_accepts n = true →
  FS.open_w d n f = Some (<[n := f]> d).
Proof. unfold FS.open_w. by intros -> ->. Qed.

Lemma open_w_refused `{PyRuntime} d n f :
  os_accepts n = false → FS.open_w d n f = None.
Proof. unfold FS.open_w. intros ->. by rewrite orb_true_r. Qed.

(** What the attempt to drop the stub leaves in the directory *)
Lemma stub_dropped `{PyRuntime} d fn f :
  default d (FS.open_w d (Converter.stub_name fn) f)
  = if os_accepts (Converter.stub_name fn)
    then <[Converter.stub_name fn := f]> d else d.
Proof.
  unfold FS.open_w. destruct (stub_name_ok fn) as [_ ->].
  by destruct (os_accepts _).
Qed.

Lemma only_adds_insert before d n f :
  FS.only_adds_basenames before d →
  PathLib.no_slash n → FS.is_dir_name n = false →
  FS.only_adds_basenames before (<[n := f]> d).
Proof.
  intros Hd Hn Hdir p. destruct (decide (n = p)) as [<-|Hne].
  - auto.
  - rewrite lookup_insert_ne by done. apply Hd.
Qed.

Section ConverterLoop.
Context `{PyRuntime}.
Implicit Types (st : Converter.state) (io : option (gset string)).

Lemma truthy_Some o fn : Py.truthy o = Some fn → o = Some fn ∧ fn ≠ "".
Proof. destruct o as [[|a s]|]; simpl; intros [= <-]; by split. Qed.

Lemma truthy_None o : Py.truthy o = None ↔ o = None ∨ o = Some "".
Proof.
  destruct o as [[|a s]|]; simpl; split; auto; try done.
  intros [|]; done.
Qed.

Lemma step_spec io st raw :
  Converter.step io st raw
  = match Re.FILENAME_RE_search (Py.rstrip_crlf raw) with
    | Some g =>
        Converter.mkState (Converter.stats st) (Converter.entries st)
          (Some (PathLib.name (Py.strip g))) (Converter.out_dir st)
    | None =>
        match Converter.payload_of raw with
        | Some g => Converter.on_payload io st g
        | None => st
        end
    end.
Proof.
  unfold Converter.step, Converter.payload_of.
  destruct (Re.FILENAME_RE_search _); [done|].
  destruct (Py.contains _ _); [|done].
  by destruct (Re.JSON_RE_search _).
Qed.

(** The five ways a payload ends, with the state each leaves. *)
Lemma on_payload_cases io st g :
  let st' := Converter.on_payload io st g in
  let raw_json := Py.strip g in
  (Py.truthy (Converter.current_filename st) = None
   ∧ st' = Converter.mkState (Converter.count_no_filename (Converter.stats st))
             (Converter.entries st) (Converter.current_filename st)
             (Converter.out_dir st))
  ∨ ∃ fn, Py.truthy (Converter.current_filename st) = Some fn ∧
    ((Converter.filtered_out io fn = true
      ∧ st' = Converter.mkState
                (Converter.count_not_in_list (Converter.stats st))
                (Converter.entries st) None (Converter.out_dir st))
     ∨ (Converter.filtered_out io fn = false ∧
        ((∃ parsed, json_loads raw_json = Some parsed
            ∧ FS.exists_ (Converter.out_dir st) fn = true
            ∧ st' = Converter.mkState
                      (Converter.count_dupe (Converter.stats st))
                      (Converter.entries st) None (Converter.out_dir st))
         ∨ (∃ parsed, json_loads raw_json = Some parsed
            ∧ (FS.exists_ (Converter.out_dir st) fn = false
               ∧ os_accepts fn = true)
            ∧ st' = Converter.mkState
                      (Converter.count_saved (Converter.stats st))
                      (Converter.entries st
                         ++ [fn +:+ " " +:+ Converter.index_uuid parsed])
                      None
                      (<[fn := PresetFile parsed]> (Converter.out_dir st)))
         ∨ ((json_loads raw_json = None
             ∨ FS.exists_ (Converter.out_dir st) fn = false
               ∧ os_accepts fn = false)
            ∧ st' = Converter.mkState
                      (Converter.count_broken (Converter.stats st))
                      (Converter.entries st) None
                      (if os_accepts (Converter.stub_name fn)
                       then <[Converter.stub_name fn := RawFile raw_json]>
                              (Converter.out_dir st)
                       else Converter.out_dir st))))).
Proof.
  unfold Converter.on_payload.
  destruct (Py.truthy _) as [fn|] eqn:Hfn; [right; exists fn|by left].
  split; [done|].
  destruct (Converter.filtered_out io fn); [by left|right; split; [done|]].
  unfold Converter.save_payload.
  destruct (json_loads _) as [parsed|] eqn:Hp.
  - destruct (FS.exists_ _ fn) eqn:Hex.
    + left. by exists parsed.
    + assert (Hdir : FS.is_dir_name fn = false).
      { unfold FS.exists_ in Hex. by apply orb_false_iff in Hex as [? _]. }
      destruct (os_accepts fn) eqn:Hos.
      * right; left. exists parsed. split; [done|]. split; [done|].
        by rewrite open_w_writable.
      * right; right. split; [by right|].
        rewrite open_w_refused by done. unfold Converter.on_broken.
        by rewrite stub_dropped.
  - right; right. split; [by left|]. unfold Converter.on_broken.
    by rewrite stub_dropped.
Qed.

End ConverterLoop.

(** ** The loop of the puller *)

Section PullerLoop.
Context `{PyRuntime}.
Implicit Types (st : Puller.state) (io : option (gset string)).

(** What [_write_preset_file] can do to the directory. *)
Lemma write_preset_file_cases fn buf dir io :
  let r := Puller._write_preset_file fn buf dir io in
  (r = (false, dir)
   ∧ (json_loads (Puller._clean_json_text (Py.join_lines buf)) = None
      ∨ Puller.kept io (Puller._basename fn) = false
      ∨ FS.is_dir_name (Puller._basename fn) = true
      ∨ os_accepts (Puller._basename fn) = false))
  ∨ ∃ preset,
      json_loads (Puller._clean_json_text (Py.join_lines buf)) = Some preset
      ∧ Puller.kept io (Puller._basename fn) = true
      ∧ (FS.is_dir_name (Puller._basename fn) = false
         ∧ os_accepts (Puller._basename fn) = true)
      ∧ r = (true, <[Puller._basename fn
                      := PresetFile (Puller._normalize_for_ignitron preset)]>
                     dir).
Proof.
  unfold Puller._write_preset_file.
  destruct (json_loads _) as [preset|]; [|left; auto].
  destruct (Puller.kept _ _); [|left; auto].
  unfold FS.open_w. destruct (FS.is_dir_name _); [left; auto|].
  destruct (os_accepts _); [|left; auto 6].
  right. by exists preset.
Qed.

(** The hand-off either does nothing or counts one capture. *)
Lemma flush_cases io st :
  let st' := Puller.flush io st in
  ((Py.truthy (Puller.filename st) = None ∨ Puller.buffer st = [])
   ∧ st' = st)
  ∨ ∃ fn, Py.truthy (Puller.filename st) = Some fn ∧ Puller.buffer st ≠ [] ∧
    let base := Puller._basename fn in
    let c := Puller.stats st in
    ((base ∈ Puller.seen_files st
      ∧ st' = Puller.mkState
                (Puller.mkCounters (S (Puller.scanned c)) (Puller.saved c)
                   (Puller.skipped c) (S (Puller.duplicate c)))
                (Puller.seen_files st) (Puller.filename st)
                (Puller.buffer st) (Puller.collecting st)
                (Puller.out_dir st))
     ∨ ((base ∉ Puller.seen_files st)
        ∧ ∃ ok dir',
            Puller._write_preset_file fn (Puller.buffer st)
              (Puller.out_dir st) io = (ok, dir')
            ∧ st' = Puller.mkState
                      (if ok
                       then Puller.mkCounters (S (Puller.scanned c))
                              (S (Puller.saved c)) (Puller.skipped c)
                              (Puller.duplicate c)
                       else Puller.mkCounters (S (Puller.scanned c))
                              (Puller.saved c) (S (Puller.skipped c))
                              (Puller.duplicate c))
                      (Puller.seen_files st ∪ {[base]}) (Puller.filename st)
                      (Puller.buffer st) (Puller.collecting st) dir')).
Proof.
  unfold Puller.flush.
  destruct (Py.truthy _) as [fn|] eqn:Hfn; [|left; auto].
  destruct (Puller.buffer st) as [|b bs] eqn:Hb; [left; auto|].
  right. exists fn. split; [done|]. split; [done|]. simpl.
  case_bool_decide; [left; auto|right]. split; [done|].
  destruct (Puller._write_preset_file _ _ _ _) as [ok dir'].
  by exists ok, dir'.
Qed.

Lemma flush_counts io st :
  Puller.stats (Puller.flush io st) = Puller.stats st
  ∨ Puller.one_more (Puller.stats st) (Puller.stats (Puller.flush io st)).
Proof.
  destruct (flush_cases io st) as [[_ ->]|(fn & _ & _ & Hc)]; [by left|].
  right. simpl in Hc. destruct Hc as [[_ ->]|(_ & ok & dir' & _ & ->)].
  - simpl. unfold Puller.one_more. auto.
  - simpl. unfold Puller.one_more. destruct ok; auto.
Qed.

Lemma one_more_balanced c c' :
  Puller.one_more c c' → Puller.balanced c → Puller.balanced c'.
Proof. unfold Puller.balanced. intros [->|[->| ->]]; simpl; lia. Qed.

Lemma flush_balanced io st :
  Puller.balanced (Puller.stats st) →
  Puller.balanced (Puller.stats (Puller.flush io st)).
Proof.
  destruct (flush_counts io st) as [->|Hc]; [done|].
  by apply one_more_balanced.
Qed.

Lemma puller_step_stats io st ln :
  Puller.stats (Puller.step io st ln) = Puller.stats st
  ∨ Puller.stats (Puller.step io st ln) = Puller.stats (Puller.flush io st).
Proof.
  unfold Puller.step, Puller.push.
  repeat (match goal with |- context [if ?b then _ else _] => destruct b end);
    simpl; auto.
Qed.

Lemma puller_step_balanced io st ln :
  Puller.balanced (Puller.stats st) →
  Puller.balanced (Puller.stats (Puller.step io st ln)).
Proof.
  destruct (puller_step_stats io st ln) as [->| ->]; [done|].
  apply flush_balanced.
Qed.

End PullerLoop.

(** ** C1: the counters *)

Section Counters.
Context `{PyRuntime}.

Lemma one_more_total c c' :
  Converter.one_more c c' → Converter.total c' = S (Converter.total c).
Proof.
  unfold Converter.total.
  intros [->|[->|[->|[->| ->]]]]; simpl; lia.
Qed.

Lemma on_payload_one_more io st g :
  Converter.one_more (Converter.stats st)
    (Converter.stats (Converter.on_payload io st g)).
Proof.
  unfold Converter.one_more.
  destruct (on_payload_cases io st g)
    as [[_ ->]|(fn & _ & [[_ ->]|(_ & [(p & _ & _ & ->)
                                      |[(p & _ & _ & ->)|[_ ->]]])])];
    simpl; auto 6.
Qed.

Lemma payload_of_announce raw g :
  Re.FILENAME_RE_search (Py.rstrip_crlf raw) = Some g →
  Converter.payload_of raw = None.
Proof. unfold Converter.payload_of. by intros ->. Qed.

Lemma step_payload io st raw g :
  Converter.payload_of raw = Some g →
  Converter.step io st raw = Converter.on_payload io st g.
Proof.
  intros Hg. rewrite step_spec, Hg.
  destruct (Re.FILENAME_RE_search _) eqn:Hf; [|done].
  apply payload_of_announce in Hf. congruence.
Qed.

Lemma step_no_payload_stats io st raw :
  Converter.payload_of raw = None →
  Converter.stats (Converter.step io st raw) = Converter.stats st.
Proof.
  intros Hg. rewrite step_spec, Hg.
  by destruct (Re.FILENAME_RE_search _).
Qed.

Lemma step_counts io st raw :
  Converter.total (Converter.stats (Converter.step io st raw))
  = Converter.total (Converter.stats st)
    + (if bool_decide (is_Some (Converter.payload_of raw)) then 1 else 0).
Proof.
  destruct (Converter.payload_of raw) as [g|] eqn:Hp.
  - rewrite (step_payload _ _ _ _ Hp), bool_decide_eq_true_2 by eauto.
    rewrite (one_more_total _ _ (on_payload_one_more io st g)). lia.
  - rewrite step_no_payload_stats by done.
    rewrite bool_decide_eq_false_2 by (by intros [? ?]). lia.
Qed.

Lemma run_loop_counts io lines : ∀ st,
  Converter.total (Converter.stats (Converter.run_loop io lines st))
  = Converter.total (Converter.stats st) + Converter.scanned lines.
Proof.
  unfold Converter.run_loop, Converter.scanned.
  induction lines as [|raw lines IH]; intros st; simpl; [lia|].
  rewrite IH, step_counts.
  destruct (bool_decide _); simpl; lia.
Qed.

Lemma flush_counted io st fn :
  Py.truthy (Puller.filename st) = Some fn →
  Puller.buffer st ≠ [] →
  Puller.stats (Puller.flush io st)
  = let c := Puller.stats st in
    if bool_decide (Puller._basename fn ∈ Puller.seen_files st) then
      Puller.mkCounters (S (Puller.scanned c)) (Puller.saved c)
        (Puller.skipped c) (S (Puller.duplicate c))
    else if (Puller._write_preset_file fn (Puller.buffer st)
               (Puller.out_dir st) io).1 then
      Puller.mkCounters (S (Puller.scanned c)) (S (Puller.saved c))
        (Puller.skipped c) (Puller.duplicate c)
    else
      Puller.mkCounters (S (Puller.scanned c)) (Puller.saved c)
        (S (Puller.skipped c)) (Puller.duplicate c).
Proof.
  intros Hfn Hb. unfold Puller.flush. rewrite Hfn.
  destruct (Puller.buffer st) as [|b bs]; [done|]. cbv zeta.
  case_bool_decide; [done|].
  by destruct (Puller._write_preset_file _ _ _ _) as [[] dir'].
Qed.

Lemma flush_uncounted io st :
  Py.truthy (Puller.filename st) = None ∨ Puller.buffer st = [] →
  Puller.flush io st = st.
Proof.
  unfold Puller.flush. intros [-> | ->]; [done|].
  by destruct (Py.truthy _).
Qed.

(** C1, as amended.  Converter: every processed payload increments
    exactly one of the five counters, a line that carries no payload
    changes none, and the five counters returned add up to the number
    of payloads processed (no [scanned] counter is returned).  Puller:
    a hand-off with a filename and a non-empty buffer increments
    [scanned] and exactly one of [duplicate] (the basename was handed
    off before in the run), [saved] (the file was written) and
    [skipped]; without a filename or with an empty buffer nothing is
    counted; a line that announces no filename changes no counter, one
    that announces a filename counts what the hand-off counts; and the
    statistics returned are those after the last hand-off, with
    [scanned = saved + skipped + duplicate]. *)
Theorem counters_account_for_every_capture :
  (∀ io st raw g, Converter.payload_of raw = Some g →
     Converter.one_more (Converter.stats st)
       (Converter.stats (Converter.step io st raw)))
  ∧ (∀ io st raw, Converter.payload_of raw = None →
       Converter.stats (Converter.step io st raw) = Converter.stats st)
  ∧ (∀ lines dir index io,
       Converter.total
         (Converter.r_stats
            (Converter._extract_lines_to_files lines dir index io))
       = Converter.scanned lines)
  ∧ (∀ io st fn,
       Py.truthy (Puller.filename st) = Some fn →
       Puller.buffer st ≠ [] →
       Puller.one_more (Puller.stats st) (Puller.stats (Puller.flush io st))
       ∧ Puller.stats (Puller.flush io st)
         = let c := Puller.stats st in
           if bool_decide (Puller._basename fn ∈ Puller.seen_files st) then
             Puller.mkCounters (S (Puller.scanned c)) (Puller.saved c)
               (Puller.skipped c) (S (Puller.duplicate c))
           else if (Puller._write_preset_file fn (Puller.buffer st)
                      (Puller.out_dir st) io).1 then
             Puller.mkCounters (S (Puller.scanned c)) (S (Puller.saved c))
               (Puller.skipped c) (Puller.duplicate c)
           else
             Puller.mkCounters (S (Puller.scanned c)) (Puller.saved c)
               (S (Puller.skipped c)) (Puller.duplicate c))
  ∧ (∀ io st,
       Py.truthy (Puller.filename st) = None ∨ Puller.buffer st = [] →
       Puller.flush io st = st)
  ∧ (∀ io st ln,
       Puller.stats (Puller.step io st ln)
       = if Puller.announces ln then Puller.stats (Puller.flush io st)
         else Puller.stats st)
  ∧ (∀ lines dir io,
       let c := (Puller._extract_lines_to_files lines dir io).1 in
       c = Puller.stats
             (Puller.flush io (Puller.run_loop io lines (Puller.initial dir)))
       ∧ Puller.scanned c
         = Puller.saved c + Puller.skipped c + Puller.duplicate c).
Proof.
  split; [|split; [|split; [|split; [|split; [|split]]]]].
  - intros io st raw g Hg. rewrite (step_payload _ _ _ _ Hg).
    apply on_payload_one_more.
  - intros io st raw Hg. by apply step_no_payload_stats.
  - intros. unfold Converter._extract_lines_to_files. simpl.
    rewrite run_loop_counts. done.
  - intros io st fn Hfn Hb. split; [|by apply flush_counted].
    rewrite (flush_counted io st fn Hfn Hb). cbv zeta.
    unfold Puller.one_more.
    destruct (bool_decide _); [auto|]. destruct (_.1); auto.
  - apply flush_uncounted.
  - intros io st ln. unfold Puller.step, Puller.announces, Puller.push.
    repeat (match goal with
            | |- context [if ?b then _ else _] => destruct b
            end); done.
  - intros lines dir io. split; [done|].
    unfold Puller._extract_lines_to_files. simpl.
    apply flush_balanced. unfold Puller.run_loop.
    apply (fold_left_invariant (λ st, Puller.balanced (Puller.stats st))).
    + done.
    + intros. by apply puller_step_balanced.
Qed.

End Counters.

(** ** C9: payloads without a filename *)

Section Orphans.
Context `{PyRuntime}.

Lemma on_payload_clears io st g :
  Py.truthy (Converter.current_filename (Converter.on_payload io st g)) = None.
Proof.
  destruct (on_payload_cases io st g)
    as [[Hn ->]|(fn & _ & [[_ ->]|(_ & [(p & _ & _ & ->)
                                       |[(p & _ & _ & ->)|[_ ->]]])])];
    done.
Qed.

Lemma on_payload_orphan io st g :
  Py.truthy (Converter.current_filename st) = None →
  Converter.on_payload io st g
  = Converter.mkState (Converter.count_no_filename (Converter.stats st))
      (Converter.entries st) (Converter.current_filename st)
      (Converter.out_dir st).
Proof. intros Hn. unfold Converter.on_payload. by rewrite Hn. Qed.

Lemma on_payload_budget io st g :
  Converter.consumed (Converter.stats (Converter.on_payload io st g))
  + Converter.pending (Converter.on_payload io st g)
  ≤ Converter.consumed (Converter.stats st) + Converter.pending st.
Proof.
  pose proof (on_payload_clears io st g) as Hc.
  unfold Converter.pending at 1. rewrite Hc. clear Hc.
  unfold Converter.pending, Converter.consumed.
  destruct (on_payload_cases io st g)
    as [[Hn ->]|(fn & -> & [[_ ->]|(_ & [(p & _ & _ & ->)
                                        |[(p & _ & _ & ->)|[_ ->]]])])];
    simpl; lia.
Qed.

Lemma pending_le_1 st : Converter.pending st ≤ 1.
Proof. unfold Converter.pending. destruct (Py.truthy _); lia. Qed.

Lemma step_budget io st raw :
  Converter.consumed (Converter.stats (Converter.step io st raw))
  + Converter.pending (Converter.step io st raw)
  ≤ Converter.consumed (Converter.stats st) + Converter.pending st
    + (if Converter.announces raw then 1 else 0).
Proof.
  rewrite step_spec. unfold Converter.announces.
  destruct (Re.FILENAME_RE_search _) as [g|] eqn:Hf.
  - rewrite bool_decide_eq_true_2 by eauto.
    match goal with |- _ + Converter.pending ?s ≤ _ =>
      pose proof (pending_le_1 s) end.
    simpl. lia.
  - rewrite bool_decide_eq_false_2 by (by intros [? ?]).
    destruct (Converter.payload_of raw) as [g|].
    + pose proof (on_payload_budget io st g). lia.
    + lia.
Qed.

Lemma run_loop_budget io lines : ∀ st,
  Converter.consumed (Converter.stats (Converter.run_loop io lines st))
  + Converter.pending (Converter.run_loop io lines st)
  ≤ Converter.consumed (Converter.stats st) + Converter.pending st
    + Converter.announcements lines.
Proof.
  unfold Converter.run_loop, Converter.announcements.
  induction lines as [|raw lines IH]; intros st; simpl; [lia|].
  pose proof (IH (Converter.step io st raw)) as IH'.
  pose proof (step_budget io st raw) as Hs.
  destruct (Converter.announces raw); simpl; lia.
Qed.

(** C9.  A payload that arrives while no filename is pending increments
    [skipped_no_filename] and changes nothing else, the directory
    included; after any processed payload no filename is pending, so a
    payload that follows another one without a new announcement is
    counted as [skipped_no_filename]; over a run the payloads that were
    saved, found duplicate, broken or filtered out are at most as many
    as the announcements. *)
Theorem orphan_payload_is_counted :
  (∀ io st raw g,
     Converter.payload_of raw = Some g →
     Py.truthy (Converter.current_filename st) = None →
     Converter.step io st raw
     = Converter.mkState (Converter.count_no_filename (Converter.stats st))
         (Converter.entries st) (Converter.current_filename st)
         (Converter.out_dir st))
  ∧ (∀ io st raw g,
       Converter.payload_of raw = Some g →
       Py.truthy (Converter.current_filename (Converter.step io st raw))
       = None)
  ∧ (∀ io st raw1 g1 raw2 g2,
       Converter.payload_of raw1 = Some g1 →
       Converter.payload_of raw2 = Some g2 →
       let st1 := Converter.step io st raw1 in
       Converter.step io st1 raw2
       = Converter.mkState
           (Converter.count_no_filename (Converter.stats st1))
           (Converter.entries st1) (Converter.current_filename st1)
           (Converter.out_dir st1))
  ∧ (∀ lines dir index io,
       Converter.consumed
         (Converter.r_stats
            (Converter._extract_lines_to_files lines dir index io))
       ≤ Converter.announcements lines).
Proof.
  split; [|split; [|split]].
  - intros io st raw g Hg Hn. rewrite (step_payload _ _ _ _ Hg).
    by apply on_payload_orphan.
  - intros io st raw g Hg. rewrite (step_payload _ _ _ _ Hg).
    apply on_payload_clears.
  - intros io st raw1 g1 raw2 g2 Hg1 Hg2 st1.
    rewrite (step_payload _ _ _ _ Hg2). apply on_payload_orphan.
    unfold st1. rewrite (step_payload _ _ _ _ Hg1).
    apply on_payload_clears.
  - intros lines dir index io. unfold Converter._extract_lines_to_files.
    simpl. pose proof (run_loop_budget io lines (Converter.initial dir)) as Hb.
    assert (Hi : Converter.consumed (Converter.stats (Converter.initial dir))
                 + Converter.pending (Converter.initial dir) = 0) by done.
    pose proof (pending_le_1
                  (Converter.run_loop io lines (Converter.initial dir))).
    lia.
Qed.

End Orphans.

(** ** The stub of a broken payload never has the name of its target *)

Section Stub.

Lemma rfind_char_append c s1 s2 j :
  Py.rfind_char c s2 = Some j →
  Py.rfind_char c (s1 +:+ s2) = Some (String.length s1 + j).
Proof.
  intros Hj. induction s1 as [|a s1 IH]; simpl; [done|]. by rewrite IH.
Qed.

Lemma rfind_char_lt c s i : Py.rfind_char c s = Some i → i < String.length s.
Proof.
  revert i. induction s as [|a s IH]; intros i; simpl; [done|].
  destruct (Py.rfind_char c s) as [j|].
  - intros [= <-]. specialize (IH j eq_refl). lia.
  - destruct (Ascii.eqb a c); [|done]. intros [= <-]. lia.
Qed.

Lemma length_substring_0 s : ∀ i,
  i ≤ String.length s → String.length (String.substring 0 i s) = i.
Proof.
  induction s as [|a s IH]; intros [|i] Hi; simpl in *; try done; try lia.
  rewrite IH; lia.
Qed.

Lemma split_on_absent c s : Py.find_char c s = None → Py.split_on c s = [s].
Proof.
  induction s as [|a s IH]; [done|].
  intros [Ha Hs]%find_char_cons_inv. simpl. by rewrite Ha, IH.
Qed.

Lemma name_of_basename fn :
  PathLib.no_slash fn → FS.is_dir_name fn = false → PathLib.name fn = fn.
Proof.
  intros Hs Hd. unfold PathLib.name, PathLib.parts.
  rewrite split_on_absent by done. simpl.
  unfold FS.is_dir_name in Hd.
  apply orb_false_iff in Hd as [[H1 H2]%orb_false_iff _].
  unfold PathLib.kept. by rewrite H1, H2.
Qed.

Lemma stub_name_ne fn : Converter.stub_name fn ≠ fn.
Proof.
  intros Heq.
  destruct (stub_name_ok fn) as [Hs Hd]. rewrite Heq in Hs, Hd.
  assert (Hlen : ∀ x, x +:+ "_BROKEN.json" = fn → x ≠ fn).
  { intros x Hx ->. apply (f_equal String.length) in Hx.
    rewrite string_length_append in Hx. simpl in Hx. lia. }
  unfold Converter.stub_name, PathLib.stem in Heq.
  rewrite (name_of_basename fn Hs Hd) in Heq.
  destruct (Py.rfind_char "." fn) as [i|] eqn:Hr; [|by eapply Hlen].
  destruct (_ && _) eqn:Hc; [|by eapply Hlen].
  apply andb_true_iff in Hc as [_ Hi%Nat.ltb_lt].
  pose proof (rfind_char_append "."%char (Py.slice 0 i fn) "_BROKEN.json" 7
                eq_refl) as Hj.
  rewrite Heq, Hr in Hj. injection Hj as Hj.
  unfold Py.slice in Hj. rewrite length_substring_0 in Hj by lia. lia.
Qed.

End Stub.

(** ** Invariants of the two loops *)

Section Invariants.
Context `{PyRuntime}.

Lemma only_adds_refl dir : FS.only_adds_basenames dir dir.
Proof. intros p Hp. by left. Qed.

Lemma exists_false_inv dir fn :
  FS.exists_ dir fn = false → FS.is_dir_name fn = false ∧ dir !! fn = None.
Proof.
  unfold FS.exists_. intros [Hd Hl]%orb_false_iff. split; [done|].
  apply bool_decide_eq_false in Hl. by apply eq_None_not_Some.
Qed.

Lemma converter_on_payload_invariant io before st g :
  Converter.invariant io before st →
  Converter.invariant io before (Converter.on_payload io st g).
Proof.
  intros (Hcf & Hdir & Hpass).
  destruct (on_payload_cases io st g)
    as [[Hn ->]|(fn & Hfn & [[_ ->]|(Hflt & [(p & _ & _ & ->)
                                     |[(p & _ & [Hex _] & ->)|[_ ->]]])])];
    (split; [|split]); simpl; try done.
  - apply truthy_Some in Hfn as [Hfn _].
    apply exists_false_inv in Hex as [Hd _].
    apply only_adds_insert; auto.
  - intros fn' obj. destruct (decide (fn = fn')) as [<-|Hne].
    + auto.
    + rewrite lookup_insert_ne by done. apply Hpass.
  - destruct (os_accepts _); [|done].
    apply only_adds_insert; [done|apply stub_name_ok..].
  - intros fn' obj. destruct (os_accepts _); [|apply Hpass].
    destruct (decide (Converter.stub_name fn = fn')) as [<-|Hne].
    + by rewrite lookup_insert_eq.
    + rewrite lookup_insert_ne by done. apply Hpass.
Qed.

Lemma converter_step_invariant io before st raw :
  Converter.invariant io before st →
  Converter.invariant io before (Converter.step io st raw).
Proof.
  intros Hinv. rewrite step_spec.
  destruct (Re.FILENAME_RE_search _) as [g|].
  - destruct Hinv as (_ & Hdir & Hpass). split; [|done]. simpl.
    intros fn [= <-]. apply name_no_slash.
  - destruct (Converter.payload_of raw) as [g|]; [|done].
    by apply converter_on_payload_invariant.
Qed.

Lemma converter_run_invariant io lines dir :
  Converter.invariant io dir
    (Converter.run_loop io lines (Converter.initial dir)).
Proof.
  apply (fold_left_invariant (Converter.invariant io dir)).
  - split; [done|]. split; [apply only_adds_refl|]. simpl. auto.
  - intros. by apply converter_step_invariant.
Qed.

Lemma basename_no_slash n : PathLib.no_slash (Puller._basename n).
Proof. apply name_no_slash. Qed.

Lemma puller_flush_invariant io before st :
  Puller.invariant before st → Puller.invariant before (Puller.flush io st).
Proof.
  intros [Hdir Hseen].
  destruct (flush_cases io st) as [[_ ->]|(fn & _ & _ & Hc)]; [done|].
  simpl in Hc. destruct Hc as [[_ ->]|(_ & ok & dir' & Hw & ->)]; [done|].
  pose proof (write_preset_file_cases fn (Puller.buffer st)
                (Puller.out_dir st) io) as Hcases.
  simpl in Hcases. rewrite Hw in Hcases.
  destruct Hcases as [[[= -> ->] _]|(preset & _ & _ & [Hd _] & [= -> ->])];
    split; simpl.
  - done.
  - intros p Hp. destruct (Hseen p Hp); [by left|right]. set_solver.
  - apply only_adds_insert; [done|apply basename_no_slash|done].
  - intros p. destruct (decide (Puller._basename fn = p)) as [<-|Hne].
    + intros _. right. set_solver.
    + rewrite lookup_insert_ne by done. intros Hp.
      destruct (Hseen p Hp); [by left|right]. set_solver.
Qed.

Lemma puller_step_invariant io before st ln :
  Puller.invariant before st → Puller.invariant before (Puller.step io st ln).
Proof.
  intros Hinv. pose proof (puller_flush_invariant io before st Hinv) as Hf.
  unfold Puller.step, Puller.push.
  repeat (match goal with |- context [if ?b then _ else _] => destruct b end);
    done.
Qed.

Lemma puller_run_invariant io lines dir :
  Puller.invariant dir (Puller.run_loop io lines (Puller.initial dir)).
Proof.
  apply (fold_left_invariant (Puller.invariant dir)).
  - split; [apply only_adds_refl|]. simpl. auto.
  - intros. by apply puller_step_invariant.
Qed.

Lemma presetlist_keep_no_slash lines : ∀ in_section fn,
  fn ∈ Converter.presetlist_keep in_section lines → PathLib.no_slash fn.
Proof.
  induction lines as [|ln lines IH]; intros in_section fn; simpl.
  - by intros ?%elem_of_nil.
  - repeat (match goal with
            | |- context [if ?b then _ else _] => destruct b
            end); try (by apply IH); try (by intros ?%elem_of_nil).
    intros [->|?]%elem_of_cons; [apply name_no_slash|by eapply IH].
Qed.

(** X22.  With the POSIX flavour of [pathlib], [Path(..).name] and
    [_basename] return a text without separator; so are the pending
    filename of the converter in every state of a run and the names
    listed by [parse_presetlist_from_lines]; and every file that a run
    of either pipeline adds to the output directory is named by a single
    path component that is neither empty nor a dot name, whatever the
    lines are. *)
Theorem written_names_are_basenames :
  (∀ p, PathLib.no_slash (PathLib.name p))
  ∧ (∀ n, PathLib.no_slash (Puller._basename n))
  ∧ (∀ lines fn,
       fn ∈ Converter.parse_presetlist_from_lines lines →
       PathLib.no_slash fn)
  ∧ (∀ io lines dir fn,
       Converter.current_filename
         (Converter.run_loop io lines (Converter.initial dir)) = Some fn →
       PathLib.no_slash fn)
  ∧ (∀ lines dir index io,
       FS.only_adds_basenames dir
         (Converter.r_out_dir
            (Converter._extract_lines_to_files lines dir index io)))
  ∧ (∀ lines dir io,
       FS.only_adds_basenames dir
         (Puller._extract_lines_to_files lines dir io).2).
Proof.
  split; [apply name_no_slash|]. split; [apply basename_no_slash|].
  split; [|split; [|split]].
  - intros lines fn Hfn. unfold Converter.parse_presetlist_from_lines in Hfn.
    apply elem_of_list_to_set in Hfn. by eapply presetlist_keep_no_slash.
  - intros io lines dir fn. apply (converter_run_invariant io lines dir).
  - intros lines dir index io. apply (converter_run_invariant io lines dir).
  - intros lines dir io. unfold Puller._extract_lines_to_files. simpl.
    apply (puller_flush_invariant io dir), puller_run_invariant.
Qed.

End Invariants.

(** ** C3 and C4: duplicates and broken payloads *)

Section Outcomes.
Context `{PyRuntime}.

Lemma on_payload_dupe io st g fn parsed :
  Py.truthy (Converter.current_filename st) = Some fn →
  Converter.filtered_out io fn = false →
  json_loads (Py.strip g) = Some parsed →
  FS.exists_ (Converter.out_dir st) fn = true →
  Converter.on_payload io st g
  = Converter.mkState (Converter.count_dupe (Converter.stats st))
      (Converter.entries st) None (Converter.out_dir st).
Proof.
  intros Hfn Hflt Hp Hex.
  unfold Converter.on_payload, Converter.save_payload.
  by rewrite Hfn, Hflt, Hp, Hex.
Qed.

Lemma on_payload_saved io st g fn parsed :
  Py.truthy (Converter.current_filename st) = Some fn →
  Converter.filtered_out io fn = false →
  json_loads (Py.strip g) = Some parsed →
  FS.exists_ (Converter.out_dir st) fn = false →
  os_accepts fn = true →
  Converter.on_payload io st g
  = Converter.mkState (Converter.count_saved (Converter.stats st))
      (Converter.entries st ++ [fn +:+ " " +:+ Converter.index_uuid parsed])
      None (<[fn := PresetFile parsed]> (Converter.out_dir st)).
Proof.
  intros Hfn Hflt Hp Hex Hos.
  unfold Converter.on_payload, Converter.save_payload.
  rewrite Hfn, Hflt, Hp, Hex.
  apply exists_false_inv in Hex as [Hd _]. by rewrite open_w_writable.
Qed.

Lemma on_payload_broken io st g fn :
  Py.truthy (Converter.current_filename st) = Some fn →
  Converter.filtered_out io fn = false →
  json_loads (Py.strip g) = None →
  Converter.on_payload io st g
  = Converter.mkState (Converter.count_broken (Converter.stats st))
      (Converter.entries st) None
      (if os_accepts (Converter.stub_name fn)
       then <[Converter.stub_name fn := RawFile (Py.strip g)]>
              (Converter.out_dir st)
       else Converter.out_dir st).
Proof.
  intros Hfn Hflt Hp.
  unfold Converter.on_payload, Converter.save_payload, Converter.on_broken.
  rewrite Hfn, Hflt, Hp. by rewrite stub_dropped.
Qed.

(** A payload that decodes, for a name the operating system refuses, ends
    like one that does not decode. *)
Lemma on_payload_refused io st g fn parsed :
  Py.truthy (Converter.current_filename st) = Some fn →
  Converter.filtered_out io fn = false →
  json_loads (Py.strip g) = Some parsed →
  FS.exists_ (Converter.out_dir st) fn = false →
  os_accepts fn = false →
  Converter.on_payload io st g
  = Converter.mkState (Converter.count_broken (Converter.stats st))
      (Converter.entries st) None
      (if os_accepts (Converter.stub_name fn)
       then <[Converter.stub_name fn := RawFile (Py.strip g)]>
              (Converter.out_dir st)
       else Converter.out_dir st).
Proof.
  intros Hfn Hflt Hp Hex Hos.
  unfold Converter.on_payload, Converter.save_payload, Converter.on_broken.
  rewrite Hfn, Hflt, Hp, Hex, open_w_refused by done.
  by rewrite stub_dropped.
Qed.

Lemma on_payload_keeps_target io st g fn :
  Py.truthy (Converter.current_filename st) = Some fn →
  FS.exists_ (Converter.out_dir st) fn = true →
  Converter.out_dir (Converter.on_payload io st g) !! fn
  = Converter.out_dir st !! fn.
Proof.
  intros Hfn Hex.
  destruct (on_payload_cases io st g)
    as [[Hn ->]|(fn' & Hfn' & [[_ ->]|(Hflt & [(p & _ & _ & ->)
                                      |[(p & _ & [Hex' _] & ->)|[_ ->]]])])];
    simpl; try done; assert (fn' = fn) as -> by congruence.
  - congruence.
  - destruct (os_accepts _); [|done].
    rewrite lookup_insert_ne; [done|apply stub_name_ne].
Qed.

Lemma flush_duplicate io st fn :
  Py.truthy (Puller.filename st) = Some fn →
  Puller.buffer st ≠ [] →
  Puller._basename fn ∈ Puller.seen_files st →
  Puller.flush io st
  = Puller.mkState
      (Puller.mkCounters (S (Puller.scanned (Puller.stats st)))
         (Puller.saved (Puller.stats st)) (Puller.skipped (Puller.stats st))
         (S (Puller.duplicate (Puller.stats st))))
      (Puller.seen_files st) (Puller.filename st) (Puller.buffer st)
      (Puller.collecting st) (Puller.out_dir st).
Proof.
  intros Hfn Hb Hseen. unfold Puller.flush. rewrite Hfn.
  destruct (Puller.buffer st); [done|].
  by rewrite bool_decide_eq_true_2.
Qed.

(** C3.  Converter: once a run has written the preset file [fn], a
    later payload for the pending filename [fn] that decodes, whatever
    it holds, increments [skipped_dupe] and leaves the directory and the
    index entries as they are; and no payload for the pending filename
    [fn], decodable or not, changes what an existing [fn] holds.
    Puller: once a run has written the file named [base], a later
    hand-off for a filename with that basename increments [duplicate]
    and leaves the directory as it is, whatever the buffer holds. *)
Theorem duplicate_is_counted_and_not_rewritten :
  (∀ io lines dir st raw g fn obj parsed,
     st = Converter.run_loop io lines (Converter.initial dir) →
     dir !! fn = None →
     Converter.out_dir st !! fn = Some (PresetFile obj) →
     Py.truthy (Converter.current_filename st) = Some fn →
     Converter.payload_of raw = Some g →
     json_loads (Py.strip g) = Some parsed →
     Converter.step io st raw
     = Converter.mkState (Converter.count_dupe (Converter.stats st))
         (Converter.entries st) None (Converter.out_dir st))
  ∧ (∀ io st raw g fn,
       Py.truthy (Converter.current_filename st) = Some fn →
       FS.exists_ (Converter.out_dir st) fn = true →
       Converter.payload_of raw = Some g →
       Converter.out_dir (Converter.step io st raw) !! fn
       = Converter.out_dir st !! fn)
  ∧ (∀ io lines dir st fn,
       st = Puller.run_loop io lines (Puller.initial dir) →
       dir !! Puller._basename fn = None →
       is_Some (Puller.out_dir st !! Puller._basename fn) →
       Py.truthy (Puller.filename st) = Some fn →
       Puller.buffer st ≠ [] →
       Puller.flush io st
       = Puller.mkState
           (Puller.mkCounters (S (Puller.scanned (Puller.stats st)))
              (Puller.saved (Puller.stats st))
              (Puller.skipped (Puller.stats st))
              (S (Puller.duplicate (Puller.stats st))))
           (Puller.seen_files st) (Puller.filename st) (Puller.buffer st)
           (Puller.collecting st) (Puller.out_dir st)).
Proof.
  split; [|split].
  - intros io lines dir st raw g fn obj parsed -> Hnew Hfile Hfn Hg Hp.
    rewrite (step_payload _ _ _ _ Hg).
    destruct (converter_run_invariant io lines dir) as (_ & _ & Hpass).
    apply (on_payload_dupe _ _ _ fn parsed); [done| |done|].
    + destruct (Hpass _ _ Hfile) as [Hold|?]; [congruence|done].
    + unfold FS.exists_. rewrite Hfile.
      rewrite (bool_decide_eq_true_2 _ (mk_is_Some _ _ eq_refl)).
      apply orb_true_r.
  - intros io st raw g fn Hfn Hex Hg. rewrite (step_payload _ _ _ _ Hg).
    by apply on_payload_keeps_target.
  - intros io lines dir st fn -> Hnew Hfile Hfn Hb.
    apply (flush_duplicate io _ fn); [done..|].
    destruct (puller_run_invariant io lines dir) as [_ Hseen].
    destruct (Hseen _ Hfile) as [Hold|?]; [|done].
    rewrite Hnew in Hold. by destruct Hold.
Qed.

End Outcomes.

Section Broken.
Context `{PyRuntime}.


End Broken.

(** ** C6: how the puller fills its buffer *)

Section Buffering.
Context `{PyRuntime}.



End Buffering.

(** ** C7: the exported bank lists *)

Section BankLists.

Lemma presetlist_lines_length k : ∀ files n,
  length files ≤ k →
  length (Converter.presetlist_lines n files)
  = length files + (length files + 3) / 4.
Proof.
  induction k as [|k IH]; intros files n Hk.
  - destruct files; [done|simpl in Hk; lia].
  - destruct files as [|a [|b [|c [|d rest]]]]; try done.
    cbn [Converter.presetlist_lines length].
    rewrite IH by (simpl in Hk; lia).
    replace (S (S (S (S (length rest)))) + 3)
      with (length rest + 3 + 1 * 4) by lia.
    rewrite Nat.div_add by done. lia.
Qed.

Lemma pad_snoc n : ∀ l x,
  Builder.pad n (l ++ [x]) = l ++ [x] ++ replicate n x.
Proof.
  induction n as [|n IH]; intros l x; simpl.
  - done.
  - rewrite last_snoc, IH. by rewrite <- app_assoc.
Qed.

(** C7, as amended.  The list written by the live capture holds the
    names it is given in chunks of four, in the order given, each chunk
    after a header [-- Bank N] numbered from 1; a last chunk of one to
    three names is written as it is, so the list has one line per name
    and one per bank; the names it is given enumerate the set returned
    by [parse_presetlist_from_lines], hence each extracted name once,
    and two bank lists with the same names in different orders give the
    same set.  The export of the builder writes four names per bank,
    repeating the last assigned one: a bank holding [E] alone is written
    as four [E]. *)
Theorem bank_list_export :
  (∀ files, Converter.live_presetlist files
            = Converter.presetlist_lines 1 files)
  ∧ (∀ n, Converter.bank_header n = "-- Bank " +:+ pretty n)
  ∧ (∀ n, Converter.presetlist_lines n [] = [])
  ∧ (∀ n a b c d rest,
       Converter.presetlist_lines n (a :: b :: c :: d :: rest)
       = Converter.bank_header n :: a :: b :: c :: d
           :: Converter.presetlist_lines (S n) rest)
  ∧ (∀ n chunk,
       chunk ≠ [] → length chunk < 4 →
       Converter.presetlist_lines n chunk = Converter.bank_header n :: chunk)
  ∧ (∀ files,
       length (Converter.live_presetlist files)
       = length files + (length files + 3) / 4)
  ∧ (∀ lines files,
       files ≡ₚ elements (Converter.parse_presetlist_from_lines lines) →
       NoDup files
       ∧ ∀ fn, fn ∈ files ↔ fn ∈ Converter.presetlist_keep false lines)
  ∧ Converter.parse_presetlist_from_lines Scenario.banks_ab
    = Converter.parse_presetlist_from_lines Scenario.banks_ba
  ∧ (∀ assigned fn,
       length (assigned ++ [fn]) ≤ 4 →
       take 4 (Builder.pad_to_four (assigned ++ [fn]))
       = assigned ++ [fn] ++ replicate (4 - length (assigned ++ [fn])) fn)
  ∧ Builder._export 2 Scenario.slots_a_e (Some "E")
    = Some ["-- Bank 1"; "A"; "A"; "A"; "A";
            "-- Bank 2"; "E"; "E"; "E"; "E"].
Proof.
  split; [done|]. split; [done|]. split; [done|]. split; [done|].
  split; [|split; [|split; [|split; [|split]]]].
  - intros n [|a [|b [|c [|d rest]]]] Hne Hlen; try done.
    simpl in Hlen. lia.
  - intros files. by apply (presetlist_lines_length (length files)).
  - intros lines files Hperm. split.
    + rewrite Hperm. apply NoDup_elements.
    + intros fn. rewrite Hperm, elem_of_elements.
      unfold Converter.parse_presetlist_from_lines.
      by rewrite elem_of_list_to_set.
  - by vm_compute.
  - intros assigned fn Hlen. unfold Builder.pad_to_four.
    rewrite pad_snoc. apply take_ge.
    rewrite !length_app, length_replicate in *. simpl in *. lia.
  - by vm_compute.
Qed.

End BankLists.

(** ** C2: the inclusion filter *)

Section Filter.
Context `{PyRuntime}.

(** The filter decides, for a payload that decodes and whose target does
    not exist yet and can be created, whether the file is written. *)
Lemma filter_decides_persistence io st raw g fn parsed :
  Converter.payload_of raw = Some g →
  Py.truthy (Converter.current_filename st) = Some fn →
  json_loads (Py.strip g) = Some parsed →
  FS.exists_ (Converter.out_dir st) fn = false →
  os_accepts fn = true →
  (Converter.out_dir (Converter.step io st raw) !! fn
   = Some (PresetFile parsed)
   ↔ io = None ∨ ∃ keep, io = Some keep ∧ fn ∈ keep).
Proof.
  intros Hg Hfn Hp Hex Hos. rewrite (step_payload _ _ _ _ Hg).
  pose proof (exists_false_inv _ _ Hex) as [_ Hnone].
  destruct (Converter.filtered_out io fn) eqn:Hflt.
  - unfold Converter.on_payload. rewrite Hfn, Hflt. simpl. rewrite Hnone.
    split; [done|]. unfold Converter.filtered_out in Hflt.
    intros [->|(keep & -> & Hin)]; [done|].
    by apply bool_decide_eq_true in Hflt.
  - rewrite (on_payload_saved _ _ _ _ _ Hfn Hflt Hp Hex Hos). simpl.
    rewrite lookup_insert_eq. split; [intros _|done].
    unfold Converter.filtered_out in Hflt.
    destruct io as [keep|]; [right|by left].
    exists keep. split; [done|].
    apply bool_decide_eq_false in Hflt. by apply dec_stable.
Qed.

End Filter.

(** C2, on the failing input.  With the active list requested and a bank
    list that names no file, the live capture hands the empty set to the
    extraction as its filter, and the preset of the scenario is counted
    as not in the list and is not written. *)
Theorem empty_bank_list_filters_everything :
  Converter.live_include_only true Scenario.empty_banks = Some ∅
  ∧ Converter._extract_lines_to_files (H:=Ref.runtime) Scenario.tone1_lines
      ∅ [] (Converter.live_include_only true Scenario.empty_banks)
    = Converter.mkResult (Converter.mkCounters 0 0 0 0 1) ∅ [].
Proof. split; by vm_compute. Qed.

(** ** C5: the scenario of the specification *)

(** C5, as amended.  On the two lines of the scenario the converter
    processes one payload, writes the one file [Tone1.json] holding the
    object as received, with the identifier [abc-1], records the index
    line [Tone1.json ABC-1] and returns [saved = 1] with the other counters
    at 0; the puller writes the one file [Tone1.json] holding the object
    with the identifier upper-cased and the four defaults added, and
    returns [scanned = 1], [saved = 1].  In the index of the converter the
    identifier is the upper-cased text of the field, and [UNKNOWN] when
    the field is absent; the puller gives no identifier to a preset that
    has none. *)
Theorem tone1_scenario :
  Converter._extract_lines_to_files (H:=Ref.runtime) Scenario.tone1_lines
    ∅ [] None
  = Converter.mkResult (Converter.mkCounters 1 0 0 0 0)
      {["Tone1.json" := PresetFile Scenario.tone1_object]}
      ["Tone1.json ABC-1"]
  ∧ Converter.scanned Scenario.tone1_lines = 1
  ∧ Puller._extract_lines_to_files (H:=Ref.runtime) Scenario.tone1_lines
      ∅ None
    = (Puller.mkCounters 1 1 0 0,
       {["Tone1.json" := PresetFile Scenario.tone1_normalized]})
  ∧ (∀ (R : PyRuntime) parsed,
       Dict.get "UUID" parsed = None →
       Converter.index_uuid parsed = "UNKNOWN")
  ∧ (∀ (R : PyRuntime) parsed v,
       Dict.get "UUID" parsed = Some v →
       Converter.index_uuid parsed = Py.upper (py_str v))
  ∧ (∀ (R : PyRuntime) preset,
       Dict.get "UUID" preset = None →
       Dict.get "UUID" (Puller._normalize_for_ignitron preset) = None).
Proof.
  split; [by vm_compute|]. split; [by vm_compute|]. split; [by vm_compute|].
  split; [|split].
  - intros R parsed Hu. unfold Converter.index_uuid. by rewrite Hu.
  - intros R parsed v Hu. unfold Converter.index_uuid. by rewrite Hu.
  - intros R preset Hu. by rewrite get_normalized, Hu.
Qed.

(** ** Where the code departs from the specification *)

(** Against C1: the puller drops a captured payload that has no filename
    without counting it anywhere, [scanned] included, where the converter
    counts it as [skipped_no_filename]. *)
Lemma puller_drops_orphan_capture_uncounted :
  Puller.buffer
    (Puller.run_loop (H:=Ref.runtime) None [Scenario.marker_tone1]
       (Puller.initial ∅))
  = [Scenario.tone1_json]
  ∧ Puller._extract_lines_to_files (H:=Ref.runtime) [Scenario.marker_tone1]
      ∅ None
    = (Puller.mkCounters 0 0 0 0, ∅)
  ∧ Converter.r_stats
      (Converter._extract_lines_to_files (H:=Ref.runtime)
         [Scenario.marker_tone1] ∅ [] None)
    = Converter.mkCounters 0 0 1 0 0.
Proof. repeat split; by vm_compute. Qed.


(** Against C5: the file the converter writes does not hold the
    upper-cased identifier. *)
Lemma converter_file_keeps_identifier_as_received :
  ¬ ∃ obj,
      Converter.r_out_dir
        (Converter._extract_lines_to_files (H:=Ref.runtime)
           Scenario.tone1_lines ∅ [] None) !! "Tone1.json"
      = Some (PresetFile obj)
      ∧ Dict.get "UUID" obj = Some (JString "ABC-1").
Proof.
  intros (obj & Hfile & Hu).
  assert (Hrun : Converter.r_out_dir
                   (Converter._extract_lines_to_files (H:=Ref.runtime)
                      Scenario.tone1_lines ∅ [] None) !! "Tone1.json"
                 = Some (PresetFile Scenario.tone1_object)) by (by vm_compute).
  rewrite Hrun in Hfile. injection Hfile as <-. by vm_compute in Hu.
Qed.


(** Against C7: the list of the live capture for five names ends with a
    bank of one name. *)
Lemma live_list_last_bank_not_padded :
  Converter.live_presetlist ["A"; "B"; "C"; "D"; "E"]
  = ["-- Bank 1"; "A"; "B"; "C"; "D"; "-- Bank 2"; "E"]
  ∧ Converter.live_presetlist ["A"; "B"; "C"; "D"; "E"]
    ≠ ["-- Bank 1"; "A"; "B"; "C"; "D"; "-- Bank 2"; "E"; "E"; "E"; "E"].
Proof. split; by vm_compute. Qed.

(** ** The statements above at concrete inputs *)

Lemma counters_witness :
  Converter.one_more (Converter.stats Scenario.converter_pending)
    (Converter.stats
       (Converter.step (H:=Ref.runtime) None Scenario.converter_pending
          Scenario.marker_tone1))
  ∧ Converter.stats
      (Converter.step (H:=Ref.runtime) None Scenario.converter_pending
         "free heap: 1024")
    = Converter.stats Scenario.converter_pending
  ∧ Puller.stats (Puller.flush (H:=Ref.runtime) None Scenario.puller_pending)
    = Puller.mkCounters 1 1 0 0
  ∧ Puller.stats (Puller.flush (H:=Ref.runtime) None Scenario.puller_bad)
    = Puller.mkCounters 1 0 1 0
  ∧ Puller.stats (Puller.flush (H:=Ref.runtime) None Scenario.puller_again)
    = Puller.mkCounters 2 1 0 1.
Proof.
  destruct (@counters_account_for_every_capture Ref.runtime)
    as (Hone & Hnone & _ & Hflush & _).
  split; [|split; [|split; [|split]]].
  - apply (Hone None _ _ Scenario.tone1_json). vm_compute. reflexivity.
  - apply Hnone. vm_compute. reflexivity.
  - destruct (Hflush None Scenario.puller_pending "/Tone1.json") as [_ ->];
      [vm_compute; reflexivity|vm_compute; discriminate|].
    vm_compute. reflexivity.
  - destruct (Hflush None Scenario.puller_bad "/Bad.json") as [_ ->];
      [vm_compute; reflexivity|vm_compute; discriminate|].
    vm_compute. reflexivity.
  - destruct (Hflush None Scenario.puller_again "/Tone1.json") as [_ ->];
      [vm_compute; reflexivity|vm_compute; discriminate|].
    vm_compute. reflexivity.
Defined.

Lemma duplicate_witness :
  Converter.step (H:=Ref.runtime) None Scenario.converter_again
    Scenario.marker_other
  = Converter.mkState
      (Converter.count_dupe (Converter.stats Scenario.converter_again))
      (Converter.entries Scenario.converter_again) None
      (Converter.out_dir Scenario.converter_again)
  ∧ Converter.out_dir Scenario.converter_again !! "Tone1.json"
    = Some (PresetFile Scenario.tone1_object)
  ∧ Puller.stats (Puller.flush (H:=Ref.runtime) None Scenario.puller_again)
    = Puller.mkCounters 2 1 0 1.
Proof.
  destruct (@duplicate_is_counted_and_not_rewritten Ref.runtime)
    as (Hconv & _ & Hpull).
  split; [|split].
  - apply (Hconv None Scenario.tone1_again ∅ _ _ Scenario.other_json
             "Tone1.json" Scenario.tone1_object [("UUID", JString "ffff")]);
      vm_compute; reflexivity.
  - vm_compute. reflexivity.
  - rewrite (Hpull None (Scenario.tone1_again ++ [Scenario.marker_other]) ∅
               _ "/Tone1.json").
    + vm_compute. reflexivity.
    + reflexivity.
    + vm_compute. reflexivity.
    + vm_compute. eexists. reflexivity.
    + vm_compute. reflexivity.
    + vm_compute. discriminate.
Defined.

Lemma bank_list_witness :
  Converter.presetlist_lines 2 ["E"] = ["-- Bank 2"; "E"].
Proof.
  destruct bank_list_export as (_ & _ & _ & _ & Hlast & _).
  rewrite Hlast; [reflexivity|discriminate|simpl; lia].
Defined.

Lemma tone1_witness :
  Converter.index_uuid (H:=Ref.runtime) [("Name", JString "Tone1")] = "UNKNOWN".
Proof.
  destruct tone1_scenario as (_ & _ & _ & Habsent & _).
  apply Habsent. reflexivity.
Defined.

Lemma normalize_witness :
  Dict.get "Name"
    (Puller._normalize_for_ignitron (H:=Ref.runtime)
       [("Name", JString "Tone1"); ("PresetNumber", JInt 3)])
  = Some (JString "Tone1").
Proof.
  destruct (@normalize_defaults_only_when_absent Ref.runtime
              [("Name", JString "Tone1"); ("PresetNumber", JInt 3)])
    as (_ & Hkeep & _).
  apply Hkeep; [discriminate|discriminate|reflexivity].
Defined.

Lemma orphan_witness :
  Converter.step (H:=Ref.runtime) None (Converter.initial ∅)
    Scenario.marker_tone1
  = Converter.mkState (Converter.mkCounters 0 0 1 0 0) [] None ∅.
Proof.
  destruct (@orphan_payload_is_counted Ref.runtime) as (Horphan & _).
  rewrite (Horphan None _ _ Scenario.tone1_json); vm_compute; reflexivity.
Defined.

(** * Further properties of the converter's extraction *)

Section ConverterRuns.
Context `{PyRuntime}.

Lemma step_noise io st raw :
  Converter.announces raw = false → Converter.payload_of raw = None →
  Converter.step io st raw = st.
Proof.
  intros Ha Hp. rewrite step_spec, Hp.
  unfold Converter.announces in Ha. apply bool_decide_eq_false in Ha.
  destruct (Re.FILENAME_RE_search _); [|done]. destruct Ha. eauto.
Qed.

(** X1.  Lines that neither announce a filename nor carry a payload can
    be removed from the input without changing anything the run does. *)
Theorem converter_ignores_noise io lines : ∀ st,
  Converter.run_loop io lines st
  = Converter.run_loop io
      (List.filter
         (λ raw, Converter.announces raw
                 || bool_decide (is_Some (Converter.payload_of raw)))
         lines) st.
Proof.
  unfold Converter.run_loop.
  induction lines as [|raw lines IH]; intros st; simpl; [done|].
  destruct (Converter.announces raw) eqn:Ha; simpl; [apply IH|].
  destruct (Converter.payload_of raw) as [g|] eqn:Hp.
  - rewrite bool_decide_eq_true_2 by eauto. simpl. apply IH.
  - rewrite bool_decide_eq_false_2 by (by intros [? ?]).
    rewrite step_noise by done. apply IH.
Qed.

Lemma on_payload_entries io st g :
  length (Converter.entries st) = Converter.saved (Converter.stats st) →
  length (Converter.entries (Converter.on_payload io st g))
  = Converter.saved (Converter.stats (Converter.on_payload io st g)).
Proof.
  intros Hlen.
  destruct (on_payload_cases io st g)
    as [[_ ->]|(fn & _ & [[_ ->]|(_ & [(p & _ & _ & ->)
                                      |[(p & _ & _ & ->)|[_ ->]]])])];
    simpl; try done.
  rewrite length_app. simpl. lia.
Qed.

Lemma count_char_append c s1 s2 :
  Py.count_char c (s1 +:+ s2) = Py.count_char c s1 + Py.count_char c s2.
Proof.
  induction s1 as [|a s1 IH]; [done|].
  change (String a s1 +:+ s2) with (String a (s1 +:+ s2)).
  cbn [Py.count_char]. rewrite IH. lia.
Qed.

Lemma index_text_line_feeds entries :
  Py.count_char "010" (Converter.index_text entries)
  = length entries + sum_list (Py.count_char "010" <$> entries).
Proof.
  induction entries as [|e entries IH]; [done|].
  cbn [Converter.index_text fold_right fmap list_fmap sum_list_with sum_list
       length].
  fold (Converter.index_text entries).
  rewrite !count_char_append, IH. cbn [Py.count_char].
  change (Ascii.eqb "010" "010") with true. unfold id. lia.
Qed.

(** X2.  The run appends to the index one entry per saved preset, each
    followed by a line feed: the text appended holds as many line feeds
    as the [saved] counter says, plus the line feeds that the entries
    themselves hold (an identifier with a line feed in it takes two
    lines). *)
Theorem index_grows_by_saved lines dir index io :
  let r := Converter._extract_lines_to_files lines dir index io in
  ∃ added,
    Converter.r_index r = index ++ added
    ∧ length added = Converter.saved (Converter.r_stats r)
    ∧ Py.count_char "010" (Converter.index_text added)
      = Converter.saved (Converter.r_stats r)
        + sum_list (Py.count_char "010" <$> added).
Proof.
  cbv zeta. unfold Converter._extract_lines_to_files. simpl.
  exists (Converter.entries
            (Converter.run_loop io lines (Converter.initial dir))).
  assert (Hlen : length (Converter.entries
                           (Converter.run_loop io lines
                              (Converter.initial dir)))
                 = Converter.saved
                     (Converter.stats
                        (Converter.run_loop io lines
                           (Converter.initial dir)))).
  { unfold Converter.run_loop.
    apply (fold_left_invariant
             (λ st, length (Converter.entries st)
                    = Converter.saved (Converter.stats st))); [done|].
    intros st raw Hst. rewrite step_spec.
    destruct (Re.FILENAME_RE_search _); [done|].
    destruct (Converter.payload_of raw); [|done].
    by apply on_payload_entries. }
  split; [done|]. split; [done|].
  by rewrite index_text_line_feeds, Hlen.
Qed.

(** X3.  With a filter, a preset file found in the directory after the
    run was there before the run, with the same content, or is named in
    the filter. *)
Theorem filtered_run_adds_only_listed lines dir index keep fn obj :
  Converter.r_out_dir
    (Converter._extract_lines_to_files lines dir index (Some keep)) !! fn
  = Some (PresetFile obj) →
  dir !! fn = Some (PresetFile obj) ∨ fn ∈ keep.
Proof.
  intros Hfile.
  destruct (converter_run_invariant (Some keep) lines dir) as (_ & _ & Hpass).
  destruct (Hpass _ _ Hfile) as [?|Hflt]; [by left|right].
  simpl in Hflt. apply bool_decide_eq_false in Hflt. by apply dec_stable.
Qed.

(** X4.  With the empty set as filter the run writes nothing: the
    directory and the index are as before, and only the counters of
    payloads without filename and of payloads not in the list can be
    other than 0. *)
Theorem empty_filter_writes_nothing lines dir index :
  let r := Converter._extract_lines_to_files lines dir index (Some ∅) in
  Converter.r_out_dir r = dir ∧ Converter.r_index r = index
  ∧ Converter.saved (Converter.r_stats r) = 0
  ∧ Converter.skipped_dupe (Converter.r_stats r) = 0
  ∧ Converter.broken (Converter.r_stats r) = 0.
Proof.
  unfold Converter._extract_lines_to_files. simpl.
  cut (Converter.out_dir
         (Converter.run_loop (Some ∅) lines (Converter.initial dir)) = dir
       ∧ Converter.entries
           (Converter.run_loop (Some ∅) lines (Converter.initial dir)) = []
       ∧ Converter.saved (Converter.stats
           (Converter.run_loop (Some ∅) lines (Converter.initial dir))) = 0
       ∧ Converter.skipped_dupe (Converter.stats
           (Converter.run_loop (Some ∅) lines (Converter.initial dir))) = 0
       ∧ Converter.broken (Converter.stats
           (Converter.run_loop (Some ∅) lines (Converter.initial dir))) = 0).
  { intros (-> & -> & -> & -> & ->). by rewrite app_nil_r. }
  unfold Converter.run_loop.
  apply (fold_left_invariant
           (λ st, Converter.out_dir st = dir ∧ Converter.entries st = []
                  ∧ Converter.saved (Converter.stats st) = 0
                  ∧ Converter.skipped_dupe (Converter.stats st) = 0
                  ∧ Converter.broken (Converter.stats st) = 0)); [done|].
  intros st raw Hst. rewrite step_spec.
  destruct (Re.FILENAME_RE_search _); [done|].
  destruct (Converter.payload_of raw) as [g|]; [|done].
  unfold Converter.on_payload.
  destruct (Py.truthy _) as [fn|]; [|done].
  assert (Converter.filtered_out (Some ∅) fn = true) as ->; [|done].
  simpl. apply bool_decide_eq_true. set_solver.
Qed.

End ConverterRuns.

(** ** Running the extraction again on its own output *)

Section Rerun.
Context `{PyRuntime}.
Implicit Types (st : Converter.state) (io : option (gset string)).

Lemma on_payload_keeps_files io st g p :
  is_Some (Converter.out_dir st !! p) →
  is_Some (Converter.out_dir (Converter.on_payload io st g) !! p).
Proof.
  intros Hp.
  destruct (on_payload_cases io st g)
    as [[_ ->]|(fn & _ & [[_ ->]|(_ & [(x & _ & _ & ->)
                                      |[(x & _ & _ & ->)|[_ ->]]])])];
    simpl; try done; try destruct (os_accepts _); try done;
    rewrite lookup_insert; case_decide; eauto.
Qed.

Lemma step_keeps_files io st raw p :
  is_Some (Converter.out_dir st !! p) →
  is_Some (Converter.out_dir (Converter.step io st raw) !! p).
Proof.
  intros Hp. rewrite step_spec.
  destruct (Re.FILENAME_RE_search _); [done|].
  destruct (Converter.payload_of raw); [|done].
  by apply on_payload_keeps_files.
Qed.

Lemma run_keeps_files io lines : ∀ st p,
  is_Some (Converter.out_dir st !! p) →
  is_Some (Converter.out_dir (Converter.run_loop io lines st) !! p).
Proof.
  unfold Converter.run_loop.
  induction lines as [|raw lines IH]; intros st p Hp; simpl; [done|].
  by apply IH, step_keeps_files.
Qed.

Lemma on_payload_adds_accepted io st g p :
  is_Some (Converter.out_dir (Converter.on_payload io st g) !! p) →
  is_Some (Converter.out_dir st !! p) ∨ os_accepts p = true.
Proof.
  destruct (on_payload_cases io st g)
    as [[_ ->]|(fn & _ & [[_ ->]|(_ & [(x & _ & _ & ->)
                                      |[(x & _ & [_ Hos] & ->)|[_ ->]]])])];
    simpl; auto.
  - rewrite lookup_insert. case_decide; [subst; auto|auto].
  - destruct (os_accepts (Converter.stub_name fn)) eqn:Hos; [|auto].
    rewrite lookup_insert. case_decide; [subst; auto|auto].
Qed.

(** A run adds no file under a name the operating system refuses. *)
Lemma run_adds_accepted io lines : ∀ st p,
  is_Some (Converter.out_dir (Converter.run_loop io lines st) !! p) →
  is_Some (Converter.out_dir st !! p) ∨ os_accepts p = true.
Proof.
  unfold Converter.run_loop.
  induction lines as [|raw lines IH]; intros st p; simpl; [auto|].
  intros [Hp|?]%IH; [|auto]. revert Hp. rewrite step_spec.
  destruct (Re.FILENAME_RE_search _); [auto|].
  destruct (Converter.payload_of raw); [|auto].
  apply on_payload_adds_accepted.
Qed.

Lemma exists_true_inv dir fn :
  FS.exists_ dir fn = true → FS.is_dir_name fn = true ∨ is_Some (dir !! fn).
Proof.
  unfold FS.exists_. intros [?|Hl%bool_decide_eq_true]%orb_true_iff; auto.
Qed.

(** One line, processed by the first run in [st1] and by the second run in
    [st2], where [final] is a directory that holds what the first run will
    hold and that the second run already holds. *)
Lemma rerun_step io st1 st2 (final : gmap string file) raw :
  Converter.current_filename st1 = Converter.current_filename st2 →
  (∀ p, is_Some (Converter.out_dir (Converter.step io st1 raw) !! p) →
        is_Some (final !! p)) →
  (∀ p, is_Some (final !! p) → is_Some (Converter.out_dir st2 !! p)) →
  (∀ p, Converter.out_dir st2 !! p = Converter.out_dir st1 !! p
        ∨ Converter.out_dir st2 !! p = final !! p) →
  (∀ p, is_Some (final !! p) →
        is_Some (Converter.out_dir st1 !! p) ∨ os_accepts p = true) →
  let s1 := Converter.step io st1 raw in
  let s2 := Converter.step io st2 raw in
  Converter.current_filename s1 = Converter.current_filename s2
  ∧ (∀ p, Converter.out_dir s2 !! p = Converter.out_dir s1 !! p
          ∨ Converter.out_dir s2 !! p = final !! p)
  ∧ Converter.entries s2 = Converter.entries st2
  ∧ Converter.saved (Converter.stats s2) = Converter.saved (Converter.stats st2)
  ∧ Converter.skipped_dupe (Converter.stats s2)
    + Converter.saved (Converter.stats st1)
    + Converter.skipped_dupe (Converter.stats st1)
    = Converter.skipped_dupe (Converter.stats st2)
      + Converter.saved (Converter.stats s1)
      + Converter.skipped_dupe (Converter.stats s1)
  ∧ Converter.skipped_no_filename (Converter.stats s2)
    + Converter.skipped_no_filename (Converter.stats st1)
    = Converter.skipped_no_filename (Converter.stats st2)
      + Converter.skipped_no_filename (Converter.stats s1)
  ∧ Converter.broken (Converter.stats s2) + Converter.broken (Converter.stats st1)
    = Converter.broken (Converter.stats st2)
      + Converter.broken (Converter.stats s1)
  ∧ Converter.skipped_not_in_list (Converter.stats s2)
    + Converter.skipped_not_in_list (Converter.stats st1)
    = Converter.skipped_not_in_list (Converter.stats st2)
      + Converter.skipped_not_in_list (Converter.stats s1).
Proof.
  intros Hcf Hfin Hhas Hrel Hacc. simpl. revert Hfin. rewrite !step_spec.
  destruct (Re.FILENAME_RE_search _) as [g0|]; [intros _; simpl; by repeat split|].
  destruct (Converter.payload_of raw) as [g|];
    [|intros _; simpl; by repeat split].
  destruct (Py.truthy (Converter.current_filename st1)) as [fn|] eqn:Hfn.
  2:{ intros _. rewrite !on_payload_orphan by congruence. simpl.
      repeat split; try done; lia. }
  assert (Hfn2 : Py.truthy (Converter.current_filename st2) = Some fn)
    by congruence.
  destruct (Converter.filtered_out io fn) eqn:Hflt.
  { intros _. unfold Converter.on_payload. rewrite Hfn, Hfn2, Hflt. simpl.
    repeat split; try done; lia. }
  destruct (json_loads (Py.strip g)) as [parsed|] eqn:Hp.
  2:{ intros _. rewrite !(on_payload_broken _ _ _ fn) by done. simpl.
      repeat split; try done; try lia.
      intros p. destruct (os_accepts (Converter.stub_name fn));
        [|apply Hrel].
      rewrite !lookup_insert. case_decide; [by left|apply Hrel]. }
  destruct (FS.exists_ (Converter.out_dir st1) fn) eqn:E1.
  - rewrite (on_payload_dupe _ _ _ _ _ Hfn Hflt Hp E1). simpl. intros Hfin.
    assert (E2 : FS.exists_ (Converter.out_dir st2) fn = true).
    { apply exists_true_inv in E1 as [Hd|Hs].
      - unfold FS.exists_. by rewrite Hd.
      - unfold FS.exists_.
        rewrite (bool_decide_eq_true_2 _ (Hhas _ (Hfin _ Hs))).
        apply orb_true_r. }
    rewrite (on_payload_dupe _ _ _ _ _ Hfn2 Hflt Hp E2). simpl.
    repeat split; try done; lia.
  - destruct (os_accepts fn) eqn:Hos.
    2:{ intros _. pose proof (exists_false_inv _ _ E1) as [Hd Hnone].
        assert (E2 : FS.exists_ (Converter.out_dir st2) fn = false).
        { unfold FS.exists_. rewrite Hd. simpl. apply bool_decide_eq_false.
          intros Hin. destruct (Hrel fn) as [Heq|Heq].
          - rewrite Heq, Hnone in Hin. by destruct Hin.
          - rewrite Heq in Hin. destruct (Hacc fn Hin) as [Hold|?];
              [|congruence]. rewrite Hnone in Hold. by destruct Hold. }
        pose proof (on_payload_refused io st1 g fn parsed Hfn Hflt Hp E1 Hos)
          as R1.
        pose proof (on_payload_refused io st2 g fn parsed Hfn2 Hflt Hp E2 Hos)
          as R2.
        rewrite R1, R2. simpl.
        repeat split; try done; try lia.
        intros p. destruct (os_accepts (Converter.stub_name fn));
          [|apply Hrel].
        rewrite !lookup_insert. case_decide; [by left|apply Hrel]. }
    rewrite (on_payload_saved _ _ _ _ _ Hfn Hflt Hp E1 Hos). simpl.
    intros Hfin.
    apply exists_false_inv in E1 as [Hd Hnone].
    assert (Hin : is_Some (Converter.out_dir st2 !! fn)).
    { apply Hhas, Hfin. rewrite lookup_insert_eq. eauto. }
    assert (E2 : FS.exists_ (Converter.out_dir st2) fn = true).
    { unfold FS.exists_. rewrite (bool_decide_eq_true_2 _ Hin).
      apply orb_true_r. }
    rewrite (on_payload_dupe _ _ _ _ _ Hfn2 Hflt Hp E2). simpl.
    repeat split; try done; try lia.
    intros p. rewrite lookup_insert. case_decide as Hp'.
    + subst p. destruct (Hrel fn) as [Heq|?]; [|by right].
      rewrite Heq, Hnone in Hin. by destruct Hin.
    + apply Hrel.
Qed.

Lemma rerun_lockstep io lines : ∀ st1 st2,
  Converter.current_filename st1 = Converter.current_filename st2 →
  (∀ p, is_Some (Converter.out_dir (Converter.run_loop io lines st1) !! p) →
        is_Some (Converter.out_dir st2 !! p)) →
  (∀ p, Converter.out_dir st2 !! p = Converter.out_dir st1 !! p
        ∨ Converter.out_dir st2 !! p
          = Converter.out_dir (Converter.run_loop io lines st1) !! p) →
  let f1 := Converter.run_loop io lines st1 in
  let f2 := Converter.run_loop io lines st2 in
  Converter.out_dir f2 = Converter.out_dir f1
  ∧ Converter.entries f2 = Converter.entries st2
  ∧ Converter.saved (Converter.stats f2) = Converter.saved (Converter.stats st2)
  ∧ Converter.skipped_dupe (Converter.stats f2)
    + Converter.saved (Converter.stats st1)
    + Converter.skipped_dupe (Converter.stats st1)
    = Converter.skipped_dupe (Converter.stats st2)
      + Converter.saved (Converter.stats f1)
      + Converter.skipped_dupe (Converter.stats f1)
  ∧ Converter.skipped_no_filename (Converter.stats f2)
    + Converter.skipped_no_filename (Converter.stats st1)
    = Converter.skipped_no_filename (Converter.stats st2)
      + Converter.skipped_no_filename (Converter.stats f1)
  ∧ Converter.broken (Converter.stats f2) + Converter.broken (Converter.stats st1)
    = Converter.broken (Converter.stats st2)
      + Converter.broken (Converter.stats f1)
  ∧ Converter.skipped_not_in_list (Converter.stats f2)
    + Converter.skipped_not_in_list (Converter.stats st1)
    = Converter.skipped_not_in_list (Converter.stats st2)
      + Converter.skipped_not_in_list (Converter.stats f1).
Proof.
  induction lines as [|raw lines IH]; intros st1 st2 Hcf Hhas Hrel.
  - simpl in *. split; [|repeat split; lia].
    apply map_eq. intros p. by destruct (Hrel p).
  - change (Converter.run_loop io (raw :: lines) st1)
      with (Converter.run_loop io lines (Converter.step io st1 raw)) in *.
    change (Converter.run_loop io (raw :: lines) st2)
      with (Converter.run_loop io lines (Converter.step io st2 raw)).
    destruct (rerun_step io st1 st2
                (Converter.out_dir
                   (Converter.run_loop io lines (Converter.step io st1 raw)))
                raw Hcf)
      as (Hcf' & Hrel' & He & Hs & Hd & Hn & Hb & Hl); [|done|done| |].
    { intros p. apply run_keeps_files. }
    { intros p. apply (run_adds_accepted io (raw :: lines)). }
    destruct (IH (Converter.step io st1 raw) (Converter.step io st2 raw) Hcf')
      as (Ho & He' & Hs' & Hd' & Hn' & Hb' & Hl'); [|done|].
    { intros p Hp. by apply step_keeps_files, Hhas. }
    simpl. split; [done|]. split; [congruence|]. repeat split; lia.
Qed.

(** X5.  Running the extraction a second time, on the same lines with the
    same filter, into the directory and index the first run left: nothing
    is saved, the directory and the index stay as the first run left
    them, every payload the first run saved or found duplicate is found
    duplicate, and the other three counters are those of the first run. *)
Theorem second_run_saves_nothing lines dir index io :
  let r1 := Converter._extract_lines_to_files lines dir index io in
  let r2 := Converter._extract_lines_to_files lines (Converter.r_out_dir r1)
              (Converter.r_index r1) io in
  Converter.r_out_dir r2 = Converter.r_out_dir r1
  ∧ Converter.r_index r2 = Converter.r_index r1
  ∧ Converter.r_stats r2
    = Converter.mkCounters 0
        (Converter.saved (Converter.r_stats r1)
         + Converter.skipped_dupe (Converter.r_stats r1))
        (Converter.skipped_no_filename (Converter.r_stats r1))
        (Converter.broken (Converter.r_stats r1))
        (Converter.skipped_not_in_list (Converter.r_stats r1)).
Proof.
  unfold Converter._extract_lines_to_files. simpl.
  destruct (rerun_lockstep io lines (Converter.initial dir)
              (Converter.initial
                 (Converter.out_dir
                    (Converter.run_loop io lines (Converter.initial dir)))))
    as (Ho & He & Hs & Hd & Hn & Hb & Hl); [done|done|by right|].
  simpl in *. split; [done|]. split; [by rewrite He, app_nil_r|].
  destruct (Converter.stats (Converter.run_loop io lines (Converter.initial _)))
    as [s2 d2 n2 b2 l2] eqn:E2 in *.
  simpl in *. f_equal; lia.
Qed.

End Rerun.

(** * Further properties of the puller's extraction *)

Section PullerRuns.
Context `{PyRuntime}.
Implicit Types (st : Puller.state) (io : option (gset string)).

Lemma write_preset_file_onto fn buf dir d io :
  Puller._write_preset_file fn buf (dir ∪ d) io
  = ((Puller._write_preset_file fn buf dir io).1,
     (Puller._write_preset_file fn buf dir io).2 ∪ d).
Proof.
  unfold Puller._write_preset_file.
  destruct (json_loads _); [|done].
  destruct (Puller.kept _ _); [|done].
  unfold FS.open_w. destruct (FS.is_dir_name _); [done|].
  destruct (os_accepts _); [|done]. simpl.
  by rewrite insert_union_l.
Qed.

Lemma flush_onto io d st :
  Puller.flush io (Puller.onto d st) = Puller.onto d (Puller.flush io st).
Proof.
  destruct st as [c seen fnm buf col dir].
  unfold Puller.flush, Puller.onto. simpl.
  destruct (Py.truthy _); [|done].
  destruct buf; [done|].
  case_bool_decide; [done|].
  rewrite write_preset_file_onto.
  by destruct (Puller._write_preset_file _ _ _ _) as [[] ?].
Qed.

Lemma step_onto io d st ln :
  Puller.step io (Puller.onto d st) ln = Puller.onto d (Puller.step io st ln).
Proof.
  unfold Puller.step. rewrite flush_onto.
  destruct (Puller.flush io st) as [c' seen' fnm' buf' col' dir'].
  destruct st as [c seen fnm buf col dir].
  unfold Puller.onto, Puller.push. simpl.
  repeat (match goal with |- context [if ?b then _ else _] => destruct b end);
    done.
Qed.

Lemma run_onto io d lines : ∀ st,
  Puller.run_loop io lines (Puller.onto d st)
  = Puller.onto d (Puller.run_loop io lines st).
Proof.
  unfold Puller.run_loop.
  induction lines as [|ln lines IH]; intros st; simpl; [done|].
  by rewrite step_onto, IH.
Qed.

Lemma extract_onto lines dir io :
  Puller._extract_lines_to_files lines dir io
  = ((Puller._extract_lines_to_files lines ∅ io).1,
     (Puller._extract_lines_to_files lines ∅ io).2 ∪ dir).
Proof.
  unfold Puller._extract_lines_to_files.
  replace (Puller.initial dir) with (Puller.onto dir (Puller.initial ∅)).
  - by rewrite run_onto, flush_onto.
  - unfold Puller.onto, Puller.initial. simpl. by rewrite (left_id_L ∅ (∪)).
Qed.

(** X6.  The puller never looks at what the directory holds: its
    statistics are those of a run into an empty directory, the directory
    it leaves is what that run writes laid over the files that were
    there, and pulling the same lines again into the directory it left
    returns the same statistics and leaves the directory unchanged. *)
Theorem puller_ignores_existing_files lines dir io :
  let fresh := Puller._extract_lines_to_files lines ∅ io in
  let r1 := Puller._extract_lines_to_files lines dir io in
  r1 = (fresh.1, fresh.2 ∪ dir)
  ∧ Puller._extract_lines_to_files lines r1.2 io = r1.
Proof.
  intros fresh r1. split; [apply extract_onto|].
  rewrite (extract_onto lines r1.2 io). fold fresh.
  unfold r1. rewrite (extract_onto lines dir io). fold fresh. simpl.
  f_equal. rewrite (assoc_L (∪)). f_equal. apply (idemp_L (∪)).
Qed.

Lemma puller_step_quiet io st ln :
  Puller.announces ln = false → Puller.filename st = None →
  Puller.stats (Puller.step io st ln) = Puller.stats st
  ∧ Puller.out_dir (Puller.step io st ln) = Puller.out_dir st
  ∧ Puller.filename (Puller.step io st ln) = None.
Proof.
  unfold Puller.announces, Puller.step, Puller.push. intros -> Hf.
  repeat (match goal with |- context [if ?b then _ else _] => destruct b end);
    done.
Qed.

(** X7.  Without a filename announcement nothing is scanned: whatever
    payloads the lines carry, the four counters are 0 and the directory is
    untouched. *)
Theorem puller_needs_an_announcement lines dir io :
  Forall (λ ln, Puller.announces ln = false) lines →
  Puller._extract_lines_to_files lines dir io
  = (Puller.mkCounters 0 0 0 0, dir).
Proof.
  intros Hall. unfold Puller._extract_lines_to_files.
  assert (Hrun : ∀ st, Puller.filename st = None →
            Puller.stats (Puller.run_loop io lines st) = Puller.stats st
            ∧ Puller.out_dir (Puller.run_loop io lines st) = Puller.out_dir st
            ∧ Puller.filename (Puller.run_loop io lines st) = None).
  { unfold Puller.run_loop.
    induction Hall as [|ln lines Hln Hall IH]; intros st Hf; simpl; [done|].
    destruct (puller_step_quiet io st ln Hln Hf) as (Hs & Hd & Hf').
    destruct (IH _ Hf') as (-> & -> & ->). done. }
  destruct (Hrun (Puller.initial dir) eq_refl) as (Hs & Hd & Hf).
  unfold Puller.flush. rewrite Hf. simpl. by rewrite Hs, Hd.
Qed.

Lemma flush_normalizes io (before : gmap string file) st :
  (∀ p f, Puller.out_dir st !! p = Some f →
     before !! p = Some f
     ∨ ∃ preset, f = PresetFile (Puller._normalize_for_ignitron preset)) →
  ∀ p f, Puller.out_dir (Puller.flush io st) !! p = Some f →
    before !! p = Some f
    ∨ ∃ preset, f = PresetFile (Puller._normalize_for_ignitron preset).
Proof.
  intros Hst.
  destruct (flush_cases io st) as [[_ ->]|(fn & _ & _ & Hc)]; [done|].
  simpl in Hc. destruct Hc as [[_ ->]|(_ & ok & dir' & Hw & ->)]; [done|].
  pose proof (write_preset_file_cases fn (Puller.buffer st)
                (Puller.out_dir st) io) as Hcases.
  simpl in Hcases. rewrite Hw in Hcases.
  destruct Hcases as [[[= -> ->] _]|(preset & _ & _ & _ & [= -> ->])];
    simpl; [done|].
  intros p f. rewrite lookup_insert. case_decide; [|apply Hst].
  intros [= <-]. right. by exists preset.
Qed.

(** X8.  Every file found in the directory after a pull was there before,
    with the same content, or holds a normalised preset: no
    [PresetNumber], and a [Version], a [Description], an [Icon] and a
    [BPM] field. *)
Theorem pulled_files_are_normalized lines dir io p f :
  (Puller._extract_lines_to_files lines dir io).2 !! p = Some f →
  dir !! p = Some f
  ∨ ∃ obj, f = PresetFile obj
      ∧ Dict.get "PresetNumber" obj = None
      ∧ is_Some (Dict.get "Version" obj)
      ∧ is_Some (Dict.get "Description" obj)
      ∧ is_Some (Dict.get "Icon" obj)
      ∧ is_Some (Dict.get "BPM" obj).
Proof.
  intros Hf. unfold Puller._extract_lines_to_files in Hf. simpl in Hf.
  assert (Hinv : ∀ p f,
            Puller.out_dir (Puller.run_loop io lines (Puller.initial dir)) !! p
            = Some f →
            dir !! p = Some f
            ∨ ∃ preset, f = PresetFile (Puller._normalize_for_ignitron preset)).
  { unfold Puller.run_loop.
    apply (fold_left_invariant
             (λ st, ∀ p f, Puller.out_dir st !! p = Some f →
                dir !! p = Some f
                ∨ ∃ preset,
                    f = PresetFile (Puller._normalize_for_ignitron preset)));
      [by left|].
    intros st ln Hst.
    pose proof (flush_normalizes io dir st Hst) as Hfl.
    unfold Puller.step, Puller.push.
    repeat (match goal with
            | |- context [if ?b then _ else _] => destruct b
            end); done. }
  destruct (flush_normalizes io dir _ Hinv p f Hf) as [?|[preset ->]];
    [by left|right].
  exists (Puller._normalize_for_ignitron preset). split; [done|].
  rewrite !get_normalized. simpl.
  repeat split; destruct (Dict.get _ preset); simpl; eauto.
Qed.

End PullerRuns.

(** * Normalisation and cleaning, applied twice *)

Section Idempotence.
Context `{PyRuntime}.

Lemma dict_pop_absent k d : Dict.get k d = None → Dict.pop k d = d.
Proof.
  induction d as [|[k0 v0] d IH]; simpl; [done|].
  destruct (String.eqb k0 k); [done|]. intros Hd. simpl. by rewrite IH.
Qed.

Lemma dict_set_same k v d : Dict.get k d = Some v → Dict.set k v d = d.
Proof.
  induction d as [|[k0 v0] d IH]; simpl; [done|].
  destruct (String.eqb k0 k); [by intros [= ->]|].
  intros Hd. by rewrite IH.
Qed.

Lemma dict_setdefault_present k v d :
  is_Some (Dict.get k d) → Dict.setdefault k v d = d.
Proof. intros [x Hx]. unfold Dict.setdefault, Dict.mem. by rewrite Hx. Qed.

Lemma upper_char_idempotent c :
  Py.upper_char (Py.upper_char c) = Py.upper_char c.
Proof. by destruct c as [[] [] [] [] [] [] [] []]. Qed.

Lemma upper_idempotent s : Py.upper (Py.upper s) = Py.upper s.
Proof.
  induction s as [|c s IH]; [done|].
  unfold Py.upper in *. simpl. by rewrite upper_char_idempotent, IH.
Qed.

Lemma normalize_fixed d :
  Dict.get "PresetNumber" d = None →
  is_Some (Dict.get "Version" d) → is_Some (Dict.get "Description" d) →
  is_Some (Dict.get "Icon" d) → is_Some (Dict.get "BPM" d) →
  (∀ v, Dict.get "UUID" d = Some v → JString (Py.upper (py_str v)) = v) →
  Puller._normalize_for_ignitron d = d.
Proof.
  intros Hp Hv Hd Hi Hb Hu. unfold Puller._normalize_for_ignitron.
  rewrite (dict_pop_absent _ _ Hp).
  rewrite (dict_setdefault_present "Version" _ _ Hv).
  rewrite (dict_setdefault_present "Description" _ _ Hd).
  rewrite (dict_setdefault_present "Icon" _ _ Hi).
  rewrite (dict_setdefault_present "BPM" _ _ Hb).
  destruct (Dict.get "UUID" d) as [v|] eqn:Huuid; [|done].
  rewrite (Hu v eq_refl). by apply dict_set_same.
Qed.

(** X9.  Normalising a preset that is already normalised changes
    nothing, the order of its fields included. *)
Theorem normalize_is_idempotent preset :
  Puller._normalize_for_ignitron (Puller._normalize_for_ignitron preset)
  = Puller._normalize_for_ignitron preset.
Proof.
  apply normalize_fixed; rewrite ?get_normalized; simpl; try done;
    try (destruct (Dict.get _ preset); simpl; eauto; fail).
  intros v.
  destruct (Dict.get "UUID" preset) as [u|]; simpl; [|done].
  intros [= <-]. simpl. by rewrite upper_idempotent.
Qed.

End Idempotence.

Section Cleaning.

Lemma find_char_skip c s : ∀ i,
  Py.find_char c s = Some i → ∃ rest, Py.skip i s = String c rest.
Proof.
  induction s as [|a s IH]; intros i; simpl; [done|].
  destruct (Ascii.eqb_spec a c) as [->|Hne].
  - intros [= <-]. by eexists.
  - destruct (Py.find_char c s) as [j|]; [|done]. simpl.
    intros [= <-]. by apply IH.
Qed.

Lemma substring_skip s : ∀ a n,
  String.substring a n s = String.substring 0 n (Py.skip a s).
Proof.
  induction s as [|x s IH]; intros [|a] n; simpl; try done.
  by destruct n.
Qed.

Lemma rfind_char_skip c s : ∀ j a,
  Py.rfind_char c s = Some j → a ≤ j →
  Py.rfind_char c (Py.skip a s) = Some (j - a).
Proof.
  induction s as [|x s IH]; intros j [|a] Hj Ha; try done.
  - by rewrite Nat.sub_0_r.
  - cbn [Py.skip]. cbn [Py.rfind_char] in Hj.
    destruct (Py.rfind_char c s) as [i|] eqn:Hi.
    + injection Hj as <-. rewrite (IH i a eq_refl) by lia. done.
    + destruct (Ascii.eqb x c); [|done]. injection Hj as <-. lia.
Qed.

Lemma rfind_char_prefix c s : ∀ j,
  Py.rfind_char c s = Some j →
  Py.rfind_char c (String.substring 0 (S j) s) = Some j
  ∧ String.length (String.substring 0 (S j) s) = S j.
Proof.
  induction s as [|x s IH]; intros j; [done|].
  cbn [Py.rfind_char String.substring].
  destruct (Py.rfind_char c s) as [i|] eqn:Hi.
  - intros [= <-]. destruct (IH i eq_refl) as [Hr Hl].
    cbn [Py.rfind_char String.length]. by rewrite Hr, Hl.
  - destruct (Ascii.eqb x c) eqn:Hx; [|done]. intros [= <-].
    assert (String.substring 0 0 s = "") as -> by (by destruct s).
    by cbn [Py.rfind_char String.length].
Qed.

Lemma substring_all s : String.substring 0 (String.length s) s = s.
Proof. induction s as [|x s IH]; simpl; [done|by rewrite IH]. Qed.

(** X10.  [_clean_json_text] either returns the text as it is, or a text
    that begins with the opening brace and ends with the closing brace;
    cleaning a cleaned text changes nothing. *)
Theorem clean_json_text_is_idempotent text :
  Puller._clean_json_text (Puller._clean_json_text text)
  = Puller._clean_json_text text
  ∧ (Puller._clean_json_text text = text
     ∨ (Py.find_char "{" (Puller._clean_json_text text) = Some 0
        ∧ Py.rfind_char "}" (Puller._clean_json_text text)
          = Some (String.length (Puller._clean_json_text text) - 1))).
Proof.
  unfold Puller._clean_json_text at 2 3 4 5 6 7.
  destruct (Py.find_char "{" text) as [start|] eqn:Hs;
    [|split; [unfold Puller._clean_json_text; by rewrite Hs|by left]].
  destruct (Py.rfind_char "}" text) as [end_|] eqn:He;
    [|split; [unfold Puller._clean_json_text; by rewrite Hs, He|by left]].
  destruct (start <=? end_) eqn:Hle;
    [|split; [unfold Puller._clean_json_text; by rewrite Hs, He, Hle|by left]].
  apply Nat.leb_le in Hle.
  destruct (find_char_skip _ _ _ Hs) as [rest Hrest].
  pose proof (rfind_char_skip _ _ _ start He Hle) as Hr.
  unfold Py.slice. rewrite substring_skip.
  replace (S end_ - start) with (S (end_ - start)) by lia.
  destruct (rfind_char_prefix _ _ _ Hr) as [Hlast Hlen].
  set (r := String.substring 0 (S (end_ - start)) (Py.skip start text)) in *.
  assert (Hfirst : Py.find_char "{" r = Some 0).
  { unfold r. rewrite Hrest. simpl. done. }
  split.
  - unfold Puller._clean_json_text. rewrite Hfirst, Hlast. simpl.
    unfold Py.slice. rewrite Nat.sub_0_r, <- Hlen. apply substring_all.
  - right. split; [done|]. rewrite Hlast, Hlen. f_equal. lia.
Qed.

End Cleaning.

(** * What the converter hands to the decoder *)

Ltac app_cons :=
  repeat match goal with
         | |- context [String ?a ?s +:+ ?t] =>
             change (String a s +:+ t) with (String a (s +:+ t))
         | |- context [EmptyString +:+ ?t] => change (EmptyString +:+ t) with t
         end.

Section Groups.

Lemma string_app_assoc s1 s2 s3 : (s1 +:+ s2) +:+ s3 = s1 +:+ (s2 +:+ s3).
Proof. induction s1 as [|a s1 IH]; app_cons; [done|by rewrite IH]. Qed.

Lemma rev_app_app s : ∀ t acc,
  String.rev_app (s +:+ t) acc = String.rev_app t (String.rev_app s acc).
Proof.
  induction s as [|a s IH]; intros t acc; app_cons; [done|].
  cbn [String.rev_app]. apply IH.
Qed.

Lemma rev_app_spec s1 : ∀ s2, String.rev_app s1 s2 = String.rev s1 +:+ s2.
Proof.
  unfold String.rev. induction s1 as [|a s1 IH]; intros s2; [done|].
  cbn [String.rev_app]. rewrite (IH (String a s2)), (IH (String a "")).
  by rewrite string_app_assoc.
Qed.

Lemma rev_snoc s c : String.rev (s +:+ String c "") = String c (String.rev s).
Proof. unfold String.rev. by rewrite rev_app_app. Qed.

Lemma rev_cons a s : String.rev (String a s) = String.rev s +:+ String a "".
Proof. unfold String.rev at 1. cbn [String.rev_app]. apply rev_app_spec. Qed.

Lemma rev_involutive s : String.rev (String.rev s) = s.
Proof.
  induction s as [|a s IH]; [done|]. by rewrite rev_cons, rev_snoc, IH.
Qed.

Lemma rstrip_by_snoc p s c :
  p c = false → Py.rstrip_by p (s +:+ String c "") = s +:+ String c "".
Proof.
  intros Hc. unfold Py.rstrip_by. rewrite rev_snoc. simpl. rewrite Hc.
  by rewrite <- rev_snoc, rev_involutive.
Qed.

Lemma re_search_Some {A} (here : string → option A) s g :
  Re.re_search here s = Some g → ∃ s', here s' = Some g.
Proof.
  induction s as [|a s IH]; simpl.
  - destruct (here "") eqn:Hh; [|done]. intros [= <-]. eauto.
  - destruct (here (String a s)) eqn:Hh; [intros [= <-]; eauto|apply IH].
Qed.

Lemma rfind_char_prefix_snoc c s : ∀ k,
  Py.rfind_char c s = Some k →
  String.substring 0 (S k) s = String.substring 0 k s +:+ String c "".
Proof.
  induction s as [|x s IH]; intros k; [done|].
  cbn [Py.rfind_char].
  destruct (Py.rfind_char c s) as [i|] eqn:Hi.
  - intros [= <-]. cbn [String.substring]. by rewrite (IH i eq_refl).
  - destruct (Ascii.eqb_spec x c) as [->|]; [|done]. intros [= <-].
    cbn [String.substring]. by destruct s.
Qed.

(** X11.  The text [JSON_RE] extracts from a line begins with an opening
    brace and ends with a closing brace, and stripping it changes
    nothing: what the converter decodes is the group itself. *)
Theorem json_group_is_braced line g :
  Re.JSON_RE_search line = Some g →
  (∃ body, g = "{" +:+ body +:+ "}") ∧ Py.strip g = g.
Proof.
  intros [s Hs]%re_search_Some. unfold Re.JSON_RE_here in Hs.
  destruct (Re.literal _ s) as [r|]; [|done]. simpl in Hs.
  destruct (Py.drop_while Py.is_space r) as [|c body]; [done|].
  destruct (Ascii.eqb_spec c "{") as [->|]; [|done].
  destruct (Py.rfind_char "}" _) as [k|] eqn:Hk; [|done].
  simpl in Hs. injection Hs as <-.
  unfold Py.slice. rewrite Nat.sub_0_r, (rfind_char_prefix_snoc _ _ _ Hk).
  split; [by eexists|].
  unfold Py.strip, Py.lstrip, Py.lstrip_by. cbn [Py.drop_while].
  replace (Py.is_space "{") with false by done.
  change (String "{" (?x +:+ "}")) with ((String "{" x) +:+ "}").
  by apply rstrip_by_snoc.
Qed.

End Groups.

(** * The further properties at the inputs of the examples *)

Lemma filtered_run_witness :
  (∅ : gmap string file) !! "Tone1.json"
  = Some (PresetFile Scenario.tone1_object)
  ∨ "Tone1.json" ∈ ({["Tone1.json"]} : gset string).
Proof.
  apply (@filtered_run_adds_only_listed Ref.runtime Scenario.tone1_lines ∅ []).
  vm_compute. reflexivity.
Defined.

Lemma puller_announcement_witness :
  Puller._extract_lines_to_files (H:=Ref.runtime)
    [Scenario.marker_tone1; Scenario.marker_other] ∅ None
  = (Puller.mkCounters 0 0 0 0, ∅).
Proof.
  apply (@puller_needs_an_announcement Ref.runtime).
  repeat constructor.
Defined.

Lemma pulled_normalized_witness :
  (∅ : gmap string file) !! "Tone1.json"
  = Some (PresetFile Scenario.tone1_normalized)
  ∨ ∃ obj, PresetFile Scenario.tone1_normalized = PresetFile obj
      ∧ Dict.get "PresetNumber" obj = None
      ∧ is_Some (Dict.get "Version" obj)
      ∧ is_Some (Dict.get "Description" obj)
      ∧ is_Some (Dict.get "Icon" obj)
      ∧ is_Some (Dict.get "BPM" obj).
Proof.
  apply (@pulled_files_are_normalized Ref.runtime Scenario.tone1_lines ∅ None).
  vm_compute. reflexivity.
Defined.

Lemma json_group_witness :
  (∃ body, Scenario.tone1_json = "{" +:+ body +:+ "}")
  ∧ Py.strip Scenario.tone1_json = Scenario.tone1_json.
Proof.
  apply (json_group_is_braced Scenario.marker_tone1).
  vm_compute. reflexivity.
Defined.

(** * The serial reader *)

Section ReaderLines.
Variable decode : string → string.

Lemma string_app_empty s : s +:+ EmptyString = s.
Proof. induction s as [|a s IH]; [done|]. app_cons. by rewrite IH. Qed.

Lemma split_on_cons c s : ∃ h t, Py.split_on c s = h :: t.
Proof.
  induction s as [|a s (h & t & IH)]; simpl; [by eauto|].
  destruct (Ascii.eqb a c); [by eauto|]. rewrite IH. by eauto.
Qed.

Lemma on_chunk_app s1 : ∀ s2 st,
  Reader.on_chunk decode st (s1 +:+ s2)
  = Reader.on_chunk decode (Reader.on_chunk decode st s1) s2.
Proof.
  induction s1 as [|a s1 IH]; intros s2 st; [done|].
  app_cons. cbn [Reader.on_chunk]. by rewrite IH.
Qed.

Lemma run_concat chunks : ∀ st,
  Reader.run decode chunks st
  = Reader.on_chunk decode st (String.concat EmptyString chunks).
Proof.
  unfold Reader.run.
  induction chunks as [|c chunks IH]; intros st; [done|].
  cbn [fold_left]. rewrite IH. destruct chunks as [|c' chunks].
  - done.
  - cbn [String.concat]. change (EmptyString +:+ ?x) with x.
    by rewrite on_chunk_app.
Qed.

(** The loop over one chunk, from any buffer: the bytes up to the first
    line feed complete the buffered line, the other lines are the pieces
    between line feeds, and what follows the last line feed stays in the
    buffer. *)
Lemma on_chunk_pieces s : ∀ buf queue,
  Reader.on_chunk decode (buf, queue) s
  = match Py.split_on Reader.LF (Reader.without_cr s) with
    | [] => (buf, queue)
    | [h] => (buf +:+ h, queue)
    | h :: t =>
        (default EmptyString (last t),
         queue ++ Reader.emit decode (buf +:+ h)
               :: (Reader.emit decode <$> removelast t))
    end.
Proof.
  induction s as [|b s IH]; intros buf queue.
  - simpl. by rewrite string_app_empty.
  - cbn [Reader.on_chunk Reader.on_byte Reader.without_cr].
    destruct (Ascii.eqb_spec b Reader.LF) as [->|Hlf].
    + replace (Ascii.eqb Reader.LF Reader.CR) with false by done.
      cbn [Py.split_on]. replace (Ascii.eqb Reader.LF Reader.LF) with true
        by done.
      rewrite IH. rewrite string_app_empty.
      destruct (split_on_cons Reader.LF (Reader.without_cr s))
        as (h & t & ->).
      change (EmptyString +:+ h) with h.
      destruct t as [|x t]; [done|].
      rewrite <- app_assoc. done.
    + destruct (Ascii.eqb_spec b Reader.CR) as [->|Hcr]; [by rewrite IH|].
      cbn [Py.split_on]. rewrite IH.
      destruct (Ascii.eqb_spec b Reader.LF) as [|_]; [done|].
      destruct (split_on_cons Reader.LF (Reader.without_cr s))
        as (h & t & ->).
      rewrite string_app_assoc. app_cons.
      change (EmptyString +:+ ?x) with x. done.
Qed.

(** X12.  The reader queues one line for every line feed received, cut
    at the line feeds of the stream without its carriage returns,
    wherever the chunk boundaries fall; what follows the last line feed
    stays in the buffer and is not queued. *)
Theorem reader_queues_terminated_lines chunks :
  Reader.run decode chunks (EmptyString, [])
  = let pieces :=
      Py.split_on Reader.LF
        (Reader.without_cr (String.concat EmptyString chunks)) in
    (default EmptyString (last pieces),
     Reader.emit decode <$> removelast pieces).
Proof.
  rewrite run_concat, on_chunk_pieces. cbv zeta.
  destruct (split_on_cons Reader.LF
              (Reader.without_cr (String.concat EmptyString chunks)))
    as (h & t & ->).
  destruct t as [|x t]; [done|].
  change (EmptyString +:+ h) with h. done.
Qed.

End ReaderLines.

(** * The live capture *)

Section Capture.
Implicit Types (events : list Live.event) (start done : string → bool).

Lemma collect_sublist start done idle events : ∀ got,
  sublist (Live.collect start done idle got events) (Live.lines_of events).
Proof.
  induction events as [|[|line|msg] events IH]; intros got;
    cbn [Live.collect Live.lines_of omap list_omap].
  - done.
  - destruct (idle && got); [apply sublist_nil_l|apply IH].
  - fold (Live.lines_of events).
    destruct (done line), (got || start line); cbn [app].
    + apply sublist_skip, sublist_nil_l.
    + apply sublist_nil_l.
    + apply sublist_skip, IH.
    + apply sublist_cons, IH.
  - apply sublist_nil_l.
Qed.

Lemma collect_delimited start done idle events : ∀ got,
  let l := Live.collect start done idle got events in
  (got = false → ∀ h, head l = Some h → start h = true)
  ∧ ∀ i x, l !! i = Some x → S i < length l → done x = false.
Proof.
  induction events as [|[|line|msg] events IH]; intros got;
    cbn [Live.collect]; cbv zeta.
  - by split.
  - destruct (idle && got); [by split|apply IH].
  - destruct (IH (got || start line)) as [IHh IHd].
    destruct (done line) eqn:Hdone.
    + split.
      * intros ->. cbn [orb]. destruct (start line) eqn:Hs; [|done].
        by intros h [= <-].
      * intros i x Hx Hlen. destruct (got || start line); simpl in Hlen; lia.
    + split.
      * intros ->. cbn [orb] in *. destruct (start line) eqn:Hs.
        -- by intros h [= <-].
        -- cbn [app]. by apply IHh.
      * destruct (got || start line); cbn [app]; [|done].
        intros [|i] x Hx Hlen; simpl in Hx, Hlen.
        -- by injection Hx as <-.
        -- apply (IHd i x Hx). lia.
  - by split.
Qed.

Lemma collect_waits start done idle events :
  Forall (λ l, start l = false) (Live.lines_of events) →
  Live.collect start done idle false events = [].
Proof.
  induction events as [|[|line|msg] events IH];
    cbn [Live.collect Live.lines_of omap list_omap]; intros Hall.
  - done.
  - rewrite andb_false_r. by apply IH.
  - fold (Live.lines_of events) in Hall.
    apply Forall_cons in Hall as [-> Hall]. cbn [orb app].
    rewrite (IH Hall). by destruct (done line).
  - done.
Qed.

(** X13.  What the two collecting loops keep: lines the reader queued,
    in their order, from a line that matches the start marker on, and
    with no line that matches the end marker before the last one. *)
Theorem captured_lines_are_delimited events :
  (sublist (Live.banks_lines events) (Live.lines_of events)
   ∧ Live.delimited Re.LISTBANKS_START_RE_match Re.LISTBANKS_DONE_RE_match
       (Live.banks_lines events))
  ∧ (sublist (Live.presets_lines events) (Live.lines_of events)
     ∧ Live.delimited Live.LISTPRESETS_START_RE_match
         Live.LISTPRESETS_DONE_RE_match (Live.presets_lines events)).
Proof.
  unfold Live.banks_lines, Live.presets_lines, Live.delimited.
  split; (split; [apply collect_sublist|]).
  - destruct (collect_delimited Re.LISTBANKS_START_RE_match
                Re.LISTBANKS_DONE_RE_match false events false) as [Hh Hd].
    split; [by apply Hh|apply Hd].
  - destruct (collect_delimited Live.LISTPRESETS_START_RE_match
                Live.LISTPRESETS_DONE_RE_match true events false) as [Hh Hd].
    split; [by apply Hh|apply Hd].
Qed.

(** X14.  When no line that matches [LISTBANKS_START_RE] arrives in
    answer to the LISTBANKS request, the live capture hands no filter to
    the extraction, whatever [include_only_active] is. *)
Theorem no_bank_list_no_filter events active :
  Forall (λ l, Re.LISTBANKS_START_RE_match l = false)
         (Live.lines_of events) →
  Converter.live_include_only active (Live.banks_lines events) = None.
Proof.
  intros Hall. unfold Live.banks_lines. by rewrite collect_waits.
Qed.

Lemma no_bank_list_witness :
  Converter.live_include_only true
    (Live.banks_lines
       [Live.QEmpty; Live.QLine "-- Bank 1"; Live.QLine "A.json";
        Live.QLine "LISTBANKS_DONE"; Live.QEmpty])
  = None.
Proof.
  apply no_bank_list_no_filter. repeat constructor.
Defined.

End Capture.

(** * The bank list and the filter *)

Section BankSection.

Lemma done_is_no_start d :
  Re.LISTBANKS_DONE_RE_match d = true → Re.LISTBANKS_START_RE_match d = false.
Proof.
  unfold Re.LISTBANKS_DONE_RE_match, Re.LISTBANKS_START_RE_match.
  intros ->%String.eqb_eq. done.
Qed.

Lemma keep_skips_preamble pre rest :
  Forall (λ l, Re.LISTBANKS_START_RE_match l = false
               ∧ Re.LISTBANKS_DONE_RE_match l = false) pre →
  Converter.presetlist_keep false (pre ++ rest)
  = Converter.presetlist_keep false rest.
Proof.
  induction 1 as [|l pre [Hs Hd] _ IH]; [done|].
  cbn [app Converter.presetlist_keep]. by rewrite Hs, Hd.
Qed.

Lemma keep_stops_at_done body d post : ∀ in_section,
  Forall (λ l, Re.LISTBANKS_DONE_RE_match l = false) body →
  Re.LISTBANKS_DONE_RE_match d = true →
  Converter.presetlist_keep in_section (body ++ d :: post)
  = Converter.presetlist_keep in_section (body ++ [d]).
Proof.
  intros in_section Hbody Hd. revert in_section.
  induction Hbody as [|l body Hl _ IH]; intros in_section;
    cbn [app Converter.presetlist_keep].
  - by rewrite (done_is_no_start d Hd), Hd.
  - rewrite Hl. destruct (Re.LISTBANKS_START_RE_match l); [apply IH|].
    destruct in_section; [|apply IH].
    destruct (Re.BANK_HEADER_RE_match l); [apply IH|].
    destruct (String.eqb _ _); [apply IH|].
    destruct (Py.endswith _ _); [|apply IH]. by rewrite IH.
Qed.

(** X15.  Only the section of the bank list feeds the filter: the lines
    before the first start marker and the lines after the first end
    marker that follows it can be dropped without changing the set. *)
Theorem filter_reads_only_the_section pre s body d post :
  Forall (λ l, Re.LISTBANKS_START_RE_match l = false
               ∧ Re.LISTBANKS_DONE_RE_match l = false) pre →
  Re.LISTBANKS_START_RE_match s = true →
  Forall (λ l, Re.LISTBANKS_DONE_RE_match l = false) body →
  Re.LISTBANKS_DONE_RE_match d = true →
  Converter.parse_presetlist_from_lines (pre ++ s :: body ++ d :: post)
  = Converter.parse_presetlist_from_lines (s :: body ++ [d]).
Proof.
  intros Hpre Hs Hbody Hd. unfold Converter.parse_presetlist_from_lines.
  rewrite keep_skips_preamble by done.
  cbn [Converter.presetlist_keep]. rewrite Hs.
  by rewrite keep_stops_at_done.
Qed.

Lemma filter_section_witness :
  Converter.parse_presetlist_from_lines
    (["boot"; "B.json"] ++ "LISTBANKS_START"
       :: ["-- Bank 1"; "A.json"] ++ "LISTBANKS_DONE" :: ["C.json"])
  = Converter.parse_presetlist_from_lines
      ("LISTBANKS_START" :: ["-- Bank 1"; "A.json"] ++ ["LISTBANKS_DONE"]).
Proof.
  apply filter_reads_only_the_section; repeat constructor.
Defined.

End BankSection.

(** * The converter on a folder *)

Section FolderRuns.
Context `{PyRuntime}.
Implicit Types (st : Converter.state) (io : option (gset string)).

Lemma add_zero c : Folder.add c (Converter.mkCounters 0 0 0 0 0) = c.
Proof. destruct c. unfold Folder.add. simpl. f_equal; lia. Qed.

Lemma add_counts c s :
  Folder.add c (Converter.count_saved s)
  = Converter.count_saved (Folder.add c s)
  ∧ Folder.add c (Converter.count_dupe s)
    = Converter.count_dupe (Folder.add c s)
  ∧ Folder.add c (Converter.count_no_filename s)
    = Converter.count_no_filename (Folder.add c s)
  ∧ Folder.add c (Converter.count_broken s)
    = Converter.count_broken (Folder.add c s)
  ∧ Folder.add c (Converter.count_not_in_list s)
    = Converter.count_not_in_list (Folder.add c s).
Proof.
  destruct c, s.
  unfold Folder.add, Converter.count_saved, Converter.count_dupe,
    Converter.count_no_filename, Converter.count_broken,
    Converter.count_not_in_list.
  simpl. repeat split; f_equal; lia.
Qed.

Lemma step_continues io c e st1 st2 raw :
  Folder.continues c e st1 st2 →
  Folder.continues c e (Converter.step io st1 raw) (Converter.step io st2 raw).
Proof.
  destruct st1 as [s1 e1 f1 d1], st2 as [s2 e2 f2 d2].
  intros (Hs & He & Hd & Hf). simpl in Hs, He, Hd, Hf. subst s1 e1 d1.
  destruct (add_counts c s2) as (Hsaved & Hdupe & Hnofn & Hbroken & Hnil).
  unfold Converter.step. cbn [Converter.stats Converter.entries
    Converter.current_filename Converter.out_dir].
  destruct (Re.FILENAME_RE_search _); [done|].
  destruct (Py.contains _ _); [|done].
  destruct (Re.JSON_RE_search _) as [g|]; [|done].
  unfold Converter.on_payload. cbn [Converter.current_filename]. rewrite Hf.
  destruct (Py.truthy f2) as [fn|] eqn:Hf2.
  - destruct (Converter.filtered_out io fn);
      [repeat split; simpl; congruence|].
    unfold Converter.save_payload, Converter.on_broken,
      Converter.clear_filename.
    cbn [Converter.stats Converter.entries Converter.current_filename
         Converter.out_dir].
    destruct (json_loads _) as [parsed|].
    + destruct (FS.exists_ d2 fn); [repeat split; simpl; congruence|].
      destruct (FS.open_w d2 fn _); [|repeat split; simpl; congruence].
      repeat split; simpl; try congruence. by rewrite app_assoc.
    + repeat split; simpl; congruence.
  - repeat split; simpl; congruence.
Qed.

Lemma run_continues io c e lines : ∀ st1 st2,
  Folder.continues c e st1 st2 →
  Folder.continues c e (Converter.run_loop io lines st1)
                   (Converter.run_loop io lines st2).
Proof.
  unfold Converter.run_loop.
  induction lines as [|raw lines IH]; intros st1 st2 Hc; [done|].
  simpl. by apply IH, step_continues.
Qed.

(** Whether a filename is pending after a run does not depend on the
    directory the run started on. *)
Lemma pending_any_dir io lines d1 d2 :
  Converter.pending (Converter.run_loop io lines (Converter.initial d1))
  = Converter.pending (Converter.run_loop io lines (Converter.initial d2)).
Proof.
  assert (Hstep : ∀ st1 st2 raw,
            Py.truthy (Converter.current_filename st1)
            = Py.truthy (Converter.current_filename st2) →
            Py.truthy (Converter.current_filename (Converter.step io st1 raw))
            = Py.truthy
                (Converter.current_filename (Converter.step io st2 raw))).
  { intros st1 st2 raw Hf. rewrite !step_spec.
    destruct (Re.FILENAME_RE_search _); [done|].
    destruct (Converter.payload_of raw) as [g|]; [|done].
    destruct (on_payload_cases io st1 g) as [[H1 ->]|(fn1 & H1 & Hc1)];
      destruct (on_payload_cases io st2 g) as [[H2 ->]|(fn2 & H2 & Hc2)];
      simpl; try congruence.
    destruct Hc1 as [[_ ->]|[_ [(? & _ & _ & ->)|[(? & _ & _ & ->)|[_ ->]]]]];
      destruct Hc2
        as [[_ ->]|[_ [(? & _ & _ & ->)|[(? & _ & _ & ->)|[_ ->]]]]]; done. }
  assert (Hrun : ∀ st1 st2,
            Py.truthy (Converter.current_filename st1)
            = Py.truthy (Converter.current_filename st2) →
            Py.truthy (Converter.current_filename
                         (Converter.run_loop io lines st1))
            = Py.truthy (Converter.current_filename
                           (Converter.run_loop io lines st2))).
  { unfold Converter.run_loop.
    induction lines as [|raw lines IH]; intros st1 st2 Hf; [done|].
    simpl. by apply IH, Hstep. }
  unfold Converter.pending. by rewrite (Hrun _ (Converter.initial d2)).
Qed.

Lemma pending_0 st :
  Converter.pending st = 0 ↔ Py.truthy (Converter.current_filename st) = None.
Proof.
  unfold Converter.pending. by destruct (Py.truthy _).
Qed.

(** X16.  When no file of the folder ends with an announced filename
    still waiting for its payload, converting the folder does what one
    run over the lines of all the files does: the same directory, the
    same index and the same counters. *)
Theorem folder_run_is_one_run files dir index io :
  Forall (λ lines, Converter.pending
            (Converter.run_loop io lines (Converter.initial ∅)) = 0) files →
  Folder.extract_presets_from_folder files dir index io
  = Converter._extract_lines_to_files (concat files) dir index io.
Proof.
  intros Hall.
  unfold Folder.extract_presets_from_folder, Converter._extract_lines_to_files.
  cbv zeta.
  assert (Hgen : ∀ st,
    Py.truthy (Converter.current_filename st) = None →
    fold_left
      (λ acc lines,
         Converter.mkResult
           (Folder.add (Converter.r_stats acc)
              (Converter.stats
                 (Converter.run_loop io lines
                    (Converter.initial (Converter.r_out_dir acc)))))
           (Converter.out_dir
              (Converter.run_loop io lines
                 (Converter.initial (Converter.r_out_dir acc))))
           (Converter.r_index acc
              ++ Converter.entries
                   (Converter.run_loop io lines
                      (Converter.initial (Converter.r_out_dir acc)))))
      files
      (Converter.mkResult (Converter.stats st) (Converter.out_dir st)
         (index ++ Converter.entries st))
    = Converter.mkResult
        (Converter.stats (Converter.run_loop io (concat files) st))
        (Converter.out_dir (Converter.run_loop io (concat files) st))
        (index ++ Converter.entries
                    (Converter.run_loop io (concat files) st))).
  { induction Hall as [|lines files Hlines _ IH]; intros st Hf; [done|].
    cbn [fold_left concat Converter.r_stats Converter.r_out_dir
         Converter.r_index].
    assert (Hc : Folder.continues (Converter.stats st) (Converter.entries st)
                   (Converter.run_loop io lines st)
                   (Converter.run_loop io lines
                      (Converter.initial (Converter.out_dir st)))).
    { apply run_continues. repeat split; simpl; try done.
      by rewrite add_zero. by rewrite app_nil_r. }
    destruct Hc as (Hs & He & Hd & Hf').
    rewrite <- Hs, <- Hd, <- app_assoc, <- He.
    assert (Hcat : Converter.run_loop io (lines ++ concat files) st
                   = Converter.run_loop io (concat files)
                       (Converter.run_loop io lines st))
      by (unfold Converter.run_loop; apply fold_left_app).
    rewrite Hcat. apply IH. rewrite Hf'. apply pending_0.
    by rewrite (pending_any_dir io lines _ ∅). }
  rewrite <- (Hgen (Converter.initial dir) eq_refl). simpl.
  by rewrite app_nil_r.
Qed.

End FolderRuns.

Lemma folder_run_witness :
  Folder.extract_presets_from_folder (H:=Ref.runtime)
    [Scenario.tone1_lines; Scenario.broken_lines] ∅ [] None
  = Converter._extract_lines_to_files (H:=Ref.runtime)
      (concat [Scenario.tone1_lines; Scenario.broken_lines]) ∅ [] None.
Proof.
  apply (@folder_run_is_one_run Ref.runtime).
  apply Forall_cons. split; [vm_compute; reflexivity|].
  apply Forall_cons. split; [vm_compute; reflexivity|].
  apply Forall_nil_2.
Defined.

(** * The list builder *)

Section Grid.
Implicit Types (g : Gui.gui) (slots : nat → nat → option string).

Lemma elem_of_cells banks b s :
  (b, s) ∈ Gui.cells banks ↔ b ∈ seq 1 banks ∧ s ∈ [1; 2; 3; 4].
Proof.
  unfold Gui.cells. rewrite list_elem_of_bind. split.
  - intros (b' & Hs & Hb). apply list_elem_of_fmap in Hs as (s' & [= -> ->] & Hs).
    done.
  - intros [Hb Hs]. exists b. split; [|done].
    apply list_elem_of_fmap. by exists s.
Qed.

Lemma assigned_in_spec slots b :
  Builder.assigned_in slots b ≠ []
  ↔ ∃ s, s ∈ [1; 2; 3; 4] ∧ is_Some (slots b s).
Proof.
  unfold Builder.assigned_in. split.
  - intros Hne. destruct (omap _ _) as [|fn l] eqn:Hl; [done|].
    assert (Hin : fn ∈ omap (slots b) [1; 2; 3; 4])
      by (rewrite Hl; apply list_elem_of_here).
    apply list_elem_of_omap in Hin as (s & Hs & Hfn). exists s. eauto.
  - intros (s & Hs & [fn Hfn]) Hnil.
    assert (Hin : fn ∈ omap (slots b) [1; 2; 3; 4])
      by (apply list_elem_of_omap; eauto).
    rewrite Hnil in Hin. by apply elem_of_nil in Hin.
Qed.

Lemma any_placed_spec banks slots :
  Builder.any_placed banks slots = true
  ↔ ∃ b s, (b, s) ∈ Gui.cells banks ∧ is_Some (slots b s).
Proof.
  unfold Builder.any_placed. rewrite existsb_exists. split.
  - intros (b & Hb%list_elem_of_In & Hne).
    destruct (assigned_in_spec slots b) as [Hs _].
    destruct Hs as (s & Hs & Hfn); [by destruct (Builder.assigned_in _ _)|].
    exists b, s. by rewrite elem_of_cells.
  - intros (b & s & [Hb Hs]%elem_of_cells & Hfn). exists b.
    split; [by apply list_elem_of_In|].
    destruct (assigned_in_spec slots b) as [_ Hne].
    destruct (Builder.assigned_in slots b); [|done].
    destruct Hne; eauto.
Qed.

Lemma export_banks_filler slots fn banks :
  is_Some (Builder.export_banks slots (Some fn) banks).
Proof.
  induction banks as [|b banks [tail IH]]; simpl; [by eauto|].
  rewrite IH. destruct (Builder.assigned_in slots b); simpl; eauto.
Qed.

(** The builder keeps the last placed filename for as long as a slot of
    the grid is filled. *)
Lemma perform_keeps_filler g a :
  (Builder.any_placed (Gui.bank_count g) (Gui.slots g) = true →
   is_Some (Gui.last_placed_global g)) →
  Gui.bank_count (Gui.perform g a) = Gui.bank_count g
  ∧ (Builder.any_placed (Gui.bank_count g) (Gui.slots (Gui.perform g a))
     = true →
     is_Some (Gui.last_placed_global (Gui.perform g a))).
Proof.
  intros Hinv. destruct a as [b s fn|fn|b s|]; cbn [Gui.perform].
  - split; [done|]. simpl. eauto.
  - unfold Gui._on_double_click.
    destruct (find _ _) as [[b s]|]; [|done]. split; [done|]. simpl. eauto.
  - unfold Gui._clear_slot. destruct (Py.truthy _) as [fn|]; [|done].
    split; [done|]. cbn [Gui.slots Gui.last_placed_global].
    intros (b' & s' & Hin & Hfn)%any_placed_spec. apply Hinv.
    apply any_placed_spec. exists b', s'. split; [done|].
    unfold Gui.set_slot in Hfn. destruct (decide _); [|done].
    by destruct Hfn.
  - split; [done|]. cbn [Gui._clear_all Gui.slots Gui.last_placed_global].
    intros (b & s & Hin & Hfn)%any_placed_spec.
    unfold Gui.in_grid in Hfn. rewrite bool_decide_eq_true_2 in Hfn by done.
    by destruct Hfn.
Qed.

(** X17.  Whatever the user did before, the export of the builder fails
    only when no slot of the grid is filled: the second error, for a
    bank without preset when none was ever placed, cannot occur. *)
Theorem export_fails_only_on_an_empty_grid banks files actions :
  let g := fold_left Gui.perform actions (Gui.start banks files) in
  Gui._export g = None
  ↔ Builder.any_placed (Gui.bank_count g) (Gui.slots g) = false.
Proof.
  cbv zeta.
  assert (Hinv : ∀ g,
    (Builder.any_placed (Gui.bank_count g) (Gui.slots g) = true →
     is_Some (Gui.last_placed_global g)) →
    let g' := fold_left Gui.perform actions g in
    Builder.any_placed (Gui.bank_count g') (Gui.slots g') = true →
    is_Some (Gui.last_placed_global g')).
  { induction actions as [|a actions IH]; intros g Hg; [done|].
    simpl. apply IH.
    destruct (perform_keeps_filler g a Hg) as [Hb Hf]. by rewrite Hb. }
  set (g := fold_left Gui.perform actions (Gui.start banks files)).
  assert (Hg : Builder.any_placed (Gui.bank_count g) (Gui.slots g) = true →
               is_Some (Gui.last_placed_global g)).
  { apply Hinv. simpl. intros (b & s & _ & Hfn)%any_placed_spec.
    by destruct Hfn. }
  unfold Gui._export, Builder._export.
  destruct (Builder.any_placed _ _); [|done].
  destruct (Hg eq_refl) as [fn ->].
  destruct (export_banks_filler (Gui.slots g) fn (seq 1 (Gui.bank_count g)))
    as [lines ->].
  done.
Qed.

End Grid.

Section ExportShape.
Implicit Types (slots : nat → nat → option string).

Lemma padded_length assigned :
  assigned ≠ [] → length (take 4 (Builder.pad_to_four assigned)) = 4.
Proof.
  intros Hne. destruct (exists_last Hne) as (l & x & ->).
  unfold Builder.pad_to_four. rewrite pad_snoc.
  rewrite length_take, !length_app, length_replicate. cbn [length]. lia.
Qed.

Lemma export_banks_length slots last banks : ∀ lines,
  Builder.export_banks slots last banks = Some lines →
  length lines = 5 * length banks.
Proof.
  induction banks as [|b banks IH]; intros lines; simpl.
  - by intros [= <-].
  - destruct (Builder.export_banks slots last banks) as [tail|];
      [|by destruct (match Builder.assigned_in slots b with
                     | [] => _ | _ => _ end)].
    specialize (IH tail eq_refl).
    destruct (Builder.assigned_in slots b) as [|fn l] eqn:Ha.
    + destruct last as [fn|]; [|done]. simpl. intros [= <-].
      simpl. rewrite IH. lia.
    + simpl. intros [= <-]. cbn [length]. rewrite length_app, padded_length
        by done. rewrite IH. lia.
Qed.

(** X18.  A list the builder exports has five lines for every bank of
    the grid, filled or not. *)
Theorem export_has_five_lines_per_bank bank_count slots last lines :
  Builder._export bank_count slots last = Some lines →
  length lines = 5 * bank_count.
Proof.
  unfold Builder._export. destruct (Builder.any_placed _ _); [|done].
  intros ->%export_banks_length. by rewrite length_seq.
Qed.

Lemma export_lines_witness :
  length ["-- Bank 1"; "A"; "A"; "A"; "A"; "-- Bank 2"; "E"; "E"; "E"; "E"]
  = 5 * 2.
Proof.
  apply (export_has_five_lines_per_bank 2 Scenario.slots_a_e (Some "E")).
  vm_compute. reflexivity.
Defined.

End ExportShape.

Section Clicks.
Implicit Types (g : Gui.gui) (c : nat * nat).

Lemma find_split {A} (p : A → bool) l x :
  List.find p l = Some x →
  ∃ l1 l2, l = l1 ++ x :: l2 ∧ p x = true ∧ Forall (λ y, p y = false) l1.
Proof.
  induction l as [|a l IH]; simpl; [done|].
  destruct (p a) eqn:Ha.
  - intros [= ->]. by exists [], l.
  - intros (l1 & l2 & -> & Hx & Hl1)%IH. exists (a :: l1), l2.
    split; [done|]. split; [done|]. by constructor.
Qed.

Lemma cells_sorted_from a banks :
  StronglySorted Gui.precedes
    (seq a banks ≫= λ b, (λ s, (b, s)) <$> [1; 2; 3; 4]).
Proof.
  revert a. induction banks as [|n IH]; intros a.
  - constructor.
  - cbn [seq]. change ((a :: ?l) ≫= ?f) with (f a ++ (l ≫= f)).
    apply StronglySorted_app_2; [| |apply IH].
    + intros c1 [b2 s2] Hc1 (b' & Hs & Hb)%list_elem_of_bind.
      apply list_elem_of_fmap in Hs as (s' & [= -> ->] & _).
      apply list_elem_of_fmap in Hc1 as (s1 & -> & _).
      apply elem_of_seq in Hb. left. simpl. lia.
    + cbn [fmap list_fmap].
      repeat (apply SSorted_cons; [|repeat constructor; right; simpl; lia]).
      constructor.
Qed.

Lemma cells_sorted banks : StronglySorted Gui.precedes (Gui.cells banks).
Proof. apply cells_sorted_from. Qed.

(** X19.  A double click never overwrites a slot: it changes nothing
    when every slot of the grid is filled, and otherwise puts the preset
    into the empty slot that comes first in reading order. *)
Theorem double_click_fills_the_first_empty_slot g filename :
  ((∀ c, c ∈ Gui.cells (Gui.bank_count g) → is_Some (Gui.slots g c.1 c.2))
   ∧ Gui._on_double_click g filename = g
   ∨ ∃ b s, (b, s) ∈ Gui.cells (Gui.bank_count g)
       ∧ Gui.slots g b s = None
       ∧ (∀ c, c ∈ Gui.cells (Gui.bank_count g) → Gui.precedes c (b, s) →
               is_Some (Gui.slots g c.1 c.2))
       ∧ Gui._on_double_click g filename
         = Gui._assign_to_slot g b s filename)
  ∧ ∀ b s, is_Some (Gui.slots g b s) →
           Gui.slots (Gui._on_double_click g filename) b s = Gui.slots g b s.
Proof.
  unfold Gui._on_double_click.
  destruct (find _ _) as [[b s]|] eqn:Hfind.
  - apply find_split in Hfind as (l1 & l2 & Hcells & Hempty & Hl1).
    apply bool_decide_eq_true in Hempty. simpl in Hempty. split.
    + right. exists b, s. split; [|split; [done|split; [|done]]].
      * rewrite Hcells. apply elem_of_app. right. apply list_elem_of_here.
      * intros c Hc Hprec. rewrite Hcells in Hc.
        apply elem_of_app in Hc as [Hc|Hc].
        -- rewrite Forall_forall in Hl1. specialize (Hl1 c Hc).
           apply bool_decide_eq_false in Hl1.
           by destruct (Gui.slots g c.1 c.2).
        -- pose proof (cells_sorted (Gui.bank_count g)) as Hsorted.
           rewrite Hcells in Hsorted.
           apply StronglySorted_app_1_r, StronglySorted_cons in Hsorted
             as [Hafter _].
           apply elem_of_cons in Hc as [->|Hc].
           ++ unfold Gui.precedes in Hprec. simpl in Hprec. lia.
           ++ rewrite Forall_forall in Hafter. specialize (Hafter c Hc).
              unfold Gui.precedes in Hprec, Hafter. simpl in *. lia.
    + intros b' s' Hfilled. cbn [Gui._assign_to_slot Gui.slots].
      unfold Gui.set_slot. destruct (decide _) as [[-> ->]|]; [|done].
      rewrite Hempty in Hfilled. by destruct Hfilled.
  - split; [|done]. left. split; [|done]. intros c Hc.
    apply list_elem_of_In in Hc.
    pose proof (find_none _ _ Hfind c Hc) as Hfilled. simpl in Hfilled.
    apply bool_decide_eq_false in Hfilled.
    by destruct (Gui.slots g c.1 c.2).
Qed.

End Clicks.

Section Used.
Implicit Types (g : Gui.gui) (c : nat * nat).

Lemma cells_NoDup banks : NoDup (Gui.cells banks).
Proof.
  pose proof (cells_sorted banks) as Hsorted.
  induction Hsorted as [|c l _ IH Hall]; constructor; [|done].
  intros Hin. rewrite Forall_forall in Hall. specialize (Hall c Hin).
  unfold Gui.precedes in Hall. lia.
Qed.

Lemma count_le {A} (p q : A → bool) l :
  (∀ x, x ∈ l → p x = true → q x = true) →
  length (List.filter p l) ≤ length (List.filter q l).
Proof.
  induction l as [|a l IH]; intros Hpq; [done|]. simpl.
  assert (IH' : length (List.filter p l) ≤ length (List.filter q l)).
  { apply IH. intros x Hx. apply Hpq. by apply list_elem_of_further. }
  destruct (p a) eqn:Hp.
  - rewrite (Hpq a (list_elem_of_here _ _) Hp). simpl. lia.
  - destruct (q a); simpl; lia.
Qed.

Lemma count_none {A} (p : A → bool) l :
  (∀ x, x ∈ l → p x = false) → length (List.filter p l) = 0.
Proof.
  induction l as [|a l IH]; intros Hp; [done|]. simpl.
  rewrite (Hp a (list_elem_of_here _ _)). apply IH.
  intros x Hx. apply Hp. by apply list_elem_of_further.
Qed.

(** Changing the value at one place of a list without duplicates moves
    the count by one at most. *)
Lemma count_set `{EqDecision A} (p q : A → bool) l x :
  NoDup l → (∀ y, y ∈ l → y ≠ x → p y = q y) →
  length (List.filter p l) ≤ S (length (List.filter q l)).
Proof.
  induction 1 as [|a l Ha Hl IH]; intros Hpq; [simpl; lia|]. simpl.
  destruct (decide (a = x)) as [->|Hne].
  - assert (Hsame : length (List.filter p l) ≤ length (List.filter q l)).
    { apply count_le. intros y Hy Hp. rewrite <- Hpq; [done| |].
      - by apply list_elem_of_further.
      - by intros ->. }
    destruct (p x), (q x); simpl; lia.
  - rewrite (Hpq a (list_elem_of_here _ _) Hne).
    assert (IH' : length (List.filter p l) ≤ S (length (List.filter q l))).
    { apply IH. intros y Hy. apply Hpq. by apply list_elem_of_further. }
    destruct (q a); simpl; lia.
Qed.

Lemma count_unset `{EqDecision A} (p q : A → bool) l x :
  x ∈ l → p x = false → q x = true →
  (∀ y, y ∈ l → y ≠ x → p y = q y) →
  S (length (List.filter p l)) ≤ length (List.filter q l).
Proof.
  induction l as [|a l IH]; intros Hx Hp Hq Hpq.
  - by apply elem_of_nil in Hx.
  - simpl. destruct (decide (a = x)) as [->|Hne].
    + rewrite Hp, Hq. simpl.
      assert (length (List.filter p l) ≤ length (List.filter q l)); [|lia].
      apply count_le. intros y Hy Hpy.
      destruct (decide (y = x)) as [->|Hyx]; [done|].
      rewrite <- Hpq; [done| |done]. by apply list_elem_of_further.
    + apply elem_of_cons in Hx as [->|Hx]; [done|].
      rewrite (Hpq a (list_elem_of_here _ _) Hne).
      assert (IH' : S (length (List.filter p l))
                    ≤ length (List.filter q l)).
      { apply IH; try done. intros y Hy. apply Hpq.
        by apply list_elem_of_further. }
      destruct (q a); simpl; lia.
Qed.

End Used.

Section Colours.
Implicit Types (g : Gui.gui) (c : nat * nat).

Lemma assign_counts g b s f :
  (∀ fn, Gui.placed g fn ≤ Gui.used g fn) →
  ∀ fn, Gui.placed (Gui._assign_to_slot g b s f) fn
        ≤ Gui.used (Gui._assign_to_slot g b s f) fn.
Proof.
  intros Hinv fn. specialize (Hinv fn). unfold Gui.placed, Gui.used in *.
  cbn [Gui._assign_to_slot Gui.slots Gui.used_counts Gui.bank_count].
  destruct (decide (fn = f)) as [->|Hne].
  - rewrite lookup_insert_eq. simpl.
    etransitivity; [apply (count_set _
      (λ c, bool_decide (Gui.slots g c.1 c.2 = Some f)) _ (b, s))|lia].
    + apply cells_NoDup.
    + intros [b' s'] _ Hc. simpl. unfold Gui.set_slot.
      destruct (decide _) as [[-> ->]|]; done.
  - rewrite lookup_insert_ne by done.
    etransitivity; [|apply Hinv]. apply count_le.
    intros [b' s'] _ Hp%bool_decide_eq_true. apply bool_decide_eq_true.
    simpl in *. unfold Gui.set_slot in Hp.
    destruct (decide _); [congruence|done].
Qed.

Lemma clear_counts g b s :
  Gui.in_grid (Gui.bank_count g) b s = true →
  (∀ fn, Gui.placed g fn ≤ Gui.used g fn) →
  ∀ fn, Gui.placed (Gui._clear_slot g b s) fn
        ≤ Gui.used (Gui._clear_slot g b s) fn.
Proof.
  intros Hin%bool_decide_eq_true Hinv fn. unfold Gui._clear_slot.
  destruct (Py.truthy _) as [f|] eqn:Hf; [|apply Hinv].
  apply truthy_Some in Hf as [Hf _].
  specialize (Hinv fn). unfold Gui.placed, Gui.used in *.
  cbn [Gui.slots Gui.used_counts Gui.bank_count].
  destruct (decide (fn = f)) as [->|Hne].
  - assert (Hless :
      S (length (List.filter
           (λ c, bool_decide
                   (Gui.set_slot (Gui.slots g) b s None c.1 c.2 = Some f))
           (Gui.cells (Gui.bank_count g))))
      ≤ length (List.filter
                  (λ c, bool_decide (Gui.slots g c.1 c.2 = Some f))
                  (Gui.cells (Gui.bank_count g)))).
    { apply (count_unset _ _ _ (b, s)); [done| | |].
      - simpl. unfold Gui.set_slot. by rewrite decide_True.
      - simpl. by apply bool_decide_eq_true.
      - intros [b' s'] _ Hc. simpl. unfold Gui.set_slot.
        destruct (decide _) as [[-> ->]|]; done. }
    destruct (Gui.used_counts g !! f) as [n|] eqn:Hn.
    + rewrite lookup_insert_eq. simpl in *. lia.
    + rewrite Hn. simpl in *. lia.
  - assert (Hused : default 0
              (match Gui.used_counts g !! f with
               | Some n => <[f:=Nat.pred n]> (Gui.used_counts g)
               | None => Gui.used_counts g
               end !! fn)
            = default 0 (Gui.used_counts g !! fn)).
    { destruct (Gui.used_counts g !! f); [|done].
      by rewrite lookup_insert_ne. }
    rewrite Hused. etransitivity; [|apply Hinv]. apply count_le.
    intros [b' s'] _ Hp%bool_decide_eq_true. apply bool_decide_eq_true.
    simpl in *. unfold Gui.set_slot in Hp. destruct (decide _); done.
Qed.

Lemma perform_counts g a :
  Gui.on_widget (Gui.bank_count g) a = true →
  (∀ fn, Gui.placed g fn ≤ Gui.used g fn) →
  Gui.bank_count (Gui.perform g a) = Gui.bank_count g
  ∧ ∀ fn, Gui.placed (Gui.perform g a) fn ≤ Gui.used (Gui.perform g a) fn.
Proof.
  intros Hw Hinv. destruct a as [b s f|f|b s|]; cbn [Gui.perform].
  - split; [done|]. by apply assign_counts.
  - unfold Gui._on_double_click.
    destruct (find _ _) as [[b s]|]; [|done].
    split; [done|]. by apply assign_counts.
  - split; [|by apply clear_counts].
    unfold Gui._clear_slot. by destruct (Py.truthy _).
  - split; [done|]. intros fn. unfold Gui.placed.
    cbn [Gui._clear_all Gui.slots Gui.bank_count].
    rewrite count_none; [lia|].
    intros [b s] Hc. simpl. apply bool_decide_eq_false.
    unfold Gui.in_grid. by rewrite bool_decide_eq_true_2.
Qed.

(** X20.  As long as the drops and right clicks are on slots of the
    grid, a preset is counted as used at least as often as it is placed:
    a preset the list shows as unused, with a count of 0, is in no slot
    of the grid. *)
Theorem placed_presets_are_counted banks files actions filename :
  Forall (λ a, Gui.on_widget banks a = true) actions →
  let g := fold_left Gui.perform actions (Gui.start banks files) in
  Gui.placed g filename ≤ Gui.used g filename
  ∧ (Gui.used g filename = 0 →
     ∀ c, c ∈ Gui.cells (Gui.bank_count g) →
          Gui.slots g c.1 c.2 ≠ Some filename).
Proof.
  intros Hall. cbv zeta.
  assert (Hinv : ∀ g,
    Gui.bank_count g = banks →
    (∀ fn, Gui.placed g fn ≤ Gui.used g fn) →
    ∀ fn, Gui.placed (fold_left Gui.perform actions g) fn
          ≤ Gui.used (fold_left Gui.perform actions g) fn).
  { induction Hall as [|a actions Ha _ IH]; intros g Hb Hg; [done|].
    simpl. rewrite <- Hb in Ha.
    destruct (perform_counts g a Ha Hg) as [Hb' Hg'].
    apply IH; [congruence|done]. }
  set (g := fold_left Gui.perform actions (Gui.start banks files)).
  assert (Hg : Gui.placed g filename ≤ Gui.used g filename).
  { apply Hinv; [done|]. intros fn. unfold Gui.placed.
    rewrite count_none; [lia|]. intros c _. by apply bool_decide_eq_false. }
  split; [done|]. intros Hzero c Hc Hholds.
  rewrite Hzero in Hg. unfold Gui.placed in Hg.
  assert (Hin : c ∈ List.filter
                  (λ c, bool_decide (Gui.slots g c.1 c.2 = Some filename))
                  (Gui.cells (Gui.bank_count g))).
  { apply list_elem_of_In, filter_In. split; [by apply list_elem_of_In|].
    by apply bool_decide_eq_true. }
  destruct (List.filter _ _); [by apply elem_of_nil in Hin|simpl in Hg; lia].
Qed.

Lemma placed_counted_witness :
  let g := fold_left Gui.perform
             [Gui.Drop 1 1 "A.json"; Gui.Drop 1 1 "B.json";
              Gui.DoubleClick "A.json"; Gui.RightClick 1 2]
             (Gui.start 1 ["A.json"; "B.json"]) in
  Gui.placed g "A.json" ≤ Gui.used g "A.json"
  ∧ (Gui.used g "A.json" = 0 →
     ∀ c, c ∈ Gui.cells (Gui.bank_count g) →
          Gui.slots g c.1 c.2 ≠ Some "A.json").
Proof.
  apply (placed_presets_are_counted 1 ["A.json"; "B.json"]).
  repeat (apply Forall_cons; split; [vm_compute; reflexivity|]).
  apply Forall_nil_2.
Defined.

End Colours.

(** * The filter of the puller *)

Section PullerFilter.
Context `{PyRuntime}.

Lemma flush_filtered keep (before : gmap string file) st :
  ((∀ p f, Puller.out_dir st !! p = Some f →
           before !! p = Some f ∨ p ∈ keep)
   ∧ (keep = ∅ → Puller.out_dir st = before
                 ∧ Puller.saved (Puller.stats st) = 0)) →
  let st' := Puller.flush (Some keep) st in
  (∀ p f, Puller.out_dir st' !! p = Some f →
          before !! p = Some f ∨ p ∈ keep)
  ∧ (keep = ∅ → Puller.out_dir st' = before
                ∧ Puller.saved (Puller.stats st') = 0).
Proof.
  intros Hst. cbv zeta.
  destruct (flush_cases (Some keep) st) as [[_ ->]|(fn & _ & _ & Hc)];
    [done|].
  simpl in Hc. destruct Hc as [[_ ->]|(_ & ok & dir' & Hw & ->)]; [done|].
  pose proof (write_preset_file_cases fn (Puller.buffer st)
                (Puller.out_dir st) (Some keep)) as Hcases.
  simpl in Hcases. rewrite Hw in Hcases.
  destruct Hcases as [[[= -> ->] _]|(preset & _ & Hk & _ & [= -> ->])];
    simpl; [done|].
  apply bool_decide_eq_true in Hk. destruct Hst as [Hfiles Hempty]. split.
  - intros p f. rewrite lookup_insert. case_decide; [|apply Hfiles].
    intros _. right. by subst p.
  - intros ->. by apply elem_of_empty in Hk.
Qed.

(** X21.  With a filter, the puller adds only files named in it; with
    the empty set as filter it saves nothing and leaves the directory as
    it was. *)
Theorem puller_filter_decides_what_is_written lines dir keep :
  let r := Puller._extract_lines_to_files lines dir (Some keep) in
  (∀ p f, r.2 !! p = Some f → dir !! p = Some f ∨ p ∈ keep)
  ∧ (keep = ∅ → r.2 = dir ∧ Puller.saved r.1 = 0).
Proof.
  cbv zeta. unfold Puller._extract_lines_to_files. cbn [fst snd].
  apply (flush_filtered keep dir). unfold Puller.run_loop.
  apply (fold_left_invariant
           (λ st, (∀ p f, Puller.out_dir st !! p = Some f →
                          dir !! p = Some f ∨ p ∈ keep)
                  ∧ (keep = ∅ → Puller.out_dir st = dir
                                ∧ Puller.saved (Puller.stats st) = 0)));
    [split; [by left|done]|].
  intros st ln Hst.
  pose proof (flush_filtered keep dir st Hst) as Hfl. cbv zeta in Hfl.
  unfold Puller.step, Puller.push.
  repeat (match goal with
          | |- context [if ?b then _ else _] => destruct b
          end); done.
Qed.

End PullerFilter.

(** * Names that carry a drive *)

(** C10, on the failing input.  Under the Windows flavour of [pathlib]
    the name kept from the announcement of [x/C:evil.json] is
    [C:evil.json], in the converter and in the puller alike.  It holds no
    separator, but it carries a drive: joined to the output directory,
    which both tools give without a drive, it denotes [C:evil.json] in
    the current directory of drive [C:] and not a file of the output
    directory, where an ordinary name such as [Tone1.json] stays. *)
Theorem drive_name_leaves_the_output_directory :
  Windows.announced Scenario.announce_drive = Some "C:evil.json"
  ∧ Windows._basename
      (Py.strip (Py.after_first ":"%char Scenario.announce_drive))
    = Some "C:evil.json"
  ∧ PathLib.no_slash "C:evil.json"
  ∧ Windows.render
      <$> Windows.out_file "presets_json_2025-01-01_00-00" "C:evil.json"
    = Some "C:evil.json"
  ∧ (d ← Windows.parse "presets_json_2025-01-01_00-00";
     p ← Windows.out_file "presets_json_2025-01-01_00-00" "C:evil.json";
     Some (Windows.directly_inside d p)) = Some false
  ∧ (d ← Windows.parse "presets_20250101_000000";
     p ← Windows.out_file "presets_20250101_000000" "C:evil.json";
     Some (Windows.render p, Windows.directly_inside d p))
    = Some ("C:evil.json", false)
  ∧ (d ← Windows.parse "presets_json_2025-01-01_00-00";
     p ← Windows.out_file "presets_json_2025-01-01_00-00" "Tone1.json";
     Some (Windows.directly_inside d p)) = Some true.
Proof. repeat split; by vm_compute. Qed.

Lemma basename_witness :
  FS.only_adds_basenames ∅
    (Converter.r_out_dir
       (Converter._extract_lines_to_files (H:=Ref.runtime)
          Scenario.climbing_lines ∅ [] None))
  ∧ Converter.r_out_dir
      (Converter._extract_lines_to_files (H:=Ref.runtime)
         Scenario.climbing_lines ∅ [] None)
    = {["Tone1.json" := PresetFile Scenario.tone1_object]}.
Proof.
  destruct (@written_names_are_basenames Ref.runtime)
    as (_ & _ & _ & _ & Hconv & _).
  split; [apply Hconv|]. vm_compute. reflexivity.
Defined.

(** * C4: payloads that do not decode *)

Section BrokenPayloads.
Context `{PyRuntime}.
Implicit Types (io : option (gset string)).




End BrokenPayloads.


(** * C6: what the puller hands off *)

Section Captures.
Context `{PyRuntime}.
Implicit Types (io : option (gset string)) (st : Puller.state).









End Captures.

